(** * Multi-task dataset composition (ocpmodels/trainers/mt)

    A shallow embedding of [dataset_transform.py] and [dataset.py]:
    the proxy decorators over indexable datasets, the task tagging
    transform, and the resampling computation that sizes the per-task
    train datasets before they are concatenated.

    Conventions.
    - Python integers are [Z]; Python exceptions are the constructors of
      [PyErr], raised through the [result] monad.
    - Python and NumPy floats are IEEE 754 binary64 values, tensors of
      dtype [torch.float] hold binary32 values; both are [spec_float]
      with the operations of the standard library's [SpecFloat], so that
      rounding, infinities and NaN behave as they do at run time.
    - A [torch_geometric] [Data] record is a finite map from attribute
      names to values. *)

From stdpp Require Import gmap strings list.
From Stdlib Require Import ZArith Lia SpecFloat.

Open Scope Z_scope.

(** ** Exceptions *)

Inductive PyErr : Set :=
| TypeError
| ValueError
| IndexError
| AssertionError
| ZeroDivisionError
| NotImplementedError
| RuntimeError
| AttributeError
| OverflowError
| EinopsError.

Inductive result (A : Type) : Type :=
| Ok (a : A)
| Raise (e : PyErr).
Arguments Ok {A} a.
Arguments Raise {A} e.

#[export] Instance result_ret : MRet result := fun _ a => Ok a.
#[export] Instance result_bind : MBind result := fun _ _ f m =>
  match m with
  | Ok a => f a
  | Raise e => Raise e
  end.

(** [[f(x) for x in xs]], stopping at the first exception. *)
Fixpoint map_result {A B : Type} (f : A -> result B) (xs : list A) : result (list B) :=
  match xs with
  | [] => Ok []
  | x :: xs' => y ← f x; ys ← map_result f xs'; Ok (y :: ys)
  end.

(** [for x in xs: st = f(st, x)], stopping at the first exception. *)
Fixpoint fold_result {A S : Type} (f : S -> A -> result S) (xs : list A) (st : S) : result S :=
  match xs with
  | [] => Ok st
  | x :: xs' => st' ← f st x; fold_result f xs' st'
  end.

Definition is_ok {A : Type} (r : result A) : bool :=
  match r with Ok _ => true | Raise _ => false end.

(** ** Python integer helpers *)

(** [a % b] on Python integers (floor modulus, sign of the divisor). *)
Definition py_mod (a b : Z) : result Z :=
  if b =? 0 then Raise ZeroDivisionError else Ok (a mod b).

(** [range(n)] *)
Definition range (n : Z) : list Z := map Z.of_nat (seq 0 (Z.to_nat n)).

(** [l[i]] on a Python sequence: negative indices count from the end. *)
Definition py_index {A : Type} (l : list A) (i : Z) : result A :=
  let len := Z.of_nat (length l) in
  let j := if i <? 0 then i + len else i in
  if (j <? 0) || (len <=? j) then Raise IndexError
  else match l !! Z.to_nat j with
       | Some x => Ok x
       | None => Raise IndexError
       end.

(** [l[:n]] *)
Definition py_slice_to {A : Type} (l : list A) (n : Z) : list A :=
  if n <? 0 then take (Z.to_nat (Z.of_nat (length l) + n)) l
  else take (Z.to_nat n) l.

Definition int64_min : Z := - 2 ^ 63.
Definition int64_max : Z := 2 ^ 63 - 1.
Definition in_int64 (z : Z) : bool := (int64_min <=? z) && (z <=? int64_max).

(** Two's complement wrap-around of NumPy [int64] scalar arithmetic. *)
Definition wrap_int64 (z : Z) : Z := (z + 2 ^ 63) mod 2 ^ 64 - 2 ^ 63.

(** ** IEEE 754 binary floating point

    [binary64] is the format of Python [float] and NumPy [float64];
    [binary32] is [torch.float]. *)

Inductive FloatFormat : Set := Binary32 | Binary64.

Definition fprec (fmt : FloatFormat) : Z :=
  match fmt with Binary32 => 24 | Binary64 => 53 end.
Definition femax (fmt : FloatFormat) : Z :=
  match fmt with Binary32 => 128 | Binary64 => 1024 end.

Definition float_of_Z (fmt : FloatFormat) (z : Z) : spec_float :=
  binary_normalize (fprec fmt) (femax fmt) z 0 false.

Definition float_mul (fmt : FloatFormat) : spec_float -> spec_float -> spec_float :=
  SFmul (fprec fmt) (femax fmt).

Definition f64_add : spec_float -> spec_float -> spec_float := SFadd 53 1024.
Definition f64_mul : spec_float -> spec_float -> spec_float := SFmul 53 1024.
Definition f64_div : spec_float -> spec_float -> spec_float := SFdiv 53 1024.
Definition f64_of_int : Z -> spec_float := float_of_Z Binary64.
Definition f64_zero : spec_float := S754_zero false.
Definition f64_one : spec_float := Eval vm_compute in f64_of_int 1.
Definition f64_half : spec_float := S754_finite false 4503599627370496 (-53).

Definition is_nan (x : spec_float) : bool :=
  match x with S754_nan => true | _ => false end.

Definition is_zero (x : spec_float) : bool :=
  match x with S754_zero _ => true | _ => false end.

Definition is_finite (x : spec_float) : bool :=
  match x with S754_zero _ | S754_finite _ _ _ => true | _ => false end.

(** The value is a canonical member of binary64. *)
Definition f64_valid : spec_float -> bool := valid_binary 53 1024.

(** Strictly positive and finite. *)
Definition f64_pos_finite (x : spec_float) : bool :=
  match x with S754_finite false _ _ => f64_valid x | _ => false end.

(** Python [float / float]. *)
Definition py_float_div (a b : spec_float) : result spec_float :=
  if is_zero b then Raise ZeroDivisionError else Ok (f64_div a b).

(** Python [int / int]: the correctly rounded quotient. *)
Definition py_int_truediv (a b : Z) : result spec_float :=
  if b =? 0 then Raise ZeroDivisionError
  else if a =? 0 then Ok f64_zero
  else
    let '(q, e, l) := SFdiv_core_binary 53 1024 (Z.abs a) 0 (Z.abs b) 0 in
    match binary_round_aux 53 1024 (xorb (a <? 0) (b <? 0)) q e l with
    | S754_infinity _ => Raise OverflowError
    | x => Ok x
    end.

(** Python [sum] over floats: left to right, starting from the integer 0. *)
Definition py_sum_float (l : list spec_float) : spec_float :=
  fold_left f64_add l f64_zero.

(** Python [sum] over the [int64] scalars of a NumPy array. *)
Definition np_sum_int64 (l : list Z) : Z :=
  fold_left (fun acc x => wrap_int64 (acc + x)) l 0.

(** One step of NumPy's [minimum] reduction: NaN wins. *)
Definition np_minimum (acc x : spec_float) : spec_float :=
  if SFltb acc x || is_nan acc then acc else x.

(** [np.min] of a one-dimensional [float64] array. *)
Definition np_min (l : list spec_float) : result spec_float :=
  match l with
  | [] => Raise ValueError
  | x :: xs => Ok (fold_left np_minimum xs x)
  end.

(** [np.ceil] on a [float64]. *)
Definition np_ceil (x : spec_float) : spec_float :=
  match x with
  | S754_finite s m e =>
      if 0 <=? e then x
      else binary_normalize 53 1024 (- ((- cond_Zopp s (Zpos m)) / 2 ^ (- e))) 0 s
  | _ => x
  end.

(** [.astype(int)] on a [float64]: truncation toward zero; a value with no
    [int64] counterpart (NaN, an infinity, out of range) becomes the
    smallest [int64], which is what the conversion yields on x86-64. *)
Definition astype_int (x : spec_float) : Z :=
  match x with
  | S754_zero _ => 0
  | S754_finite s m e =>
      let mag := if 0 <=? e then Zpos m * 2 ^ e else Zpos m / 2 ^ (- e) in
      let z := cond_Zopp s mag in
      if in_int64 z then z else int64_min
  | _ => int64_min
  end.

(** NumPy broadcasting of a binary operation over one-dimensional arrays. *)
Definition broadcast2 {A B C : Type} (f : A -> B -> C) (xs : list A) (ys : list B)
  : result (list C) :=
  if (length xs =? length ys)%nat then Ok (zip_with f xs ys)
  else match xs, ys with
       | [x], _ => Ok (map (f x) ys)
       | _, [y] => Ok (map (fun x => f x y) xs)
       | _, _ => Raise ValueError
       end.

(** ** Tensors and records *)

Inductive Tensor : Type :=
| BoolTensor (shape : list nat) (data : list bool)
| LongTensor (shape : list nat) (data : list Z)
| FloatTensor (fmt : FloatFormat) (shape : list nat) (data : list spec_float).

Definition tensor_shape (t : Tensor) : list nat :=
  match t with
  | BoolTensor sh _ | LongTensor sh _ | FloatTensor _ sh _ => sh
  end.

Definition numel (t : Tensor) : nat :=
  match t with
  | BoolTensor _ d => length d
  | LongTensor _ d => length d
  | FloatTensor _ _ d => length d
  end.

Definition reshape (t : Tensor) (sh : list nat) : Tensor :=
  match t with
  | BoolTensor _ d => BoolTensor sh d
  | LongTensor _ d => LongTensor sh d
  | FloatTensor fmt _ d => FloatTensor fmt sh d
  end.

(** An attribute value of a [Data] record. *)
Inductive Value : Type :=
| VNone
| VInt (z : Z)
| VFloat (f : spec_float)
| VTensor (t : Tensor).

(** What a dataset may return on item access. *)
Inductive PyObj : Type :=
| PyData (d : gmap string Value)
| PyOther (v : Value).

(** [torch.tensor(v, dtype=torch.long)] on a Python integer: the
    integer is unpacked to an [int64], which fails outside its range. *)
Definition torch_tensor_long (z : Z) : result Tensor :=
  if in_int64 z then Ok (LongTensor [] [z]) else Raise ValueError.

(** The conversion of a C double to a C float: rounding to binary32. *)
Definition float32_of_float64 (f : spec_float) : spec_float :=
  match f with
  | S754_finite s m e => binary_round 24 128 s m e
  | _ => f
  end.

(** [torch.tensor(v, dtype=torch.float)] on a Python number: the number
    is unpacked to a C double and stored as a float.  For a Python
    integer the first step is [float(v)], the correctly rounded double,
    which raises [OverflowError] when the integer is too large for one. *)
Definition torch_tensor_float (v : Value) : result Tensor :=
  match v with
  | VInt z =>
      match f64_of_int z with
      | S754_infinity _ => Raise OverflowError
      | f => Ok (FloatTensor Binary32 [] [float32_of_float64 f])
      end
  | VFloat f => Ok (FloatTensor Binary32 [] [float32_of_float64 f])
  | VTensor t => Ok t
  | VNone => Raise RuntimeError
  end.

(** [F.one_hot(torch.tensor(idx), num_classes).bool()] for a scalar index. *)
Definition one_hot (idx num_classes : Z) : result (list bool) :=
  if idx <? 0 then Raise RuntimeError
  else
    let n := if num_classes =? -1 then idx + 1 else num_classes in
    if (n <=? 0) || (n <=? idx) then Raise RuntimeError
    else Ok (map (fun j => j =? idx) (range n)).

(** [value.view(-1)] *)
Definition view_flat (t : Tensor) : Tensor := reshape t [numel t].

(** [rearrange(value, "1 -> 1 1")] *)
Definition rearrange_1_to_1_1 (t : Tensor) : result Tensor :=
  match tensor_shape t with
  | [1%nat] => Ok (reshape t [1%nat; 1%nat])
  | _ => Raise EinopsError
  end.

(** [rearrange(value, "n ... -> n ... 1")] *)
Definition rearrange_append_1 (t : Tensor) : result Tensor :=
  match tensor_shape t with
  | [] => Raise EinopsError
  | sh => Ok (reshape t (sh ++ [1%nat]))
  end.

(** Reordering of the flat data for [rearrange(value, "n ... t -> n t ...")],
    where [r] is the number of elements of the middle axes. *)
Definition move_last_to_second {A : Type} (t r : nat) (l : list A) : list A :=
  omap (fun k => l !! ((k / (t * r)) * (r * t) + (k mod r) * t + (k / r) mod t)%nat)
       (seq 0 (length l)).

(** [rearrange(value, "n ... t -> n t ...")] *)
Definition rearrange_last_to_second (x : Tensor) : result Tensor :=
  match tensor_shape x with
  | n :: rest =>
      match last rest with
      | None => Raise EinopsError
      | Some t =>
          let mid := removelast rest in
          let r := foldr Nat.mul 1%nat mid in
          let sh := n :: t :: mid in
          Ok match x with
             | BoolTensor _ d => BoolTensor sh (move_last_to_second t r d)
             | LongTensor _ d => LongTensor sh (move_last_to_second t r d)
             | FloatTensor fmt _ d => FloatTensor fmt sh (move_last_to_second t r d)
             end
      end
  | [] => Raise EinopsError
  end.

(** A Python [bool] promoted to the float format of the other operand. *)
Definition float_of_bool (fmt : FloatFormat) (b : bool) : spec_float :=
  if b then float_of_Z fmt 1 else S754_zero false.

(** [value * onehot] where [value] has a trailing axis of size 1 and
    [onehot] is a one-dimensional boolean tensor: the trailing axis is
    broadcast against [onehot], and the result keeps the dtype of
    [value]. *)
Definition mul_onehot (value : Tensor) (onehot : list bool) : Tensor :=
  let sh := removelast (tensor_shape value) ++ [length onehot] in
  match value with
  | BoolTensor _ d =>
      BoolTensor sh (flat_map (fun v => map (andb v) onehot) d)
  | LongTensor _ d =>
      LongTensor sh (flat_map (fun v => map (fun b => v * Z.b2z b) onehot) d)
  | FloatTensor fmt _ d =>
      FloatTensor fmt sh
        (flat_map (fun v => map (fun b => float_mul fmt v (float_of_bool fmt b)) onehot) d)
  end.

(** ** Datasets and their decorators ([dataset_transform.py])

    A terminal dataset is given by what it answers to [__len__] (absent
    when it is not [Sized]), to [__getitem__] and to the [atoms_metadata]
    property (absent when it has none).  Each [wrapt.ObjectProxy] subclass
    of the source is a constructor holding the captured variables and the
    wrapped dataset; a method the subclass does not override is forwarded
    to the wrapped dataset. *)

Record RawDataset : Type := {
  raw_len : option Z;
  raw_getitem : Z -> result PyObj;
  raw_atoms_metadata : option (list Z);
}.

Inductive Dataset : Type :=
| Raw (r : RawDataset)
| _TransformedDataset (transform : PyObj -> result PyObj) (copy_data : bool)
                      (wrapped : Dataset)
| _ExpandedDataset (n og_size : Z) (wrapped : Dataset)
| _FirstNDataset (n : Z) (wrapped : Dataset)
| _SampleNDataset (n : Z) (sampled_indices : list Z) (wrapped : Dataset).

(** [isinstance(dataset, abc.Sized)]: every proxy class defines [__len__]. *)
Definition is_sized (d : Dataset) : bool :=
  match d with
  | Raw r => bool_decide (is_Some (raw_len r))
  | _ => true
  end.

(** [dataset.__len__()] *)
Fixpoint __len__ (d : Dataset) : result Z :=
  match d with
  | Raw r => match raw_len r with Some l => Ok l | None => Raise TypeError end
  | _TransformedDataset _ _ w => __len__ w
  | _ExpandedDataset n _ _ => Ok n
  | _FirstNDataset n _ => Ok n
  | _SampleNDataset n _ _ => Ok n
  end.

(** [sys.maxsize] of a 64-bit build. *)
Definition sys_maxsize : Z := 2 ^ 63 - 1.

(** The builtin [len] on what [__len__] has returned: a negative length
    is a [ValueError], one above [sys.maxsize] does not fit the index
    type and is an [OverflowError]. *)
Definition builtin_len (l : Z) : result Z :=
  if l <? 0 then Raise ValueError
  else if sys_maxsize <? l then Raise OverflowError
  else Ok l.

(** The builtin [len(dataset)]. *)
Definition len (d : Dataset) : result Z :=
  l ← __len__ d; builtin_len l.

(** [copy.deepcopy]: records are values here, a copy is the record itself. *)
Definition deepcopy (x : PyObj) : PyObj := x.

(** [dataset.__getitem__(idx)] *)
Fixpoint __getitem__ (d : Dataset) (idx : Z) : result PyObj :=
  match d with
  | Raw r => raw_getitem r idx
  | _TransformedDataset transform copy_data w =>
      data ← __getitem__ w idx;
      let data := if copy_data then deepcopy data else data in
      transform data
  | _ExpandedDataset n og_size w =>
      if (idx <? 0) || (n <=? idx) then Raise IndexError
      else i ← py_mod idx og_size; __getitem__ w i
  | _FirstNDataset n w =>
      if (idx <? 0) || (n <=? idx) then Raise IndexError
      else __getitem__ w idx
  | _SampleNDataset n sampled_indices w =>
      if (idx <? 0) || (n <=? idx) then Raise IndexError
      else i ← py_index sampled_indices idx; __getitem__ w i
  end.

(** [np.resize(metadata, (n,))]: the array repeated up to length [n];
    an empty array is resized to zeros. *)
Definition np_resize (metadata : list Z) (n : Z) : list Z :=
  match metadata with
  | [] => replicate (Z.to_nat n) 0
  | _ => omap (fun i => metadata !! (i mod length metadata)%nat) (seq 0 (Z.to_nat n))
  end.

(** [dataset.atoms_metadata]; the [@cache] of the source stores the value
    computed here, which depends on the dataset only. *)
Fixpoint atoms_metadata (d : Dataset) : result (list Z) :=
  match d with
  | Raw r =>
      match raw_atoms_metadata r with
      | Some m => Ok m
      | None => Raise AttributeError
      end
  | _TransformedDataset _ _ w => atoms_metadata w
  | _ExpandedDataset n _ w =>
      metadata ← atoms_metadata w; Ok (np_resize metadata n)
  | _FirstNDataset n w =>
      metadata ← atoms_metadata w; Ok (py_slice_to metadata n)
  | _SampleNDataset _ sampled_indices w =>
      metadata ← atoms_metadata w; map_result (py_index metadata) sampled_indices
  end.

(** The random generator of NumPy, outside the repository:
    [np.random.default_rng(seed).choice(a, size, replace=False)] builds a
    fresh generator from [seed], so the draw is a function of its three
    arguments; for a valid seed and [0 <= size <= a] it returns [size]
    pairwise distinct members of [range(a)]. *)
Class NumpyRandom : Type := {
  rng_choice : Z -> Z -> Z -> result (list Z);
  rng_choice_ok : forall seed a size,
    0 <= seed -> 0 <= size <= a -> is_ok (rng_choice seed a size) = true;
  rng_choice_sound : forall seed a size l,
    rng_choice seed a size = Ok l ->
    length l = Z.to_nat size /\ Forall (fun i => 0 <= i < a) l /\ NoDup l;
}.

Definition dataset_transform (dataset : Dataset) (transform : PyObj -> result PyObj)
    (copy_data : bool) : Dataset :=
  _TransformedDataset transform copy_data dataset.

Definition expand_dataset (dataset : Dataset) (n : Z) : result Dataset :=
  if negb (is_sized dataset) then Raise TypeError
  else
    og_size ← len dataset;
    if n <? og_size then Raise ValueError
    else Ok (_ExpandedDataset n og_size dataset).

Definition first_n_transform (dataset : Dataset) (n : Z) : result Dataset :=
  if negb (is_sized dataset) then Raise TypeError
  else
    size ← len dataset;
    if size <? n then Raise ValueError
    else Ok (_FirstNDataset n dataset).

Definition sample_n_transform `{NumpyRandom} (dataset : Dataset) (n seed : Z)
  : result Dataset :=
  if negb (is_sized dataset) then Raise TypeError
  else
    size ← len dataset;
    if size <? n then Raise ValueError
    else
      sampled_indices ← rng_choice seed size n;
      Ok (_SampleNDataset n sampled_indices dataset).

(** [torch.utils.data.ConcatDataset], outside the repository: the datasets
    and the running totals of their lengths. *)
Record ConcatDataset : Type := {
  datasets : list Dataset;
  cumulative_sizes : list Z;
}.

Definition cumsum (sizes : list Z) : list Z :=
  (fix go (acc : Z) (l : list Z) : list Z :=
     match l with
     | [] => []
     | s :: l' => (acc + s) :: go (acc + s) l'
     end) 0 sizes.

Definition make_ConcatDataset (ds : list Dataset) : result ConcatDataset :=
  match ds with
  | [] => Raise AssertionError
  | _ => sizes ← map_result len ds;
         Ok {| datasets := ds; cumulative_sizes := cumsum sizes |}
  end.

Definition concat_len (c : ConcatDataset) : Z :=
  default 0 (last (cumulative_sizes c)).

(** [bisect.bisect_right(a, x)] on a sorted list. *)
Fixpoint bisect_right (a : list Z) (x : Z) : nat :=
  match a with
  | [] => O
  | y :: a' => if y <=? x then S (bisect_right a' x) else O
  end.

Definition concat_getitem (c : ConcatDataset) (idx : Z) : result PyObj :=
  if (idx <? 0) && (concat_len c <? - idx) then Raise ValueError
  else
    let idx := if idx <? 0 then concat_len c + idx else idx in
    let dataset_idx := bisect_right (cumulative_sizes c) idx in
    let sample_idx :=
      match dataset_idx with
      | O => idx
      | S k => idx - default 0 (cumulative_sizes c !! k)
      end in
    match datasets c !! dataset_idx with
    | Some d => __getitem__ d sample_idx
    | None => Raise IndexError
    end.

(** ** Task tagging and composition ([dataset.py]) *)

Record OneHotTargetsConfig : Type := {
  graph_level : list string;
  node_level : list string;
}.

Inductive SamplingConfig : Type :=
| FullyBalancedSamplingConfig
| TemperatureSamplingConfig (temperature : spec_float)
| OtherSamplingConfig.

Record SplitDatasetConfig : Type := {
  format : string;
  src : string;
}.

Record TaskDatasetConfig : Type := {
  train : option SplitDatasetConfig;
  val : option SplitDatasetConfig;
  test : option SplitDatasetConfig;
}.

Record DatasetConfig : Type := {
  config_datasets : list TaskDatasetConfig;
  sampling : SamplingConfig;
  one_hot_targets : OneHotTargetsConfig;
}.

(** The collaborators outside the repository: the dataset registry
    (lookup of the class for [config.format], the subclass assertion and
    the construction from [config.to_dict()]), and the power operator of
    Python floats. *)
Class Collaborators : Type := {
  registry_create : SplitDatasetConfig -> result Dataset;
  py_float_pow : spec_float -> spec_float -> result spec_float;
}.

(** [f"{key}_onehot"] *)
Definition onehot_name (key : string) : string := key +:+ "_onehot".

(** [getattr(data, key, None)] *)
Definition getattr_or_none (data : gmap string Value) (key : string) : Value :=
  default VNone (data !! key).

(** The value read by [_update_graph_value], as the [(1, 1)] tensor that
    is multiplied by the one-hot vector. *)
Definition graph_value (value : Value) : result Tensor :=
  value ← match value with
           | VTensor t => Ok t
           | _ => torch_tensor_float value
           end;
  rearrange_1_to_1_1 (view_flat value).

Definition _update_graph_value (data : gmap string Value) (key : string)
    (onehot : list bool) : result (gmap string Value) :=
  match getattr_or_none data key with
  | VNone => Raise AssertionError
  | value =>
      value ← graph_value value;
      Ok (<[onehot_name key := VTensor (mul_onehot value onehot)]> data)
  end.

Definition _update_node_value (data : gmap string Value) (key : string)
    (onehot : list bool) : result (gmap string Value) :=
  match getattr_or_none data key with
  | VNone => Raise AssertionError
  | VTensor value =>
      value ← rearrange_append_1 value;
      let value := mul_onehot value onehot in
      value ← (if (2 <? length (tensor_shape value))%nat
                then rearrange_last_to_second value
                else Ok value);
      Ok (<[onehot_name key := VTensor value]> data)
  | _ => Raise AssertionError
  end.

(** The closure [_transform] of [_create_split_dataset]. *)
Definition _transform (task_idx total_num_tasks : Z)
    (one_hot_targets : OneHotTargetsConfig) (data : PyObj) : result PyObj :=
  match data with
  | PyOther _ => Raise TypeError
  | PyData data =>
      idx ← torch_tensor_long task_idx;
      let data := <["task_idx" := VTensor idx]> data in
      onehot ← one_hot task_idx total_num_tasks;
      let data := <["task_mask" := VTensor (BoolTensor [1%nat; length onehot] onehot)]> data in
      data ← fold_result (fun d key => _update_graph_value d key onehot)
                         (graph_level one_hot_targets) data;
      data ← fold_result (fun d key => _update_node_value d key onehot)
                         (node_level one_hot_targets) data;
      Ok (PyData data)
  end.

Definition _create_split_dataset `{Collaborators} (config : SplitDatasetConfig)
    (task_idx total_num_tasks : Z) (one_hot_targets : OneHotTargetsConfig)
  : result Dataset :=
  dataset ← registry_create config;
  Ok (dataset_transform dataset (_transform task_idx total_num_tasks one_hot_targets) false).

Definition create_optional_split `{Collaborators} (config : option SplitDatasetConfig)
    (task_idx total_num_tasks : Z) (one_hot_targets : OneHotTargetsConfig)
  : result (option Dataset) :=
  match config with
  | Some c => d ← _create_split_dataset c task_idx total_num_tasks one_hot_targets;
              Ok (Some d)
  | None => Ok None
  end.

Definition _create_task_datasets `{Collaborators} (config : TaskDatasetConfig)
    (task_idx total_num_tasks : Z) (one_hot_targets : OneHotTargetsConfig)
  : result (option Dataset * option Dataset * option Dataset) :=
  train_dataset ← create_optional_split (train config) task_idx total_num_tasks one_hot_targets;
  val_dataset ← create_optional_split (val config) task_idx total_num_tasks one_hot_targets;
  test_dataset ← create_optional_split (test config) task_idx total_num_tasks one_hot_targets;
  Ok (train_dataset, val_dataset, test_dataset).

(** The steps of [_merged_dataset].  The sizes are the [int64] entries of
    [np.array(dataset_sizes_list)], the ratios the [float64] entries of
    [np.array(ratios_list)]. *)

(** [sum(dataset_sizes) / sum(ratios)] *)
Definition target_size (dataset_sizes : list Z) (ratios : list spec_float) : spec_float :=
  f64_div (f64_of_int (np_sum_int64 dataset_sizes)) (py_sum_float ratios).

(** [target_size * ratios / dataset_sizes] *)
Definition raw_expansion_factors (dataset_sizes : list Z) (ratios : list spec_float)
  : result (list spec_float) :=
  broadcast2 f64_div (map (f64_mul (target_size dataset_sizes ratios)) ratios)
             (map f64_of_int dataset_sizes).

(** [expansion_factors / np.min(expansion_factors)] *)
Definition divide_by_min (expansion_factors : list spec_float) : result (list spec_float) :=
  m ← np_min expansion_factors;
  Ok (map (fun f => f64_div f m) expansion_factors).

(** [np.ceil(x).astype(int)] on every entry. *)
Definition ceil_to_int (xs : list spec_float) : list Z :=
  map (fun x => astype_int (np_ceil x)) xs.

(** [np.ceil(dataset_sizes * (expansion_factors / np.min(expansion_factors))).astype(int)] *)
Definition samples_per_dataset (dataset_sizes : list Z) (expansion_factors : list spec_float)
  : result (list Z) :=
  factors ← divide_by_min expansion_factors;
  products ← broadcast2 f64_mul (map f64_of_int dataset_sizes) factors;
  Ok (ceil_to_int products).

Definition _merged_dataset (dataset_sizes_list : list Z) (ratios_list : list spec_float)
  : result (list Z) :=
  match dataset_sizes_list, ratios_list with
  | [], [] => Raise ZeroDivisionError
  | dataset_sizes, ratios =>
      expansion_factors ← raw_expansion_factors dataset_sizes ratios;
      expansion_factors ← divide_by_min expansion_factors;
      samples_per_dataset dataset_sizes expansion_factors
  end.

(** The count formula without the second division by the minimum:
    [np.ceil(dataset_sizes * expansion_factors).astype(int)]. *)
Definition samples_single_step (dataset_sizes : list Z) (expansion_factors : list spec_float)
  : result (list Z) :=
  products ← broadcast2 f64_mul (map f64_of_int dataset_sizes) expansion_factors;
  Ok (ceil_to_int products).

(** [sum] over Python integers. *)
Definition py_sum_int (l : list Z) : Z := fold_left Z.add l 0.

Definition sampling_ratios `{Collaborators} (sampling : SamplingConfig)
    (dataset_sizes : list Z) : result (list spec_float) :=
  match sampling with
  | FullyBalancedSamplingConfig => Ok (map (fun _ => f64_one) dataset_sizes)
  | TemperatureSamplingConfig temperature =>
      let total_size := py_sum_int dataset_sizes in
      map_result (fun size =>
                    base ← py_int_truediv size total_size;
                    exponent ← py_float_div f64_one temperature;
                    py_float_pow base exponent)
                 dataset_sizes
  | OtherSamplingConfig => Raise NotImplementedError
  end.

Definition _combine_datasets `{Collaborators} (sampling : SamplingConfig)
    (datasets : list Dataset) : result ConcatDataset :=
  dataset_sizes ←
    map_result (fun d => if negb (is_sized d) then Raise TypeError else len d) datasets;
  ratios ← sampling_ratios sampling dataset_sizes;
  ratios ← map_result (fun r => py_float_div r (py_sum_float ratios)) ratios;
  expanded_dataset_sizes ← _merged_dataset dataset_sizes ratios;
  expanded_datasets ←
    map_result (fun dn => expand_dataset (fst dn) (snd dn))
               (zip datasets expanded_dataset_sizes);
  combined_dataset ← make_ConcatDataset expanded_datasets;
  (* the log line takes [len(combined_dataset)] *)
  _ ← builtin_len (concat_len combined_dataset);
  Ok combined_dataset.

(** [ConcatDataset(ds) if ds else None] *)
Definition concat_if_any (ds : list Dataset) : result (option ConcatDataset) :=
  match ds with
  | [] => Ok None
  | _ => c ← make_ConcatDataset ds; Ok (Some c)
  end.

Definition create_datasets `{Collaborators} (config : DatasetConfig)
  : result (option ConcatDataset * option ConcatDataset * option ConcatDataset) :=
  let total_num_tasks := Z.of_nat (length (config_datasets config)) in
  if total_num_tasks <=? 0 then Raise AssertionError
  else
    per_task ←
      map_result (fun it => _create_task_datasets (snd it) (fst it) total_num_tasks
                                                  (one_hot_targets config))
                 (zip (range total_num_tasks) (config_datasets config));
    let train_datasets := omap (fun t => fst (fst t)) per_task in
    let val_datasets := omap (fun t => snd (fst t)) per_task in
    let test_datasets := omap snd per_task in
    train_dataset ←
      match train_datasets with
      | [] => Ok None
      | _ => c ← _combine_datasets (sampling config) train_datasets; Ok (Some c)
      end;
    val_dataset ← concat_if_any val_datasets;
    test_dataset ← concat_if_any test_datasets;
    Ok (train_dataset, val_dataset, test_dataset).

(** ** Notions used to state the properties of the float computations *)

(** A positive mantissa [m] with the exponent [e] that its magnitude calls
    for in the format [(prec, emax)]. *)
Definition canonical (prec emax m e : Z) : Prop :=
  0 < m /\ fexp prec emax (Zdigits2 m + e) = e.

(** [m1 * 2^e1 <= m2 * 2^e2], stated on integers. *)
Definition scaled_le (m1 e1 m2 e2 : Z) : Prop :=
  m1 * 2 ^ (e1 - Z.min e1 e2) <= m2 * 2 ^ (e2 - Z.min e1 e2).

(** The float 1.0 of a format of precision [prec]. *)
Definition fone (prec : Z) : spec_float :=
  S754_finite false (Z.to_pos (2 ^ (prec - 1))) (1 - prec).

(** The value is a canonical member of the format. *)
Definition float_valid (fmt : FloatFormat) (x : spec_float) : bool :=
  valid_binary (fprec fmt) (femax fmt) x.

(** At least one, and a canonical member of binary64: what a positive
    finite factor divided by the minimum is. *)
Definition rescaled_ok (x : spec_float) : Prop :=
  SFleb f64_one x = true /\ f64_valid x = true.

(** The float [m * 2^e] is the integer [s]. *)
Definition represents (s : Z) (m : positive) (e : Z) : Prop :=
  (e <= 0 /\ Zpos m = s * 2 ^ (- e)) \/ (0 < e /\ s = Zpos m * 2 ^ e).

(** [slots] has [n] entries: [x] at position [idx], [zero] everywhere
    else. *)
Definition one_slot {A : Type} (slots : list A) (n idx : nat) (x zero : A) : Prop :=
  length slots = n
  /\ slots !! idx = Some x
  /\ forall j, (j < n)%nat -> j <> idx -> slots !! j = Some zero.

(** The record [item] carries the tags of a task of [tasks] that has the
    split [split]: its [task_idx] is the position [k] of the task in
    [tasks] and its [task_mask] is the one-hot row of [k] among all the
    tasks. *)
Definition tagged_for (tasks : list TaskDatasetConfig)
    (split : TaskDatasetConfig -> option SplitDatasetConfig) (item : PyObj) : Prop :=
  exists data k task,
    item = PyData data
    /\ tasks !! k = Some task /\ is_Some (split task)
    /\ data !! "task_idx" = Some (VTensor (LongTensor [] [Z.of_nat k]))
    /\ data !! "task_mask"
       = Some (VTensor (BoolTensor [1%nat; length tasks]
                          (map (fun j => j =? Z.of_nat k)
                               (range (Z.of_nat (length tasks)))))).

(** ** Reference collaborators

    Simple members of the collaborator interfaces, used to run the
    definitions on concrete inputs. *)

(** A sampler that returns [size] consecutive indices starting at
    [seed mod a]. *)
Definition rotation_choice (seed a size : Z) : result (list Z) :=
  if seed <? 0 then Raise ValueError
  else if (size <? 0) || (a <? size) then Raise ValueError
  else Ok (map (fun i => (i + seed) mod a) (range size)).

(** A dataset stored as a list of items, with its metadata. *)
Definition list_dataset (items : list PyObj) (metadata : option (list Z)) : Dataset :=
  Raw {| raw_len := Some (Z.of_nat (length items));
         raw_getitem := py_index items;
         raw_atoms_metadata := metadata |}.

(** A dataset that reports the length [n] and returns [item] at every
    index of [range(n)], without storing [n] items. *)
Definition constant_dataset (n : Z) (item : PyObj) : Dataset :=
  Raw {| raw_len := Some n;
         raw_getitem := fun idx => if (0 <=? idx) && (idx <? n) then Ok item
                                   else Raise IndexError;
         raw_atoms_metadata := None |}.

(** A record with one graph-level attribute [energy]. *)
Definition energy_item (e : Value) : PyObj :=
  PyData (<["energy" := e]> ∅).

(** The targets configuration with the single graph-level key [energy]. *)
Definition energy_targets : OneHotTargetsConfig :=
  {| graph_level := ["energy"]; node_level := [] |}.

(** A registry that builds, for the source string [src], a stored
    dataset with one item per character of [src]; and the power operator
    on the exponents for which it is exact. *)
Definition string_registry (config : SplitDatasetConfig) : result Dataset :=
  if String.eqb (format config) "list"
  then Ok (list_dataset (replicate (String.length (src config)) (energy_item (VFloat f64_one)))
                        None)
  else Raise TypeError.

Definition exact_pow (base exponent : spec_float) : result spec_float :=
  if SFeqb exponent f64_one then Ok base
  else if is_zero exponent then Ok f64_one
  else Raise OverflowError.

#[export] Instance reference_collaborators : Collaborators := {|
  registry_create := string_registry;
  py_float_pow := exact_pow;
|}.

(** The float 0.25. *)
Definition f64_quarter : spec_float := S754_finite false 4503599627370496 (-54).

(** The same registry, with a power operator that also takes the exponent
    4.0, for which it squares twice. *)
Definition squaring_pow (base exponent : spec_float) : result spec_float :=
  if SFeqb exponent (f64_of_int 4)
  then Ok (f64_mul (f64_mul base base) (f64_mul base base))
  else exact_pow base exponent.

Definition squaring_collaborators : Collaborators :=
  {| registry_create := string_registry; py_float_pow := squaring_pow |}.

(** A configuration with a validation split only: the first task has
    none, the second one has three items. *)
Definition val_only_config : DatasetConfig :=
  {| config_datasets :=
       [ {| train := None; val := None; test := None |};
         {| train := None; val := Some {| format := "list"; src := "abc" |}; test := None |} ];
     sampling := OtherSamplingConfig;
     one_hot_targets := energy_targets |}.

(** * Properties *)

(** ** The error monad *)

Lemma bind_Ok_inv {A B : Type} (m : result A) (f : A -> result B) (b : B) :
  (m ≫= f) = Ok b -> exists a, m = Ok a /\ f a = Ok b.
Proof. destruct m as [a|e]; simpl; [eauto | discriminate]. Qed.

(** ** Integer helpers *)

Lemma range_length (n : Z) : length (range n) = Z.to_nat n.
Proof. unfold range. rewrite length_map, length_seq. reflexivity. Qed.

Lemma range_lookup (n : Z) (i : nat) :
  (i < Z.to_nat n)%nat -> range n !! i = Some (Z.of_nat i).
Proof.
  intros Hi. unfold range. rewrite list_lookup_fmap, lookup_seq_lt by done.
  reflexivity.
Qed.

Lemma elem_of_range (n x : Z) : x ∈ range n <-> 0 <= x < n.
Proof.
  unfold range. rewrite list_elem_of_fmap. split.
  - intros (k & -> & Hk). apply elem_of_seq in Hk. lia.
  - intros Hx. exists (Z.to_nat x). split; [lia|]. apply elem_of_seq. lia.
Qed.

Lemma NoDup_range (n : Z) : NoDup (range n).
Proof.
  unfold range. apply NoDup_fmap_2; [intros a b; lia | apply NoDup_seq].
Qed.

(** ** The reference sampler meets the contract of [NumpyRandom] *)

Lemma rotation_choice_ok (seed a size : Z) :
  0 <= seed -> 0 <= size <= a -> is_ok (rotation_choice seed a size) = true.
Proof.
  intros Hseed [Hsize Ha]. unfold rotation_choice.
  destruct (Z.ltb_spec seed 0); [lia|].
  destruct (Z.ltb_spec size 0); [lia|].
  destruct (Z.ltb_spec a size); [lia|]. reflexivity.
Qed.

Lemma rotation_choice_sound (seed a size : Z) (l : list Z) :
  rotation_choice seed a size = Ok l ->
  length l = Z.to_nat size /\ Forall (fun i => 0 <= i < a) l /\ NoDup l.
Proof.
  unfold rotation_choice.
  destruct (Z.ltb_spec seed 0); [discriminate|].
  destruct (Z.ltb_spec size 0); [discriminate|].
  destruct (Z.ltb_spec a size); [discriminate|]. simpl.
  intros [= <-]. split; [|split].
  - rewrite length_map. apply range_length.
  - apply Forall_forall. intros x Hx. apply list_elem_of_fmap in Hx as (i & -> & Hi).
    apply elem_of_range in Hi. apply Z.mod_pos_bound. lia.
  - apply NoDup_fmap_2_strong; [|apply NoDup_range].
    intros i j Hi Hj Heq. apply elem_of_range in Hi, Hj.
    assert (Hd : (i - j) mod a = 0).
    { rewrite <- (Z.add_simpl_r i seed) at 1.
      replace (i + seed - seed - j) with ((i + seed) - (j + seed)) by lia.
      rewrite Zminus_mod, Heq, Z.sub_diag. apply Zmod_0_l. }
    apply Z.mod_divide in Hd; [|lia]. destruct Hd as [k Hk].
    assert (k = 0) by nia. lia.
Qed.

#[export] Instance rotation_random : NumpyRandom := {|
  rng_choice := rotation_choice;
  rng_choice_ok := rotation_choice_ok;
  rng_choice_sound := rotation_choice_sound;
|}.

(** ** Decorators *)

Lemma builtin_len_Ok (l : Z) : 0 <= l <= sys_maxsize -> builtin_len l = Ok l.
Proof.
  intros Hl. unfold builtin_len.
  destruct (Z.ltb_spec l 0); [lia|].
  destruct (Z.ltb_spec sys_maxsize l); [lia|]. reflexivity.
Qed.

Lemma builtin_len_inv (l n : Z) : builtin_len l = Ok n -> n = l /\ 0 <= l <= sys_maxsize.
Proof.
  unfold builtin_len.
  destruct (Z.ltb_spec l 0); [discriminate|].
  destruct (Z.ltb_spec sys_maxsize l); [discriminate|].
  intros [= <-]. lia.
Qed.

Lemma builtin_len_overflow (l : Z) : sys_maxsize < l -> builtin_len l = Raise OverflowError.
Proof.
  intros Hl. unfold builtin_len. unfold sys_maxsize in *.
  destruct (Z.ltb_spec l 0); [lia|].
  destruct (Z.ltb_spec (2 ^ 63 - 1) l); [reflexivity|lia].
Qed.

Lemma len_range (d : Dataset) (l : Z) : len d = Ok l -> 0 <= l <= sys_maxsize.
Proof.
  unfold len. intros Hb. apply bind_Ok_inv in Hb as (l' & _ & Hl).
  apply builtin_len_inv in Hl as [-> Hl]. exact Hl.
Qed.

Lemma len_nonneg (d : Dataset) (l : Z) : len d = Ok l -> 0 <= l.
Proof. intros Hl. apply len_range in Hl. lia. Qed.

Lemma len_of___len__ (d : Dataset) (n : Z) :
  __len__ d = Ok n -> 0 <= n <= sys_maxsize -> len d = Ok n.
Proof. intros Hn Hr. unfold len. rewrite Hn. simpl. by apply builtin_len_Ok. Qed.

Lemma len_overflow (d : Dataset) (n : Z) :
  __len__ d = Ok n -> sys_maxsize < n -> len d = Raise OverflowError.
Proof. intros Hn Hr. unfold len. rewrite Hn. simpl. by apply builtin_len_overflow. Qed.

Lemma expand_dataset_Ok (d : Dataset) (n l : Z) :
  is_sized d = true -> len d = Ok l -> l <= n ->
  expand_dataset d n = Ok (_ExpandedDataset n l d).
Proof.
  intros Hs Hl Hn. unfold expand_dataset. rewrite Hs, Hl. simpl.
  destruct (Z.ltb_spec n l); [lia|]. reflexivity.
Qed.

(** C2: for a sized dataset [d] of length [l] and [n >= l],
    [expand_dataset d n] is built and its [__len__] returns [n]; the
    builtin [len] reports [n] as long as [n <= sys.maxsize] and raises
    [OverflowError] above it; item access at every [i] in [[0, n)] is the
    evaluation of [d[i % l]]: the item of [d] at index [i mod l] when [d]
    is not empty. *)
Theorem expand_dataset_wraps (d : Dataset) (n l : Z) :
  is_sized d = true -> len d = Ok l -> l <= n ->
  exists e, expand_dataset d n = Ok e
    /\ __len__ e = Ok n
    /\ (n <= sys_maxsize -> len e = Ok n)
    /\ (sys_maxsize < n -> len e = Raise OverflowError)
    /\ (forall i, 0 <= i < n -> __getitem__ e i = (j ← py_mod i l; __getitem__ d j))
    /\ (0 < l -> forall i, 0 <= i < n -> __getitem__ e i = __getitem__ d (i mod l)).
Proof.
  intros Hs Hl Hn. pose proof (len_nonneg _ _ Hl) as Hl0.
  exists (_ExpandedDataset n l d). split; [by apply expand_dataset_Ok|].
  assert (Hget : forall i, 0 <= i < n ->
             __getitem__ (_ExpandedDataset n l d) i = (j ← py_mod i l; __getitem__ d j)).
  { intros i Hi. simpl.
    destruct (Z.ltb_spec i 0); [lia|]. destruct (Z.leb_spec n i); [lia|]. reflexivity. }
  split; [reflexivity|]. split; [|split; [|split]].
  - intros Hmax. apply len_of___len__; [reflexivity | lia].
  - intros Hmax. by apply (len_overflow _ n).
  - exact Hget.
  - intros Hpos i Hi. rewrite Hget by done. unfold py_mod.
    destruct (Z.eqb_spec l 0); [lia|]. reflexivity.
Qed.

Lemma expand_dataset_wraps_example :
  exists e, expand_dataset (list_dataset [energy_item (VInt 7); energy_item (VInt 8)] None) 5 = Ok e
    /\ len e = Ok 5
    /\ __getitem__ e 3 = Ok (energy_item (VInt 8)).
Proof.
  destruct (expand_dataset_wraps
              (list_dataset [energy_item (VInt 7); energy_item (VInt 8)] None) 5 2)
    as (e & He & _ & Hlen & _ & _ & Hget); [reflexivity | reflexivity | lia |].
  exists e. split; [exact He|]. split; [apply Hlen; vm_compute; discriminate|].
  rewrite (Hget ltac:(lia) 3 ltac:(lia)). reflexivity.
Defined.

(** C2, where the claim as stated fails: a dataset with one item expanded
    to [2^63] samples is built, but [len] of it raises [OverflowError]
    instead of reporting [2^63]. *)
Lemma expand_length_above_maxsize :
  exists e, expand_dataset (constant_dataset 1 (energy_item (VInt 7))) (2 ^ 63) = Ok e
    /\ 1 <= 2 ^ 63
    /\ len e = Raise OverflowError
    /\ len e <> Ok (2 ^ 63).
Proof.
  exists (_ExpandedDataset (2 ^ 63) 1 (constant_dataset 1 (energy_item (VInt 7)))).
  split; [reflexivity|]. split; [lia|]. split; [reflexivity|discriminate].
Qed.

(** C7: for a sized dataset [d] and [n >= len(d)], item access on
    [expand_dataset d n] at an index outside [[0, n)] raises [IndexError];
    in particular at [n] and at [-1], which is not counted from the end. *)
Theorem expand_dataset_out_of_range (d : Dataset) (n l : Z) :
  is_sized d = true -> len d = Ok l -> l <= n ->
  exists e, expand_dataset d n = Ok e
    /\ (forall i, i < 0 \/ n <= i -> __getitem__ e i = Raise IndexError)
    /\ __getitem__ e n = Raise IndexError
    /\ __getitem__ e (-1) = Raise IndexError.
Proof.
  intros Hs Hl Hn. exists (_ExpandedDataset n l d).
  split; [by apply expand_dataset_Ok|].
  assert (Hout : forall i, i < 0 \/ n <= i ->
             __getitem__ (_ExpandedDataset n l d) i = Raise IndexError).
  { intros i Hi. simpl.
    destruct (Z.ltb_spec i 0); [reflexivity|].
    destruct (Z.leb_spec n i); [reflexivity|lia]. }
  split; [exact Hout|]. split; apply Hout; lia.
Qed.

Lemma expand_dataset_out_of_range_example :
  exists e, expand_dataset (list_dataset [energy_item (VInt 7); energy_item (VInt 8)] None) 5 = Ok e
    /\ __getitem__ e 5 = Raise IndexError
    /\ __getitem__ e (-1) = Raise IndexError.
Proof.
  destruct (expand_dataset_out_of_range
              (list_dataset [energy_item (VInt 7); energy_item (VInt 8)] None) 5 2)
    as (e & He & _ & Hn & Hm); [reflexivity | reflexivity | lia |].
  exists e. auto.
Defined.

(** C6: the size checks of the three constructors.  For a sized dataset of
    length [l]: [expand_dataset] raises [ValueError] when [n < l];
    [first_n_transform] and [sample_n_transform] raise [ValueError] when
    [n > l]; with [n = l] each construction succeeds (the sampler being
    given a valid seed). *)
Theorem size_preconditions `{NumpyRandom} (d : Dataset) (l n seed : Z) :
  is_sized d = true -> len d = Ok l ->
  (n < l -> expand_dataset d n = Raise ValueError)
  /\ (l < n -> first_n_transform d n = Raise ValueError
               /\ sample_n_transform d n seed = Raise ValueError)
  /\ is_ok (expand_dataset d l) = true
  /\ is_ok (first_n_transform d l) = true
  /\ (0 <= seed -> is_ok (sample_n_transform d l seed) = true).
Proof.
  intros Hs Hl. pose proof (len_nonneg _ _ Hl) as Hl0.
  unfold expand_dataset, first_n_transform, sample_n_transform.
  rewrite Hs, Hl. simpl. rewrite Z.ltb_irrefl.
  split; [|split; [|split; [|split]]].
  - intros Hn. destruct (Z.ltb_spec n l); [reflexivity|lia].
  - intros Hn. destruct (Z.ltb_spec l n); [auto|lia].
  - reflexivity.
  - reflexivity.
  - intros Hseed. pose proof (rng_choice_ok seed l l Hseed ltac:(lia)) as Hok.
    destruct (rng_choice seed l l); [reflexivity|discriminate].
Qed.

Lemma size_preconditions_example :
  expand_dataset (list_dataset [energy_item (VInt 7); energy_item (VInt 8)] None) 1
    = Raise ValueError
  /\ first_n_transform (list_dataset [energy_item (VInt 7); energy_item (VInt 8)] None) 3
    = Raise ValueError
  /\ sample_n_transform (list_dataset [energy_item (VInt 7); energy_item (VInt 8)] None) 3 11
    = Raise ValueError.
Proof.
  pose proof (@size_preconditions rotation_random
                (list_dataset [energy_item (VInt 7); energy_item (VInt 8)] None) 2 1 11
                eq_refl eq_refl) as (He & _).
  pose proof (@size_preconditions rotation_random
                (list_dataset [energy_item (VInt 7); energy_item (VInt 8)] None) 2 3 11
                eq_refl eq_refl) as (_ & Hf & _).
  split; [apply He; lia|]. apply Hf; lia.
Defined.

(** C10: [dataset_transform d fn copy_data] overrides item access only:
    its [__len__], its [len] and its [atoms_metadata] are those of the
    wrapped dataset [d], and item access applies [fn] to the item of
    [d]. *)
Theorem dataset_transform_frame (d : Dataset) (fn : PyObj -> result PyObj)
    (copy_data : bool) :
  __len__ (dataset_transform d fn copy_data) = __len__ d
  /\ len (dataset_transform d fn copy_data) = len d
  /\ atoms_metadata (dataset_transform d fn copy_data) = atoms_metadata d
  /\ forall idx, __getitem__ (dataset_transform d fn copy_data) idx
                 = (data ← __getitem__ d idx; fn data).
Proof.
  unfold dataset_transform, len. simpl. repeat split.
  intros idx. destruct copy_data; reflexivity.
Qed.

(** ** Composition on the worked example *)

(** C1: FullyBalanced sampling over two train datasets of sizes 10 and
    100.  The normalized ratios are [[0.5, 0.5]], the target size is 110,
    the raw factors are [[5.5, 0.55]], rescaled by their minimum to
    [[10, 1]]; both expanded datasets have 100 samples and the combined
    train dataset has length 200. *)
Theorem fully_balanced_10_100 `{Collaborators} (d1 d2 : Dataset) :
  is_sized d1 = true -> is_sized d2 = true ->
  len d1 = Ok 10 -> len d2 = Ok 100 ->
  (ratios ← sampling_ratios FullyBalancedSamplingConfig [10; 100];
   map_result (fun r => py_float_div r (py_sum_float ratios)) ratios)
    = Ok [f64_half; f64_half]
  /\ target_size [10; 100] [f64_half; f64_half] = f64_of_int 110
  /\ raw_expansion_factors [10; 100] [f64_half; f64_half]
     = Ok [f64_div (f64_of_int 55) (f64_of_int 10); f64_div (f64_of_int 55) (f64_of_int 100)]
  /\ (f ← raw_expansion_factors [10; 100] [f64_half; f64_half]; divide_by_min f)
     = Ok [f64_of_int 10; f64_of_int 1]
  /\ _merged_dataset [10; 100] [f64_half; f64_half] = Ok [100; 100]
  /\ exists combined,
       _combine_datasets FullyBalancedSamplingConfig [d1; d2] = Ok combined
       /\ datasets combined = [_ExpandedDataset 100 10 d1; _ExpandedDataset 100 100 d2]
       /\ map_result len (datasets combined) = Ok [100; 100]
       /\ concat_len combined = 200.
Proof.
  intros Hs1 Hs2 Hl1 Hl2.
  split; [vm_compute; reflexivity|].
  split; [vm_compute; reflexivity|].
  split; [vm_compute; reflexivity|].
  split; [vm_compute; reflexivity|].
  assert (Hm : _merged_dataset [10; 100] [f64_half; f64_half] = Ok [100; 100])
    by (vm_compute; reflexivity).
  split; [exact Hm|].
  exists {| datasets := [_ExpandedDataset 100 10 d1; _ExpandedDataset 100 100 d2];
            cumulative_sizes := [100; 200] |}.
  split; [|split; [|split]]; [|reflexivity|vm_compute; reflexivity|reflexivity].
  unfold _combine_datasets. cbn [map_result]. rewrite Hs1, Hs2, Hl1, Hl2.
  cbn [negb mbind result_bind mret result_ret].
  change (sampling_ratios FullyBalancedSamplingConfig [10; 100])
    with (Ok [f64_one; f64_one]).
  cbn [mbind result_bind].
  replace (map_result (fun r => py_float_div r (py_sum_float [f64_one; f64_one]))
             [f64_one; f64_one])
    with (Ok [f64_half; f64_half]) by (vm_compute; reflexivity).
  cbn [mbind result_bind]. rewrite Hm.
  cbn [mbind result_bind zip zip_with map_result fst snd].
  rewrite (expand_dataset_Ok d1 100 10), (expand_dataset_Ok d2 100 100) by (done || lia).
  vm_compute. reflexivity.
Qed.

Lemma fully_balanced_10_100_example :
  exists combined,
    _combine_datasets FullyBalancedSamplingConfig
      [list_dataset (replicate 10 (energy_item (VInt 1))) None;
       list_dataset (replicate 100 (energy_item (VInt 2))) None] = Ok combined
    /\ concat_len combined = 200.
Proof.
  destruct (@fully_balanced_10_100 reference_collaborators
              (list_dataset (replicate 10 (energy_item (VInt 1))) None)
              (list_dataset (replicate 100 (energy_item (VInt 2))) None)
              eq_refl eq_refl eq_refl eq_refl)
    as (_ & _ & _ & _ & _ & c & Hc & _ & _ & Hlen).
  exists c. split; [exact Hc | exact Hlen].
Defined.

(** ** Binary digits *)

Lemma digits2_pos_log2 (p : positive) : Zpos (digits2_pos p) = Z.log2 (Zpos p) + 1.
Proof.
  assert (Hs : forall q, digits2_pos q = Pos.size q) by (induction q; simpl; congruence).
  destruct p; simpl; rewrite ?Hs; lia.
Qed.

Lemma Zdigits2_log2 (m : Z) : 0 < m -> Zdigits2 m = Z.log2 m + 1.
Proof. destruct m; try lia. intros _. apply digits2_pos_log2. Qed.

Lemma Zdigits2_pos (m : Z) : 0 < m -> 0 < Zdigits2 m.
Proof. intros H. rewrite Zdigits2_log2 by done. pose proof (Z.log2_nonneg m). lia. Qed.

Lemma Zdigits2_bounds (m : Z) :
  0 < m -> 2 ^ (Zdigits2 m - 1) <= m < 2 ^ Zdigits2 m.
Proof.
  intros H. rewrite Zdigits2_log2 by done.
  replace (Z.log2 m + 1 - 1) with (Z.log2 m) by lia.
  apply Z.log2_spec. done.
Qed.

Lemma Zdigits2_unique (m d : Z) :
  0 < d -> 2 ^ (d - 1) <= m < 2 ^ d -> Zdigits2 m = d.
Proof.
  intros Hd Hm. assert (0 < m) by (pose proof (Z.pow_pos_nonneg 2 (d - 1)); lia).
  rewrite Zdigits2_log2 by done.
  rewrite (Z.log2_unique m (d - 1)); [lia | lia |].
  replace (Z.succ (d - 1)) with d by lia. done.
Qed.

Lemma Zdigits2_mul_pow2 (m k : Z) :
  0 < m -> 0 <= k -> Zdigits2 (m * 2 ^ k) = Zdigits2 m + k.
Proof.
  intros Hm Hk. rewrite !Zdigits2_log2 by (try apply Z.mul_pos_pos; lia).
  rewrite Z.log2_mul_pow2 by done. lia.
Qed.

Lemma Zdigits2_div_pow2 (m k : Z) :
  0 < m -> 0 <= k < Zdigits2 m ->
  0 < m / 2 ^ k /\ Zdigits2 (m / 2 ^ k) = Zdigits2 m - k.
Proof.
  intros Hm Hk. rewrite Zdigits2_log2 in Hk by done.
  assert (Hq : 0 < m / 2 ^ k).
  { apply Z.div_str_pos. split; [lia|]. apply Z.log2_le_pow2; lia. }
  split; [done|]. rewrite !Zdigits2_log2 by done.
  rewrite <- Z.shiftr_div_pow2 by lia. rewrite Z.log2_shiftr by done. lia.
Qed.

Lemma div_pow2_small (m k : Z) : 0 <= m -> Zdigits2 m <= k -> m / 2 ^ k = 0.
Proof.
  intros Hm Hk. destruct (Z.eq_dec m 0) as [->|Hne].
  - apply Z.div_0_l. pose proof (Z.pow_pos_nonneg 2 k). simpl in Hk. lia.
  - pose proof (Zdigits2_pos m ltac:(lia)). apply Z.div_small. split; [done|].
    pose proof (Zdigits2_bounds m ltac:(lia)) as [_ Hlt].
    pose proof (Z.pow_le_mono_r 2 (Zdigits2 m) k). lia.
Qed.

(** ** Right shifts with rounding bits *)

Lemma iter_pos_nat {A : Type} (f : A -> A) (p : positive) (x : A) :
  iter_pos f p x = Nat.iter (Pos.to_nat p) f x.
Proof.
  revert x. induction p as [p IH|p IH|]; intros x; simpl iter_pos.
  - rewrite !IH, Pos2Nat.inj_xI.
    replace (S (2 * Pos.to_nat p))%nat with (Pos.to_nat p + (Pos.to_nat p + 1))%nat by lia.
    rewrite !Nat.iter_add. reflexivity.
  - rewrite !IH, Pos2Nat.inj_xO.
    replace (2 * Pos.to_nat p)%nat with (Pos.to_nat p + Pos.to_nat p)%nat by lia.
    rewrite Nat.iter_add. reflexivity.
  - reflexivity.
Qed.

Lemma shr_1_m (r : shr_record) : 0 <= shr_m r -> shr_m (shr_1 r) = shr_m r / 2.
Proof.
  destruct r as [m r s]. simpl. intros Hm. rewrite <- Z.div2_div.
  destruct m as [|[p|p|]|p]; try reflexivity; lia.
Qed.

Lemma iter_shr_1_m (n : nat) (r : shr_record) :
  0 <= shr_m r -> shr_m (Nat.iter n shr_1 r) = shr_m r / 2 ^ Z.of_nat n.
Proof.
  intros Hm. induction n as [|n IH].
  - simpl. symmetry. apply Z.div_1_r.
  - change (Nat.iter (S n) shr_1 r) with (shr_1 (Nat.iter n shr_1 r)). rewrite shr_1_m.
    + rewrite IH, Nat2Z.inj_succ, Z.pow_succ_r by lia.
      rewrite Z.div_div by (try apply Z.pow_pos_nonneg; lia). f_equal. lia.
    + rewrite IH. apply Z.div_pos; [done|]. apply Z.pow_pos_nonneg; lia.
Qed.

Lemma shr_1_double (m : Z) :
  0 <= m ->
  shr_1 {| shr_m := 2 * m; shr_r := false; shr_s := false |}
  = {| shr_m := m; shr_r := false; shr_s := false |}.
Proof. destruct m; try lia; reflexivity. Qed.

Lemma iter_shr_1_exact (n : nat) (m : Z) :
  0 <= m ->
  Nat.iter n shr_1 {| shr_m := m * 2 ^ Z.of_nat n; shr_r := false; shr_s := false |}
  = {| shr_m := m; shr_r := false; shr_s := false |}.
Proof.
  intros Hm. revert m Hm. induction n as [|n IH]; intros m Hm.
  - simpl. rewrite Z.mul_1_r. reflexivity.
  - match goal with |- Nat.iter _ _ ?x = _ =>
      change (Nat.iter (S n) shr_1 x) with (shr_1 (Nat.iter n shr_1 x)) end.
    rewrite Nat2Z.inj_succ, Z.pow_succ_r by lia.
    replace (m * (2 * 2 ^ Z.of_nat n)) with ((2 * m) * 2 ^ Z.of_nat n) by lia.
    rewrite IH by lia. apply shr_1_double. done.
Qed.

Lemma shr_m_shift (m : Z) (r s : bool) (e n : Z) :
  0 <= m -> 0 <= n ->
  shr_m (fst (shr {| shr_m := m; shr_r := r; shr_s := s |} e n)) = m / 2 ^ n
  /\ snd (shr {| shr_m := m; shr_r := r; shr_s := s |} e n) = e + n.
Proof.
  intros Hm Hn. destruct n as [|p|p]; try lia; simpl.
  - rewrite Z.div_1_r. split; [done | lia].
  - rewrite iter_pos_nat, iter_shr_1_m by done.
    rewrite positive_nat_Z. split; reflexivity.
Qed.

Lemma shr_exact (m e n : Z) :
  0 <= m -> 0 <= n ->
  shr {| shr_m := m * 2 ^ n; shr_r := false; shr_s := false |} e n
  = ({| shr_m := m; shr_r := false; shr_s := false |}, e + n).
Proof.
  intros Hm Hn. destruct n as [|p|p]; try lia.
  - simpl. rewrite Z.mul_1_r, Z.add_0_r. reflexivity.
  - unfold shr. rewrite iter_pos_nat. rewrite <- (positive_nat_Z p) at 1.
    rewrite iter_shr_1_exact by done. reflexivity.
Qed.

Lemma round_nearest_even_bounds (m : Z) (l : location) :
  m <= round_nearest_even m l <= m + 1.
Proof. destruct l as [|[]]; simpl; try lia. destruct (Z.even m); lia. Qed.

(** ** Rounding to a format [(prec, emax)] *)

Section Rounding.

Variables prec emax : Z.
Hypothesis Hprec : 1 < prec.
Hypothesis Hemax : prec < emax.

Local Abbreviation emin := (emin prec emax).
Local Abbreviation fexp := (fexp prec emax).

Lemma fexp_mono (a b : Z) : a <= b -> fexp a <= fexp b.
Proof. unfold SpecFloat.fexp. lia. Qed.

Lemma fexp_ge_emin (a : Z) : emin <= fexp a.
Proof. unfold SpecFloat.fexp. lia. Qed.

Lemma canonical_cases (m e : Z) :
  canonical prec emax m e ->
  emin <= e /\ Zdigits2 m <= prec /\ (Zdigits2 m = prec \/ e = emin).
Proof. unfold canonical, SpecFloat.fexp. lia. Qed.

Lemma canonical_intro (m e : Z) :
  0 < m -> emin <= e -> Zdigits2 m <= prec -> (Zdigits2 m = prec \/ e = emin) ->
  canonical prec emax m e.
Proof. unfold canonical, SpecFloat.fexp. lia. Qed.

Lemma canonical_mantissa_iff (m : positive) (e : Z) :
  canonical_mantissa prec emax m e = true <-> canonical prec emax (Zpos m) e.
Proof.
  unfold canonical_mantissa, canonical. simpl Zdigits2. rewrite Z.eqb_eq. intuition lia.
Qed.

(** The first shift of [binary_round_aux]. *)
Lemma shr_fexp_spec (mx ex : Z) (lx : location) :
  0 <= mx -> ex <= fexp (Zdigits2 mx + ex) ->
  shr_m (fst (shr_fexp prec emax mx ex lx)) = mx / 2 ^ (fexp (Zdigits2 mx + ex) - ex)
  /\ snd (shr_fexp prec emax mx ex lx) = fexp (Zdigits2 mx + ex)
  /\ ((mx / 2 ^ (fexp (Zdigits2 mx + ex) - ex) = 0 /\ fexp (Zdigits2 mx + ex) = emin)
      \/ canonical prec emax (mx / 2 ^ (fexp (Zdigits2 mx + ex) - ex)) (fexp (Zdigits2 mx + ex))).
Proof.
  intros Hmx Hpre. unfold shr_fexp.
  set (e1 := fexp (Zdigits2 mx + ex)) in *.
  assert (Hn : 0 <= e1 - ex) by lia.
  assert (Hsh : shr_m (fst (shr (shr_record_of_loc mx lx) ex (e1 - ex))) = mx / 2 ^ (e1 - ex)
                /\ snd (shr (shr_record_of_loc mx lx) ex (e1 - ex)) = e1).
  { destruct lx as [|[]]; simpl shr_record_of_loc;
      match goal with |- context [shr {| shr_m := _; shr_r := ?r; shr_s := ?s |} _ _] =>
        destruct (shr_m_shift mx r s ex (e1 - ex) Hmx Hn) as [Hm He] end;
      rewrite Hm, He; (split; [reflexivity | lia]). }
  destruct Hsh as [Hm He]. split; [exact Hm|]. split; [exact He|].
  destruct (Z.eq_dec mx 0) as [->|Hne].
  { left. split.
    - apply Z.div_0_l. pose proof (Z.pow_pos_nonneg 2 (e1 - ex)). lia.
    - subst e1. simpl Zdigits2 in *. unfold SpecFloat.fexp in *. lia. }
  destruct (Z_lt_le_dec (e1 - ex) (Zdigits2 mx)) as [Hlt|Hge].
  - right. destruct (Zdigits2_div_pow2 mx (e1 - ex) ltac:(lia) ltac:(lia)) as [Hpos Hd].
    split; [exact Hpos|]. rewrite Hd.
    replace (Zdigits2 mx - (e1 - ex) + e1) with (Zdigits2 mx + ex) by lia. reflexivity.
  - left. split; [apply div_pow2_small; lia|].
    pose proof (Zdigits2_pos mx ltac:(lia)). subst e1. unfold SpecFloat.fexp in *. lia.
Qed.

Lemma shr_fexp_canonical (m e : Z) :
  canonical prec emax m e ->
  shr_fexp prec emax m e loc_Exact
  = ({| shr_m := m; shr_r := false; shr_s := false |}, e).
Proof.
  intros [Hm Hc]. unfold shr_fexp. rewrite Hc, Z.sub_diag. reflexivity.
Qed.

Lemma shr_fexp_zero (e : Z) :
  emin <= e ->
  shr_m (fst (shr_fexp prec emax 0 e loc_Exact)) = 0.
Proof.
  intros He. unfold shr_fexp. simpl Zdigits2.
  assert (Hn : fexp (0 + e) - e <= 0) by (unfold SpecFloat.fexp; lia).
  destruct (fexp (0 + e) - e) as [|p|p]; try lia; reflexivity.
Qed.

Lemma shr_fexp_pow2 (e : Z) :
  emin <= e ->
  shr_fexp prec emax (2 ^ prec) e loc_Exact
  = ({| shr_m := 2 ^ (prec - 1); shr_r := false; shr_s := false |}, e + 1).
Proof.
  intros He. unfold shr_fexp.
  assert (Hd : Zdigits2 (2 ^ prec) = prec + 1).
  { apply Zdigits2_unique; [lia|]. replace (prec + 1 - 1) with prec by lia.
    split; [lia|]. apply Z.pow_lt_mono_r; lia. }
  rewrite Hd. replace (fexp (prec + 1 + e) - e) with 1 by (unfold SpecFloat.fexp; lia).
  simpl shr_record_of_loc.
  replace (2 ^ prec) with (2 ^ (prec - 1) * 2 ^ 1)
    by (rewrite <- Z.pow_add_r by lia; f_equal; lia).
  apply shr_exact; [|lia]. apply Z.pow_nonneg. lia.
Qed.

Lemma binary_round_aux_unfold (s : bool) (mx ex : Z) (lx : location) :
  binary_round_aux prec emax s mx ex lx =
  let p1 := shr_fexp prec emax mx ex lx in
  let p2 := shr_fexp prec emax
              (round_nearest_even (shr_m (fst p1)) (loc_of_shr_record (fst p1)))
              (snd p1) loc_Exact in
  match shr_m (fst p2) with
  | 0 => S754_zero s
  | Zpos m => if snd p2 <=? emax - prec then S754_finite s m (snd p2) else S754_infinity s
  | Zneg _ => S754_nan
  end.
Proof.
  unfold binary_round_aux. destruct (shr_fexp prec emax mx ex lx) as [mrs e1]. simpl.
  destruct (shr_fexp prec emax _ e1 loc_Exact) as [mrs2 e2]. reflexivity.
Qed.

(** What [binary_round_aux] returns, in terms of the truncated mantissa
    [m1] at the target exponent [e1] and of the rounded mantissa [m2]. *)
Lemma binary_round_aux_spec (s : bool) (mx ex : Z) (lx : location) :
  0 <= mx -> ex <= fexp (Zdigits2 mx + ex) ->
  exists m2,
    mx / 2 ^ (fexp (Zdigits2 mx + ex) - ex) <= m2
      <= mx / 2 ^ (fexp (Zdigits2 mx + ex) - ex) + 1
    /\ ((m2 = 0 /\ fexp (Zdigits2 mx + ex) = emin
         /\ binary_round_aux prec emax s mx ex lx = S754_zero s)
        \/ (canonical prec emax m2 (fexp (Zdigits2 mx + ex))
            /\ binary_round_aux prec emax s mx ex lx
               = if fexp (Zdigits2 mx + ex) <=? emax - prec
                 then S754_finite s (Z.to_pos m2) (fexp (Zdigits2 mx + ex))
                 else S754_infinity s)
        \/ (m2 = 2 ^ prec /\ emin <= fexp (Zdigits2 mx + ex)
            /\ binary_round_aux prec emax s mx ex lx
               = if fexp (Zdigits2 mx + ex) + 1 <=? emax - prec
                 then S754_finite s (Z.to_pos (2 ^ (prec - 1))) (fexp (Zdigits2 mx + ex) + 1)
                 else S754_infinity s)).
Proof.
  intros Hmx Hpre.
  destruct (shr_fexp_spec mx ex lx Hmx Hpre) as (Hm1 & He1 & Hcases).
  rewrite binary_round_aux_unfold. cbv zeta. rewrite Hm1, He1.
  set (e1 := fexp (Zdigits2 mx + ex)) in *.
  set (m1 := mx / 2 ^ (e1 - ex)) in *.
  set (l1 := loc_of_shr_record (fst (shr_fexp prec emax mx ex lx))).
  pose proof (round_nearest_even_bounds m1 l1) as Hb.
  set (m2 := round_nearest_even m1 l1) in *.
  exists m2. split; [exact Hb|].
  assert (Hcan : canonical prec emax m2 e1 ->
            match shr_m (fst (shr_fexp prec emax m2 e1 loc_Exact)) with
            | 0 => S754_zero s
            | Z.pos m =>
                if snd (shr_fexp prec emax m2 e1 loc_Exact) <=? emax - prec
                then S754_finite s m (snd (shr_fexp prec emax m2 e1 loc_Exact))
                else S754_infinity s
            | Z.neg _ => S754_nan
            end = if e1 <=? emax - prec then S754_finite s (Z.to_pos m2) e1
                  else S754_infinity s).
  { intros Hc. rewrite (shr_fexp_canonical m2 e1 Hc). simpl.
    destruct Hc as [Hpos _]. destruct m2; try lia. reflexivity. }
  assert (Hemin : emin <= e1) by apply fexp_ge_emin.
  assert (Hm2 : m2 = 0 \/ canonical prec emax m2 e1 \/ m2 = 2 ^ prec).
  { destruct Hcases as [[Hz He]|Hc].
    - assert (m2 = 0 \/ m2 = 1) as [?|H1] by lia; [auto|].
      right; left. rewrite H1. apply canonical_intro; simpl; lia.
    - destruct (canonical_cases _ _ Hc) as (_ & Hd & Hor). destruct Hc as [Hpos Hfe].
      assert (m2 = m1 \/ m2 = m1 + 1) as [->|Hs] by lia; [right; left; split; assumption|].
      pose proof (Zdigits2_bounds m1 Hpos) as [Hlo Hhi].
      destruct (Z.eq_dec (m1 + 1) (2 ^ Zdigits2 m1)) as [Hp|Hnp].
      + destruct (Z.eq_dec (Zdigits2 m1) prec) as [Hdp|Hdp].
        * right; right. rewrite Hs, Hp, Hdp. reflexivity.
        * right; left. rewrite Hs, Hp.
          assert (Hd2 : Zdigits2 (2 ^ Zdigits2 m1) = Zdigits2 m1 + 1).
          { pose proof (Zdigits2_pos m1 Hpos).
            apply Zdigits2_unique; [lia|]. replace (Zdigits2 m1 + 1 - 1) with (Zdigits2 m1) by lia.
            split; [lia|]. apply Z.pow_lt_mono_r; lia. }
          apply canonical_intro; rewrite ?Hd2; lia.
      + right; left. rewrite Hs.
        assert (Hd2 : Zdigits2 (m1 + 1) = Zdigits2 m1).
        { pose proof (Zdigits2_pos m1 Hpos). apply Zdigits2_unique; lia. }
        apply canonical_intro; rewrite ?Hd2; lia. }
  destruct Hm2 as [Hz|[Hc|Hp]].
  - destruct Hcases as [[Hz1 He]|Hc].
    + left. split; [exact Hz|]. split; [exact He|].
      rewrite Hz. rewrite shr_fexp_zero by lia. reflexivity.
    + destruct Hc as [Hpos _]. lia.
  - right; left. split; [exact Hc|]. apply Hcan; exact Hc.
  - right; right. split; [exact Hp|]. split; [exact Hemin|].
    rewrite Hp. rewrite shr_fexp_pow2 by lia. simpl fst; simpl snd. simpl shr_m.
    assert (Hpp : 0 < 2 ^ (prec - 1)) by (apply Z.pow_pos_nonneg; lia).
    destruct (2 ^ (prec - 1)) eqn:E; try lia. reflexivity.
Qed.

Lemma binary_round_aux_valid (s : bool) (mx ex : Z) (lx : location) :
  0 <= mx -> ex <= fexp (Zdigits2 mx + ex) ->
  valid_binary prec emax (binary_round_aux prec emax s mx ex lx) = true.
Proof.
  intros Hmx Hpre.
  destruct (binary_round_aux_spec s mx ex lx Hmx Hpre)
    as (m2 & Hb & [(_ & _ & ->)|[(Hc & ->)|(Hp & He & ->)]]).
  - reflexivity.
  - destruct (_ <=? _) eqn:Hle; [|reflexivity]. simpl. unfold bounded.
    rewrite Hle, andb_true_r. apply canonical_mantissa_iff.
    destruct Hc as [Hpos Hfe]. rewrite Z2Pos.id by done. split; assumption.
  - destruct (_ <=? _) eqn:Hle; [|reflexivity]. simpl. unfold bounded.
    rewrite Hle, andb_true_r. apply canonical_mantissa_iff.
    assert (Hpp : 0 < 2 ^ (prec - 1)) by (apply Z.pow_pos_nonneg; lia).
    rewrite Z2Pos.id by done.
    assert (Hd : Zdigits2 (2 ^ (prec - 1)) = prec).
    { apply Zdigits2_unique; [lia|]. split; [lia|]. apply Z.pow_lt_mono_r; lia. }
    apply canonical_intro; rewrite ?Hd; lia.
Qed.

(** Rounding a value that the format holds returns it. *)
Lemma binary_round_aux_exact (s : bool) (m : positive) (e k : Z) :
  bounded prec emax m e = true -> 0 <= k ->
  binary_round_aux prec emax s (Zpos m * 2 ^ k) (e - k) loc_Exact = S754_finite s m e.
Proof.
  intros Hbd Hk. unfold bounded in Hbd. apply andb_true_iff in Hbd as [Hc Hle].
  apply canonical_mantissa_iff in Hc. pose proof Hc as [Hpos Hfe].
  rewrite binary_round_aux_unfold. cbv zeta.
  assert (H1 : shr_fexp prec emax (Zpos m * 2 ^ k) (e - k) loc_Exact
               = ({| shr_m := Zpos m; shr_r := false; shr_s := false |}, e)).
  { unfold shr_fexp. rewrite Zdigits2_mul_pow2 by lia.
    replace (Zdigits2 (Zpos m) + k + (e - k)) with (Zdigits2 (Zpos m) + e) by lia.
    rewrite Hfe. replace (e - (e - k)) with k by lia. simpl shr_record_of_loc.
    rewrite shr_exact by lia. f_equal. lia. }
  rewrite H1. simpl fst; simpl snd. simpl loc_of_shr_record. simpl shr_m.
  simpl round_nearest_even. rewrite (shr_fexp_canonical _ _ Hc). simpl.
  rewrite Hle. reflexivity.
Qed.

(** ** Order of scaled integers: [m1 * 2^e1 <= m2 * 2^e2] *)

Lemma scaled_le_base (c m1 e1 m2 e2 : Z) :
  c <= e1 -> c <= e2 ->
  scaled_le m1 e1 m2 e2 <-> m1 * 2 ^ (e1 - c) <= m2 * 2 ^ (e2 - c).
Proof.
  intros H1 H2. unfold scaled_le.
  set (k := Z.min e1 e2 - c).
  assert (Hk : 0 <= k) by lia.
  replace (e1 - c) with ((e1 - Z.min e1 e2) + k) by lia.
  replace (e2 - c) with ((e2 - Z.min e1 e2) + k) by lia.
  rewrite !Z.pow_add_r by lia. rewrite !Z.mul_assoc.
  pose proof (Z.pow_pos_nonneg 2 k ltac:(lia) Hk).
  split; intros H0; [apply Z.mul_le_mono_nonneg_r; lia | eapply Z.mul_le_mono_pos_r; eauto].
Qed.

Lemma scaled_le_mono_r (m1 e1 m2 m2' e2 : Z) :
  m2 <= m2' -> scaled_le m1 e1 m2 e2 -> scaled_le m1 e1 m2' e2.
Proof.
  unfold scaled_le. intros Hm H0.
  pose proof (Z.pow_nonneg 2 (e2 - Z.min e1 e2) ltac:(lia)). nia.
Qed.

Lemma canonical_exp_lt (m1 e1 m2 e2 : Z) :
  canonical prec emax m1 e1 -> canonical prec emax m2 e2 -> e1 < e2 -> m1 < m2 * 2 ^ (e2 - e1).
Proof.
  intros H1 H2 Hlt.
  destruct (canonical_cases _ _ H1) as (He1 & Hd1 & _).
  destruct (canonical_cases _ _ H2) as (He2 & Hd2 & Hor).
  destruct H1 as [Hp1 _], H2 as [Hp2 _].
  assert (Hdp : Zdigits2 m2 = prec) by lia.
  pose proof (Zdigits2_bounds m1 Hp1) as [_ Hhi].
  pose proof (Zdigits2_bounds m2 Hp2) as [Hlo _]. rewrite Hdp in Hlo.
  assert (Hm1 : m1 < 2 ^ prec).
  { pose proof (Z.pow_le_mono_r 2 (Zdigits2 m1) prec). lia. }
  assert (Hpw : 2 ^ 1 <= 2 ^ (e2 - e1)) by (apply Z.pow_le_mono_r; lia).
  assert (Hsp : 2 ^ prec = 2 ^ (prec - 1) * 2).
  { replace prec with ((prec - 1) + 1) at 1 by lia. rewrite Z.pow_add_r by lia. reflexivity. }
  change (2 ^ 1) with 2 in Hpw. nia.
Qed.

Lemma SFleb_canonical (m1 m2 : positive) (e1 e2 : Z) :
  canonical prec emax (Zpos m1) e1 -> canonical prec emax (Zpos m2) e2 ->
  SFleb (S754_finite false m1 e1) (S754_finite false m2 e2) = true
  <-> scaled_le (Zpos m1) e1 (Zpos m2) e2.
Proof.
  intros H1 H2. unfold SFleb, SFcompare.
  destruct (Z.compare_spec e1 e2) as [Heq|Hlt|Hgt].
  - subst e2. rewrite (scaled_le_base e1) by lia. rewrite Z.sub_diag, !Z.mul_1_r.
    rewrite Pos.compare_cont_spec. simpl Pos.switch_Eq.
    destruct (Pos.compare_spec m1 m2); split; intros; try done; lia.
  - rewrite (scaled_le_base e1) by lia. rewrite Z.sub_diag, Z.mul_1_r.
    pose proof (canonical_exp_lt _ _ _ _ H1 H2 Hlt). split; intros; [lia | done].
  - rewrite (scaled_le_base e2) by lia. rewrite Z.sub_diag, Z.mul_1_r.
    pose proof (canonical_exp_lt _ _ _ _ H2 H1 Hgt). split; intros; [done | lia].
Qed.

Lemma scaled_le_pos (m1 e1 m2 e2 : Z) : 0 < m1 -> scaled_le m1 e1 m2 e2 -> 0 < m2.
Proof.
  unfold scaled_le. intros Hm H0.
  pose proof (Z.pow_pos_nonneg 2 (e1 - Z.min e1 e2) ltac:(lia) ltac:(lia)).
  pose proof (Z.pow_pos_nonneg 2 (e2 - Z.min e1 e2) ltac:(lia) ltac:(lia)). nia.
Qed.

(** Truncation to the target exponent stays above a member of the
    format that the exact value is above. *)
Lemma truncation_ge (mx ex mB eB : Z) :
  0 <= mx -> ex <= fexp (Zdigits2 mx + ex) ->
  canonical prec emax mB eB -> scaled_le mB eB mx ex ->
  scaled_le mB eB (mx / 2 ^ (fexp (Zdigits2 mx + ex) - ex)) (fexp (Zdigits2 mx + ex)).
Proof.
  intros Hmx Hpre HB Hle.
  destruct (shr_fexp_spec mx ex loc_Exact Hmx Hpre) as (_ & _ & Hcases).
  set (e1 := fexp (Zdigits2 mx + ex)) in *.
  destruct (canonical_cases _ _ HB) as (HeB & _ & _).
  destruct (Z_le_gt_dec e1 eB) as [Hc|Hc].
  - apply (scaled_le_base ex) in Hle; [|lia|lia]. apply (scaled_le_base e1); [lia|lia|].
    rewrite Z.sub_diag, Z.mul_1_r in *.
    apply Z.div_le_lower_bound; [apply Z.pow_pos_nonneg; lia|].
    replace (eB - ex) with ((e1 - ex) + (eB - e1)) in Hle by lia.
    rewrite Z.pow_add_r in Hle by lia. lia.
  - destruct Hcases as [[_ He]|Hcan]; [lia|].
    apply (scaled_le_base eB); [lia|lia|]. rewrite Z.sub_diag, Z.mul_1_r.
    pose proof (canonical_exp_lt _ _ _ _ HB Hcan ltac:(lia)). lia.
Qed.

Lemma binary_round_aux_ge (mx ex : Z) (lx : location) (mB : positive) (eB : Z) :
  0 <= mx -> ex <= fexp (Zdigits2 mx + ex) ->
  canonical prec emax (Zpos mB) eB -> scaled_le (Zpos mB) eB mx ex ->
  SFleb (S754_finite false mB eB) (binary_round_aux prec emax false mx ex lx) = true.
Proof.
  intros Hmx Hpre HB Hle.
  pose proof (truncation_ge mx ex (Zpos mB) eB Hmx Hpre HB Hle) as Htr.
  destruct (binary_round_aux_spec false mx ex lx Hmx Hpre)
    as (m2 & Hb & [(Hz & _ & _)|[(Hc & ->)|(Hp & He & ->)]]).
  - apply (scaled_le_mono_r _ _ _ m2) in Htr; [|lia].
    apply scaled_le_pos in Htr; lia.
  - destruct (_ <=? _); [|reflexivity].
    destruct Hc as [Hpos Hfe]. apply SFleb_canonical; rewrite ?Z2Pos.id by done; try done.
    apply (scaled_le_mono_r _ _ _ m2) in Htr; [done | lia].
  - destruct (_ <=? _); [|reflexivity].
    assert (Hpp : 0 < 2 ^ (prec - 1)) by (apply Z.pow_pos_nonneg; lia).
    assert (Hd : Zdigits2 (2 ^ (prec - 1)) = prec).
    { apply Zdigits2_unique; [lia|]. split; [lia|]. apply Z.pow_lt_mono_r; lia. }
    apply SFleb_canonical; rewrite ?Z2Pos.id by done; try done.
    { apply canonical_intro; rewrite ?Hd; lia. }
    apply (scaled_le_mono_r _ _ _ m2) in Htr; [|lia]. rewrite Hp in Htr.
    set (e1 := fexp (Zdigits2 mx + ex)) in *.
    destruct (canonical_cases _ _ HB) as (HeB & _ & _).
    apply (scaled_le_base emin) in Htr; [|lia|lia]. apply (scaled_le_base emin); [lia|lia|].
    replace (e1 + 1 - emin) with ((e1 - emin) + 1) by lia.
    rewrite Z.pow_add_r by lia.
    replace (2 ^ prec) with (2 ^ (prec - 1) * 2 ^ 1) in Htr
      by (rewrite <- Z.pow_add_r by lia; f_equal; lia).
    lia.
Qed.

(** ** Multiplication and division by one *)

Lemma pow2_prec_pos : 0 < 2 ^ (prec - 1).
Proof. apply Z.pow_pos_nonneg; lia. Qed.

Lemma fone_mantissa : Zpos (Z.to_pos (2 ^ (prec - 1))) = 2 ^ (prec - 1).
Proof. apply Z2Pos.id, pow2_prec_pos. Qed.

Lemma Zdigits2_pow2_prec : Zdigits2 (2 ^ (prec - 1)) = prec.
Proof.
  apply Zdigits2_unique; [lia|]. split; [lia|]. apply Z.pow_lt_mono_r; lia.
Qed.

Lemma fone_canonical : canonical prec emax (2 ^ (prec - 1)) (1 - prec).
Proof.
  apply canonical_intro; rewrite ?Zdigits2_pow2_prec; unfold SpecFloat.emin;
    lia.
Qed.

Lemma fone_bounded : bounded prec emax (Z.to_pos (2 ^ (prec - 1))) (1 - prec) = true.
Proof.
  unfold bounded. apply andb_true_iff. split.
  - apply canonical_mantissa_iff. rewrite fone_mantissa. apply fone_canonical.
  - apply Z.leb_le. lia.
Qed.

Lemma SFmul_one_r (x : spec_float) :
  valid_binary prec emax x = true -> SFmul prec emax x (fone prec) = x.
Proof.
  destruct x as [s|s| |s m e]; simpl; intros Hv;
    rewrite ?xorb_false_r; try reflexivity.
  rewrite Pos2Z.inj_mul, fone_mantissa.
  replace (e + (1 - prec)) with (e - (prec - 1)) by lia.
  apply binary_round_aux_exact; [exact Hv | lia].
Qed.

Lemma new_location_0 (nb : Z) : new_location nb 0 = loc_Exact.
Proof. unfold new_location. destruct (Z.even nb); reflexivity. Qed.

Lemma div_eucl_exact (a b : Z) : 0 < b -> Z.div_eucl (a * b) b = (a, 0).
Proof.
  intros Hb. pose proof (Z.div_mul a b ltac:(lia)) as Hq.
  pose proof (Z.mod_mul a b ltac:(lia)) as Hr.
  unfold Z.div, Z.modulo in *. destruct (Z.div_eucl (a * b) b). congruence.
Qed.

Lemma shift_match (m sh : Z) :
  0 <= sh ->
  match sh with
  | Z.pos _ => Z.shiftl m sh
  | 0 => m
  | Z.neg _ => 0
  end = m * 2 ^ sh.
Proof.
  intros Hs. destruct sh as [|p|p]; try lia.
  apply Z.shiftl_mul_pow2. lia.
Qed.

Lemma SFdiv_one_r (x : spec_float) :
  valid_binary prec emax x = true -> SFdiv prec emax x (fone prec) = x.
Proof.
  destruct x as [s|s| |s m e]; simpl; intros Hv;
    rewrite ?xorb_false_r; try reflexivity.
  pose proof Hv as Hbd. unfold bounded in Hbd. apply andb_true_iff in Hbd as [Hc _].
  apply canonical_mantissa_iff in Hc. pose proof Hc as [Hpos Hfe].
  destruct (canonical_cases _ _ Hc) as (He & Hd & Hor).
  unfold SFdiv_core_binary. rewrite fone_mantissa, Zdigits2_pow2_prec.
  replace (Zdigits2 (Zpos m) + e - (prec + (1 - prec))) with (Zdigits2 (Zpos m) + e - 1) by lia.
  set (g := fexp (Zdigits2 (Zpos m) + e - 1)).
  assert (Hg : g = e \/ g = e - 1) by (unfold g, SpecFloat.fexp in *; lia).
  rewrite Z.min_l by lia.
  set (sh := e - (1 - prec) - g).
  assert (Hsh : sh = (e - g) + (prec - 1)) by (unfold sh; lia).
  rewrite shift_match by lia. rewrite Hsh, Z.pow_add_r by lia.
  rewrite Z.mul_assoc, div_eucl_exact by apply pow2_prec_pos.
  rewrite new_location_0.
  replace g with (e - (e - g)) at 2 by lia.
  apply binary_round_aux_exact; [exact Hv | lia].
Qed.

Lemma SFdiv_diag (s : bool) (m : positive) (e : Z) :
  SFdiv prec emax (S754_finite s m e) (S754_finite s m e) = (fone prec).
Proof.
  simpl. rewrite xorb_nilpotent. unfold SFdiv_core_binary.
  replace (Zdigits2 (Zpos m) + e - (Zdigits2 (Zpos m) + e)) with 0 by lia.
  rewrite Z.sub_diag.
  assert (Hf : fexp 0 = - prec) by (unfold SpecFloat.fexp, SpecFloat.emin; lia).
  rewrite Hf, Z.min_l by lia.
  replace (0 - - prec) with prec by lia.
  rewrite shift_match by lia. rewrite Z.mul_comm.
  rewrite div_eucl_exact by lia. rewrite new_location_0.
  replace (2 ^ prec) with (Zpos (Z.to_pos (2 ^ (prec - 1))) * 2 ^ 1)
    by (rewrite fone_mantissa, <- Z.pow_add_r by lia; f_equal; lia).
  replace (- prec) with ((1 - prec) - 1) by lia.
  apply binary_round_aux_exact; [apply fone_bounded | lia].
Qed.

(** ** Quotients and products above one *)

Lemma one_le_iff (m e : Z) :
  0 < m ->
  scaled_le (2 ^ (prec - 1)) (1 - prec) m e <-> (0 <= e \/ 2 ^ (- e) <= m).
Proof.
  intros Hm. set (c := Z.min (1 - prec) e).
  rewrite (scaled_le_base c) by lia.
  rewrite <- Z.pow_add_r by lia.
  replace (prec - 1 + (1 - prec - c)) with (- c) by lia.
  pose proof (Z.pow_pos_nonneg 2 (e - c) ltac:(lia) ltac:(lia)) as Hp.
  destruct (Z_le_gt_dec 0 e) as [He|He].
  - split; [auto|]. intros _.
    assert (2 ^ (- c) <= 2 ^ (e - c)) by (apply Z.pow_le_mono_r; lia). nia.
  - replace (- c) with ((- e) + (e - c)) by lia. rewrite Z.pow_add_r by lia.
    split.
    + intros H0. right. eapply Z.mul_le_mono_pos_r; eauto.
    + intros [?|H0]; [lia|]. apply Z.mul_le_mono_nonneg_r; lia.
Qed.

Lemma SFdiv_core_binary_eq (m1 e1 m2 e2 : Z) :
  SFdiv_core_binary prec emax m1 e1 m2 e2 =
  let e' := Z.min (fexp (Zdigits2 m1 + e1 - (Zdigits2 m2 + e2))) (e1 - e2) in
  let m' := m1 * 2 ^ (e1 - e2 - e') in
  (m' / m2, e', new_location m2 (m' mod m2)).
Proof.
  unfold SFdiv_core_binary. cbv zeta. rewrite shift_match by lia.
  unfold Z.div, Z.modulo. destruct (Z.div_eucl _ m2). reflexivity.
Qed.

Lemma SFdiv_ge_one (m1 m2 : positive) (e1 e2 : Z) :
  canonical prec emax (Zpos m1) e1 -> canonical prec emax (Zpos m2) e2 ->
  scaled_le (Zpos m2) e2 (Zpos m1) e1 ->
  SFleb (fone prec) (SFdiv prec emax (S754_finite false m1 e1) (S754_finite false m2 e2)) = true
  /\ valid_binary prec emax
       (SFdiv prec emax (S754_finite false m1 e1) (S754_finite false m2 e2)) = true.
Proof.
  intros H1 H2 Hle. simpl SFdiv. rewrite SFdiv_core_binary_eq. cbv zeta.
  set (d1 := Zdigits2 (Zpos m1)). set (d2 := Zdigits2 (Zpos m2)).
  set (e' := Z.min (fexp (d1 + e1 - (d2 + e2))) (e1 - e2)).
  set (sh := e1 - e2 - e').
  assert (Hsh : 0 <= sh) by (unfold sh, e'; lia).
  assert (He12 : e2 <= e1).
  { destruct (Z_le_gt_dec e2 e1); [done|].
    pose proof (canonical_exp_lt _ _ _ _ H1 H2 ltac:(lia)).
    apply (scaled_le_base e1) in Hle; [|lia|lia].
    rewrite Z.sub_diag, Z.mul_1_r in Hle. lia. }
  apply (scaled_le_base e2) in Hle; [|lia|lia]. rewrite Z.sub_diag, Z.mul_1_r in Hle.
  pose proof (Zdigits2_bounds (Zpos m1) ltac:(lia)) as [Hlo1 Hhi1]. fold d1 in Hlo1, Hhi1.
  pose proof (Zdigits2_bounds (Zpos m2) ltac:(lia)) as [Hlo2 Hhi2]. fold d2 in Hlo2, Hhi2.
  pose proof (Zdigits2_pos (Zpos m1) ltac:(lia)) as Hd1. fold d1 in Hd1.
  pose proof (Zdigits2_pos (Zpos m2) ltac:(lia)) as Hd2. fold d2 in Hd2.
  pose proof (Z.pow_pos_nonneg 2 sh ltac:(lia) Hsh) as Hpsh.
  destruct (canonical_cases _ _ H1) as (_ & Hdp1 & _). fold d1 in Hdp1.
  destruct (canonical_cases _ _ H2) as (_ & Hdp2 & _). fold d2 in Hdp2.
  (* the quotient is at least one *)
  assert (Hnum : Zpos m2 <= Zpos m1 * 2 ^ sh).
  { destruct (Z_le_gt_dec e' 0) as [Hneg|Hposi].
    - assert (2 ^ (e1 - e2) <= 2 ^ sh) by (apply Z.pow_le_mono_r; unfold sh; lia). nia.
    - assert (Hs2 : d2 - d1 + prec <= sh).
      { unfold sh, e', SpecFloat.fexp, SpecFloat.emin in *. lia. }
      assert (2 ^ (d2 - d1 + prec) <= 2 ^ sh) by (apply Z.pow_le_mono_r; lia).
      assert (2 ^ (d1 - 1) * 2 ^ (d2 - d1 + prec) = 2 ^ (d2 + prec - 1)).
      { rewrite <- Z.pow_add_r by lia. f_equal. lia. }
      assert (2 ^ d2 <= 2 ^ (d2 + prec - 1)) by (apply Z.pow_le_mono_r; lia).
      nia. }
  set (q := Zpos m1 * 2 ^ sh / Zpos m2).
  assert (Hq1 : 1 <= q).
  { unfold q. apply Z.div_le_lower_bound; lia. }
  (* the quotient has enough digits *)
  assert (Hdq : d1 + sh - d2 <= Zdigits2 q).
  { destruct (Z_le_gt_dec 0 (d1 + sh - d2 - 1)) as [Hk|Hk].
    - assert (Hqk : 2 ^ (d1 + sh - d2 - 1) <= q).
      { unfold q. apply Z.div_le_lower_bound; [lia|].
        assert (2 ^ (d1 + sh - d2 - 1) * 2 ^ d2 = 2 ^ (d1 - 1) * 2 ^ sh).
        { rewrite <- !Z.pow_add_r by lia. f_equal. lia. }
        pose proof (Z.pow_pos_nonneg 2 (d1 + sh - d2 - 1) ltac:(lia) Hk). nia. }
      pose proof (Zdigits2_bounds q ltac:(lia)) as [_ Hhq].
      destruct (Z_le_gt_dec (d1 + sh - d2) (Zdigits2 q)); [done|].
      assert (2 ^ Zdigits2 q <= 2 ^ (d1 + sh - d2 - 1)).
      { apply Z.pow_le_mono_r; lia. }
      lia.
    - pose proof (Zdigits2_pos q ltac:(lia)). lia. }
  assert (Hpre : e' <= fexp (Zdigits2 q + e')).
  { transitivity (fexp (d1 + e1 - (d2 + e2))); [unfold e'; lia|].
    apply fexp_mono. unfold sh in Hdq. lia. }
  assert (Hone : scaled_le (Zpos (Z.to_pos (2 ^ (prec - 1)))) (1 - prec) q e').
  { rewrite fone_mantissa. apply one_le_iff; [lia|].
    destruct (Z_le_gt_dec 0 e') as [?|Hneg]; [auto|right].
    unfold q. apply Z.div_le_lower_bound; [lia|].
    replace sh with ((e1 - e2) + (- e')) by (unfold sh; lia).
    rewrite Z.pow_add_r by lia.
    pose proof (Z.pow_pos_nonneg 2 (- e') ltac:(lia) ltac:(lia)). nia. }
  split.
  - apply binary_round_aux_ge; try done; [lia|].
    rewrite fone_mantissa. apply fone_canonical.
  - apply binary_round_aux_valid; [lia | done].
Qed.

Lemma SFmul_ge (mx my : positive) (ex ey : Z) :
  canonical prec emax (Zpos mx) ex -> canonical prec emax (Zpos my) ey ->
  scaled_le (2 ^ (prec - 1)) (1 - prec) (Zpos my) ey ->
  SFleb (S754_finite false mx ex)
        (SFmul prec emax (S754_finite false mx ex) (S754_finite false my ey)) = true
  /\ valid_binary prec emax
       (SFmul prec emax (S754_finite false mx ex) (S754_finite false my ey)) = true.
Proof.
  intros Hx Hy Hone. simpl SFmul. rewrite Pos2Z.inj_mul.
  apply one_le_iff in Hone; [|lia].
  destruct (canonical_cases _ _ Hx) as (Hex & Hdx & _).
  destruct (canonical_cases _ _ Hy) as (Hey & Hdy & Hory).
  pose proof (Zdigits2_bounds (Zpos mx) ltac:(lia)) as [Hlox Hhix].
  pose proof (Zdigits2_bounds (Zpos my) ltac:(lia)) as [Hloy Hhiy].
  pose proof (Zdigits2_pos (Zpos mx) ltac:(lia)) as Hpx.
  pose proof (Zdigits2_pos (Zpos my) ltac:(lia)) as Hpy.
  assert (Hny : Zdigits2 (Zpos my) = prec).
  { destruct Hory as [?|Hem]; [done|]. exfalso.
    destruct Hone as [?|Hone]; [unfold SpecFloat.emin in *; lia|].
    assert (2 ^ prec <= 2 ^ (- ey)).
    { apply Z.pow_le_mono_r; unfold SpecFloat.emin in *; lia. }
    assert (2 ^ Zdigits2 (Zpos my) <= 2 ^ prec) by (apply Z.pow_le_mono_r; lia).
    lia. }
  rewrite Hny in *.
  assert (Hdig : Zdigits2 (Zpos mx) + prec - 1 <= Zdigits2 (Zpos mx * Zpos my)).
  { pose proof (Zdigits2_bounds (Zpos mx * Zpos my) ltac:(lia)) as [_ Hhi].
    destruct (Z_le_gt_dec (Zdigits2 (Zpos mx) + prec - 1) (Zdigits2 (Zpos mx * Zpos my)));
      [done|].
    assert (2 ^ Zdigits2 (Zpos mx * Zpos my) <= 2 ^ (Zdigits2 (Zpos mx) + prec - 2)).
    { apply Z.pow_le_mono_r; lia. }
    assert (2 ^ (Zdigits2 (Zpos mx) - 1) * 2 ^ (prec - 1)
            = 2 ^ (Zdigits2 (Zpos mx) + prec - 2)).
    { rewrite <- Z.pow_add_r by lia. f_equal. lia. }
    nia. }
  assert (Hpre : ex + ey <= fexp (Zdigits2 (Zpos mx * Zpos my) + (ex + ey))).
  { unfold SpecFloat.fexp. lia. }
  assert (Hle : scaled_le (Zpos mx) ex (Zpos mx * Zpos my) (ex + ey)).
  { destruct (Z_le_gt_dec 0 ey) as [Hp|Hn].
    - apply (scaled_le_base ex); [lia|lia|]. rewrite Z.sub_diag, Z.mul_1_r.
      pose proof (Z.pow_pos_nonneg 2 (ex + ey - ex) ltac:(lia) ltac:(lia)).
      assert (1 * 1 <= Zpos my * 2 ^ (ex + ey - ex)) by (apply Z.mul_le_mono_nonneg; lia).
      rewrite <- Z.mul_assoc. nia.
    - destruct Hone as [?|Hone]; [lia|].
      apply (scaled_le_base (ex + ey)); [lia|lia|]. rewrite Z.sub_diag, Z.mul_1_r.
      replace (ex - (ex + ey)) with (- ey) by lia. nia. }
  split.
  - apply binary_round_aux_ge; try done; lia.
  - apply binary_round_aux_valid; [lia | done].
Qed.

(** ** Conversion of integers *)

Lemma iter_xO_pow2 (p k : positive) : Zpos (Pos.iter xO p k) = Zpos p * 2 ^ Zpos k.
Proof.
  rewrite (Pos.iter_swap_gen _ _ Zpos xO (Z.mul 2)) by reflexivity.
  rewrite <- Z.shiftl_mul_pow2 by lia. reflexivity.
Qed.

Lemma shl_align_ge (p : positive) (e e' : Z) :
  e <= e' -> shl_align p e e' = (p, e).
Proof. intros H. unfold shl_align. destruct (e' - e) eqn:E; try lia; reflexivity. Qed.

Lemma shl_align_lt (p : positive) (e e' : Z) :
  e' < e -> shl_align p e e' = (Pos.iter xO p (Z.to_pos (e - e')), e').
Proof.
  intros H. unfold shl_align. destruct (e' - e) as [|k|k] eqn:E; try lia.
  replace (e - e') with (Zpos k) by lia. reflexivity.
Qed.

Lemma binary_round_canonical (m : positive) (e : Z) :
  bounded prec emax m e = true ->
  binary_round prec emax false m e = S754_finite false m e.
Proof.
  intros Hbd. unfold binary_round.
  pose proof Hbd as Hc. unfold bounded in Hc. apply andb_true_iff in Hc as [Hc _].
  apply canonical_mantissa_iff in Hc. destruct Hc as [_ Hfe].
  change (Zpos (digits2_pos m)) with (Zdigits2 (Zpos m)). rewrite Hfe.
  rewrite shl_align_ge by lia. cbv beta iota.
  replace (Zpos m) with (Zpos m * 2 ^ 0) by lia. replace e with (e - 0) at 1 by lia.
  apply binary_round_aux_exact; [exact Hbd | lia].
Qed.

Lemma binary_normalize_exact (z : Z) :
  0 < z <= 2 ^ prec ->
  exists m e,
    binary_normalize prec emax z 0 false = S754_finite false m e
    /\ bounded prec emax m e = true
    /\ ((e <= 0 /\ Zpos m = z * 2 ^ (- e)) \/ (0 < e /\ z = Zpos m * 2 ^ e)).
Proof.
  intros [Hz Hle]. destruct z as [|p|p]; try lia.
  simpl binary_normalize. unfold binary_round.
  change (Zpos (digits2_pos p)) with (Zdigits2 (Zpos p)).
  destruct (Z.eq_dec (Zpos p) (2 ^ prec)) as [Hp|Hp].
  - exists (Z.to_pos (2 ^ (prec - 1))), 1.
    assert (Hbd : bounded prec emax (Z.to_pos (2 ^ (prec - 1))) 1 = true).
    { unfold bounded. apply andb_true_iff. split; [|apply Z.leb_le; lia].
      apply canonical_mantissa_iff. rewrite fone_mantissa.
      apply canonical_intro; rewrite ?Zdigits2_pow2_prec; unfold SpecFloat.emin; lia. }
    split; [|split; [exact Hbd|]].
    + assert (Hd : Zdigits2 (Zpos p) = prec + 1).
      { rewrite Hp. apply Zdigits2_unique; [lia|]. replace (prec + 1 - 1) with prec by lia.
        split; [lia|]. apply Z.pow_lt_mono_r; lia. }
      rewrite Hd.
      replace (fexp (prec + 1 + 0)) with 1 by (unfold SpecFloat.fexp, SpecFloat.emin; lia).
      rewrite shl_align_ge by lia. cbv beta iota. rewrite Hp.
      replace (2 ^ prec) with (Zpos (Z.to_pos (2 ^ (prec - 1))) * 2 ^ 1)
        by (rewrite fone_mantissa, <- Z.pow_add_r by lia; f_equal; lia).
      change 0 with (1 - 1) at 1.
      apply binary_round_aux_exact; [exact Hbd | lia].
    + right. split; [lia|]. rewrite fone_mantissa, Hp, <- Z.pow_add_r by lia. f_equal. lia.
  - assert (Hlt : Zpos p < 2 ^ prec) by lia.
    pose proof (Zdigits2_bounds (Zpos p) ltac:(lia)) as [Hlo Hhi].
    pose proof (Zdigits2_pos (Zpos p) ltac:(lia)) as Hdp.
    assert (Hd : Zdigits2 (Zpos p) <= prec).
    { destruct (Z_le_gt_dec (Zdigits2 (Zpos p)) prec); [done|].
      assert (2 ^ prec <= 2 ^ (Zdigits2 (Zpos p) - 1)) by (apply Z.pow_le_mono_r; lia).
      lia. }
    set (d := Zdigits2 (Zpos p)) in *.
    assert (Hbd : forall m, Zpos m = Zpos p * 2 ^ (prec - d) ->
                    bounded prec emax m (d - prec) = true).
    { intros m Hm. unfold bounded. apply andb_true_iff. split; [|apply Z.leb_le; lia].
      apply canonical_mantissa_iff. rewrite Hm.
      assert (Hdm : Zdigits2 (Zpos p * 2 ^ (prec - d)) = prec).
      { rewrite Zdigits2_mul_pow2 by lia. fold d. lia. }
      apply canonical_intro; rewrite ?Hdm; unfold SpecFloat.emin; lia. }
    replace (fexp (d + 0)) with (d - prec) by (unfold SpecFloat.fexp, SpecFloat.emin; lia).
    destruct (Z.eq_dec d prec) as [Heq|Hne].
    + rewrite shl_align_ge by lia. cbv beta iota. exists p, 0.
      assert (Hb0 : bounded prec emax p 0 = true).
      { replace 0 with (d - prec) by lia. apply Hbd.
        replace (prec - d) with 0 by lia. lia. }
      split; [|split; [exact Hb0|]].
      * replace (Zpos p) with (Zpos p * 2 ^ 0) by lia. change 0 with (0 - 0) at 2.
        apply binary_round_aux_exact; [exact Hb0 | lia].
      * left. split; [lia|]. simpl. lia.
    + rewrite shl_align_lt by lia. cbv beta iota.
      set (m := Pos.iter xO p (Z.to_pos (0 - (d - prec)))).
      assert (Hm : Zpos m = Zpos p * 2 ^ (prec - d)).
      { unfold m. rewrite iter_xO_pow2. rewrite Z2Pos.id by lia. f_equal. f_equal. lia. }
      exists m, (d - prec). split; [|split; [apply Hbd; exact Hm|]].
      * replace (Zpos m) with (Zpos m * 2 ^ 0) by lia.
        replace (d - prec) with (d - prec - 0) at 1 by lia.
        apply binary_round_aux_exact; [apply Hbd; exact Hm | lia].
      * left. split; [lia|]. rewrite Hm. f_equal. f_equal. lia.
Qed.

(** [binary_round] aligns the mantissa and rounds: the result is a
    member of the format, and it is finite when the magnitude of the
    input leaves room below the largest exponent. *)
Lemma shl_align_fexp_spec (m : positive) (e : Z) :
  exists mz ez,
    shl_align m e (fexp (Zdigits2 (Zpos m) + e)) = (mz, ez)
    /\ ez <= fexp (Zdigits2 (Zpos mz) + ez)
    /\ Zdigits2 (Zpos mz) + ez = Zdigits2 (Zpos m) + e.
Proof.
  set (e' := fexp (Zdigits2 (Zpos m) + e)).
  destruct (Z_le_gt_dec e e') as [Hle|Hgt].
  - rewrite shl_align_ge by lia. exists m, e. split; [reflexivity|]. fold e'. lia.
  - rewrite shl_align_lt by lia. eexists _, _. split; [reflexivity|].
    rewrite iter_xO_pow2, Z2Pos.id by lia. rewrite Zdigits2_mul_pow2 by lia.
    replace (Zdigits2 (Zpos m) + (e - e') + e') with (Zdigits2 (Zpos m) + e) by lia.
    fold e'. lia.
Qed.

Lemma binary_round_valid (s : bool) (m : positive) (e : Z) :
  valid_binary prec emax (binary_round prec emax s m e) = true.
Proof.
  unfold binary_round. change (Zpos (digits2_pos m)) with (Zdigits2 (Zpos m)).
  destruct (shl_align_fexp_spec m e) as (mz & ez & -> & Hle & _).
  apply binary_round_aux_valid; lia.
Qed.

Lemma binary_round_finite (s : bool) (m : positive) (e : Z) :
  Zdigits2 (Zpos m) + e < emax ->
  is_finite (binary_round prec emax s m e) = true.
Proof.
  intros Hd. unfold binary_round. change (Zpos (digits2_pos m)) with (Zdigits2 (Zpos m)).
  destruct (shl_align_fexp_spec m e) as (mz & ez & -> & Hle & Hsame).
  destruct (binary_round_aux_spec s (Zpos mz) ez loc_Exact ltac:(lia) Hle)
    as (m2 & _ & [(_ & _ & ->)|[(_ & ->)|(_ & _ & ->)]]); [reflexivity| |].
  - rewrite Hsame.
    destruct (Z.leb_spec (fexp (Zdigits2 (Zpos m) + e)) (emax - prec)); [reflexivity|].
    unfold SpecFloat.fexp, SpecFloat.emin in *. lia.
  - rewrite Hsame.
    destruct (Z.leb_spec (fexp (Zdigits2 (Zpos m) + e) + 1) (emax - prec)); [reflexivity|].
    unfold SpecFloat.fexp, SpecFloat.emin in *. lia.
Qed.

Lemma binary_normalize_valid (z e : Z) (szero : bool) :
  valid_binary prec emax (binary_normalize prec emax z e szero) = true.
Proof. destruct z; [reflexivity | apply binary_round_valid | apply binary_round_valid]. Qed.

Lemma binary_normalize_finite (z : Z) (d : Z) :
  Z.abs z < 2 ^ d -> 0 <= d < emax ->
  is_finite (binary_normalize prec emax z 0 false) = true.
Proof.
  intros Hz Hd.
  assert (Hdig : forall p, Zpos p < 2 ^ d -> Zdigits2 (Zpos p) + 0 < emax).
  { intros p Hp. pose proof (Zdigits2_bounds (Zpos p) ltac:(lia)) as [Hlo _].
    assert (Zdigits2 (Zpos p) - 1 < d); [|lia].
    apply (Z.pow_lt_mono_r_iff 2); lia. }
  destruct z as [|p|p]; [reflexivity | |]; apply binary_round_finite, Hdig; lia.
Qed.
End Rounding.

(** ** Binary64: order, minimum and rescaling *)

(** ** Python numbers as [torch.float] scalars *)

Lemma f64_of_int_finite (z : Z) : in_int64 z = true -> is_finite (f64_of_int z) = true.
Proof.
  intros Hz. unfold in_int64, int64_min, int64_max in Hz.
  apply andb_true_iff in Hz as [H1 H2]. apply Z.leb_le in H1, H2.
  apply (binary_normalize_finite 53 1024 ltac:(lia) ltac:(lia) z 64); lia.
Qed.

Lemma float32_of_float64_valid (f : spec_float) :
  float_valid Binary32 (float32_of_float64 f) = true.
Proof.
  destruct f as [s|s| |s m e]; try reflexivity.
  apply (binary_round_valid 24 128); lia.
Qed.

Lemma torch_tensor_float_number (v : Value) :
  (exists f, v = VFloat f) \/ (exists z, v = VInt z /\ is_finite (f64_of_int z) = true) ->
  exists x, torch_tensor_float v = Ok (FloatTensor Binary32 [] [x])
            /\ float_valid Binary32 x = true.
Proof.
  intros [[f ->]|(z & -> & Hz)].
  - exists (float32_of_float64 f). split; [reflexivity | apply float32_of_float64_valid].
  - exists (float32_of_float64 (f64_of_int z)).
    split; [|apply float32_of_float64_valid].
    unfold torch_tensor_float. destruct (f64_of_int z); try reflexivity. discriminate Hz.
Qed.

Lemma f64_one_eq : f64_one = fone 53.
Proof. reflexivity. Qed.

Lemma pos_finite_inv (x : spec_float) :
  f64_pos_finite x = true ->
  exists m e, x = S754_finite false m e /\ canonical 53 1024 (Zpos m) e
              /\ bounded 53 1024 m e = true.
Proof.
  destruct x as [s|s| |[] m e]; simpl; try discriminate. intros Hv.
  exists m, e. split; [reflexivity|]. split; [|exact Hv].
  unfold f64_valid in Hv. simpl in Hv. unfold bounded in Hv.
  apply andb_true_iff in Hv as [Hc _]. apply canonical_mantissa_iff; exact Hc.
Qed.

Lemma scaled_le_trans (m1 e1 m2 e2 m3 e3 : Z) :
  scaled_le m1 e1 m2 e2 -> scaled_le m2 e2 m3 e3 -> scaled_le m1 e1 m3 e3.
Proof.
  intros H1 H2. set (c := Z.min e1 (Z.min e2 e3)).
  apply (scaled_le_base c) in H1; [|lia|lia]. apply (scaled_le_base c) in H2; [|lia|lia].
  apply (scaled_le_base c); lia.
Qed.

Lemma SFltb_false_SFleb (a b : spec_float) :
  f64_pos_finite a = true -> f64_pos_finite b = true ->
  SFltb a b = false -> SFleb b a = true.
Proof.
  intros Ha Hb. apply pos_finite_inv in Ha as (ma & ea & -> & _ & _).
  apply pos_finite_inv in Hb as (mb & eb & -> & _ & _).
  unfold SFltb, SFleb, SFcompare. rewrite (Z.compare_antisym ea eb).
  destruct (ea ?= eb); simpl; try done.
  pose proof (Pos.compare_cont_antisym ma mb Eq) as Hanti. simpl in Hanti.
  rewrite <- Hanti. destruct (Pos.compare_cont Eq ma mb); simpl; done.
Qed.

Lemma SFleb_refl_pos (a : spec_float) : f64_pos_finite a = true -> SFleb a a = true.
Proof.
  intros Ha. apply pos_finite_inv in Ha as (ma & ea & -> & _ & _).
  unfold SFleb, SFcompare. rewrite Z.compare_refl, Pos.compare_cont_refl. reflexivity.
Qed.

Lemma SFleb_trans_pos (a b c : spec_float) :
  f64_pos_finite a = true -> f64_pos_finite b = true -> f64_pos_finite c = true ->
  SFleb a b = true -> SFleb b c = true -> SFleb a c = true.
Proof.
  intros Ha Hb Hc. apply pos_finite_inv in Ha as (ma & ea & -> & Ca & _).
  apply pos_finite_inv in Hb as (mb & eb & -> & Cb & _).
  apply pos_finite_inv in Hc as (mc & ec & -> & Cc & _).
  rewrite !(SFleb_canonical 53 1024) by (done || lia). apply scaled_le_trans.
Qed.

Lemma np_minimum_pos (acc x : spec_float) :
  f64_pos_finite acc = true -> f64_pos_finite x = true ->
  f64_pos_finite (np_minimum acc x) = true
  /\ (np_minimum acc x = acc \/ np_minimum acc x = x)
  /\ SFleb (np_minimum acc x) acc = true
  /\ SFleb (np_minimum acc x) x = true.
Proof.
  intros Ha Hx. unfold np_minimum.
  assert (Hn : is_nan acc = false) by (destruct acc as [| | |[]]; done).
  rewrite Hn, orb_false_r. destruct (SFltb acc x) eqn:Hlt.
  - split; [done|]. split; [auto|]. split; [by apply SFleb_refl_pos|].
    unfold SFltb in Hlt. unfold SFleb. destruct (SFcompare acc x) as [[]|]; done.
  - split; [done|]. split; [auto|]. split; [by apply SFltb_false_SFleb|].
    by apply SFleb_refl_pos.
Qed.

Lemma fold_np_minimum_pos (xs : list spec_float) (acc : spec_float) :
  f64_pos_finite acc = true -> Forall (fun x => f64_pos_finite x = true) xs ->
  f64_pos_finite (fold_left np_minimum xs acc) = true
  /\ fold_left np_minimum xs acc ∈ acc :: xs
  /\ Forall (fun x => SFleb (fold_left np_minimum xs acc) x = true) (acc :: xs).
Proof.
  revert acc. induction xs as [|x xs IH]; intros acc Ha Hxs; simpl.
  - split; [done|]. split; [apply list_elem_of_here|].
    constructor; [by apply SFleb_refl_pos|constructor].
  - inversion Hxs as [|? ? Hx Hxs']; subst.
    destruct (np_minimum_pos acc x Ha Hx) as (Hp & Hor & Hla & Hlx).
    destruct (IH (np_minimum acc x) Hp Hxs') as (Hr & Hin & Hall).
    split; [done|]. split.
    + apply elem_of_cons in Hin as [->|Hin].
      * destruct Hor as [->| ->]; [apply list_elem_of_here|].
        apply list_elem_of_further, list_elem_of_here.
      * by do 2 apply list_elem_of_further.
    + inversion Hall as [|? ? Hm Hrest]; subst.
      constructor; [|constructor; [|done]].
      * eapply SFleb_trans_pos; [done|exact Hp|done|done|done].
      * eapply SFleb_trans_pos; [done|exact Hp|done|done|done].
Qed.

Lemma np_min_pos (l : list spec_float) (m : spec_float) :
  Forall (fun x => f64_pos_finite x = true) l -> np_min l = Ok m ->
  f64_pos_finite m = true /\ m ∈ l /\ Forall (fun x => SFleb m x = true) l.
Proof.
  destruct l as [|x xs]; [discriminate|]. simpl. intros Hall [= <-].
  inversion Hall; subst. by apply fold_np_minimum_pos.
Qed.

(** ** Rescaling by the minimum *)

Lemma f64_div_by_min (f m : spec_float) :
  f64_pos_finite f = true -> f64_pos_finite m = true -> SFleb m f = true ->
  rescaled_ok (f64_div f m).
Proof.
  intros Hf Hm Hle. apply pos_finite_inv in Hf as (mf & ef & -> & Cf & _).
  apply pos_finite_inv in Hm as (mm & em & -> & Cm & _).
  apply (SFleb_canonical 53 1024) in Hle; [|lia|done|done].
  destruct (SFdiv_ge_one 53 1024 ltac:(lia) ltac:(lia) mf mm ef em Cf Cm Hle) as [H1 H2].
  split; [exact H1 | exact H2].
Qed.

Lemma f64_div_self (m : spec_float) :
  f64_pos_finite m = true -> f64_div m m = f64_one.
Proof.
  intros Hm. apply pos_finite_inv in Hm as (mm & em & -> & _ & _).
  apply (SFdiv_diag 53 1024); lia.
Qed.

Lemma rescaled_ok_one : rescaled_ok f64_one.
Proof. split; vm_compute; reflexivity. Qed.

Lemma SFleb_finite_not_lt (ma : positive) (ea : Z) (x : spec_float) :
  SFleb (S754_finite false ma ea) x = true -> SFltb x (S754_finite false ma ea) = false.
Proof.
  unfold SFleb, SFltb, SFcompare.
  destruct x as [[]|[]| |[] m e]; try (intros; reflexivity); try (intros; discriminate).
  rewrite (Z.compare_antisym ea e).
  pose proof (Pos.compare_cont_antisym ma m Eq) as Hanti. cbn [CompOpp] in Hanti.
  rewrite <- Hanti.
  destruct (ea ?= e); cbn [CompOpp]; try (intros; reflexivity); try (intros; discriminate).
  destruct (Pos.compare_cont Eq ma m); cbn [CompOpp];
    try (intros; reflexivity); intros; discriminate.
Qed.

Lemma SFleb_finite_eq (ma : positive) (ea : Z) (x : spec_float) :
  SFleb (S754_finite false ma ea) x = true ->
  SFltb (S754_finite false ma ea) x = false ->
  x = S754_finite false ma ea.
Proof.
  unfold SFleb, SFltb, SFcompare.
  destruct x as [[]|[]| |[] m e]; try (intros; discriminate).
  destruct (Z.compare_spec ea e) as [<-|?|?]; try (intros; discriminate).
  rewrite Pos.compare_cont_spec. cbn [Pos.switch_Eq].
  destruct (Pos.compare_spec ma m) as [<-|?|?]; try (intros; discriminate).
  intros; reflexivity.
Qed.

Lemma SFleb_one_not_lt (x : spec_float) :
  SFleb f64_one x = true -> SFltb x f64_one = false.
Proof. apply SFleb_finite_not_lt. Qed.

Lemma SFleb_one_eq (x : spec_float) :
  SFleb f64_one x = true -> SFltb f64_one x = false -> x = f64_one.
Proof. apply SFleb_finite_eq. Qed.

Lemma np_minimum_rescaled (acc x : spec_float) :
  rescaled_ok acc -> rescaled_ok x ->
  rescaled_ok (np_minimum acc x)
  /\ (acc = f64_one -> np_minimum acc x = f64_one)
  /\ (x = f64_one -> np_minimum acc x = f64_one).
Proof.
  intros [Ha Hva] [Hx Hvx]. unfold np_minimum.
  assert (Hn : is_nan acc = false).
  { destruct acc; try reflexivity. unfold SFleb in Ha. simpl in Ha. discriminate. }
  rewrite Hn, orb_false_r. split; [|split].
  - destruct (SFltb acc x); split; done.
  - intros ->. destruct (SFltb f64_one x) eqn:Hlt; [reflexivity|].
    by apply SFleb_one_eq.
  - intros ->. rewrite (SFleb_one_not_lt acc Ha). reflexivity.
Qed.

Lemma fold_np_minimum_rescaled (xs : list spec_float) (acc : spec_float) :
  rescaled_ok acc -> Forall rescaled_ok xs ->
  f64_one ∈ acc :: xs ->
  fold_left np_minimum xs acc = f64_one.
Proof.
  revert acc. induction xs as [|x xs IH]; intros acc Ha Hxs Hin; simpl.
  - apply elem_of_cons in Hin as [->|Hin]; [reflexivity|]. by apply elem_of_nil in Hin.
  - inversion Hxs as [|? ? Hx Hxs']; subst.
    destruct (np_minimum_rescaled acc x Ha Hx) as (Hr & H1 & H2).
    apply IH; [done|done|].
    apply elem_of_cons in Hin as [Heq|Hin].
    + rewrite H1 by done. apply list_elem_of_here.
    + apply elem_of_cons in Hin as [Heq|Hin].
      * rewrite H2 by done. apply list_elem_of_here.
      * by apply list_elem_of_further.
Qed.

Lemma divide_by_min_spec (factors rescaled : list spec_float) :
  Forall (fun f => f64_pos_finite f = true) factors ->
  divide_by_min factors = Ok rescaled ->
  Forall rescaled_ok rescaled /\ f64_one ∈ rescaled
  /\ exists m, np_min factors = Ok m /\ f64_pos_finite m = true
              /\ rescaled = map (fun f => f64_div f m) factors.
Proof.
  intros Hall Hd. unfold divide_by_min in Hd.
  apply bind_Ok_inv in Hd as (m & Hm & [= <-]).
  destruct (np_min_pos factors m Hall Hm) as (Hmp & Hin & Hle).
  split; [|split].
  - apply Forall_fmap. apply Forall_forall. intros f Hf. simpl.
    rewrite Forall_forall in Hall, Hle. apply f64_div_by_min; auto.
  - apply list_elem_of_fmap. exists m. split; [|done]. symmetry. by apply f64_div_self.
  - exists m. auto.
Qed.

Lemma np_min_rescaled (rescaled : list spec_float) :
  Forall rescaled_ok rescaled -> f64_one ∈ rescaled -> np_min rescaled = Ok f64_one.
Proof.
  intros Hall Hin. destruct rescaled as [|x xs]; [by apply elem_of_nil in Hin|].
  simpl. f_equal. inversion Hall; subst. by apply fold_np_minimum_rescaled.
Qed.

Lemma divide_by_min_rescaled (rescaled : list spec_float) :
  Forall rescaled_ok rescaled -> f64_one ∈ rescaled ->
  divide_by_min rescaled = Ok rescaled.
Proof.
  intros Hall Hin. unfold divide_by_min. rewrite (np_min_rescaled _ Hall Hin). simpl.
  f_equal. rewrite <- (map_id rescaled) at 2. apply map_ext_Forall.
  eapply Forall_impl; [exact Hall|]. intros x [_ Hv]. simpl.
  rewrite f64_one_eq. apply (SFdiv_one_r 53 1024); [lia | exact Hv].
Qed.

Lemma _merged_dataset_nonempty (dataset_sizes : list Z) (ratios : list spec_float) :
  dataset_sizes <> [] ->
  _merged_dataset dataset_sizes ratios
  = (expansion_factors ← raw_expansion_factors dataset_sizes ratios;
     expansion_factors ← divide_by_min expansion_factors;
     samples_per_dataset dataset_sizes expansion_factors).
Proof. destruct dataset_sizes; [done | reflexivity]. Qed.

(** When the raw expansion factors are positive finite binary64 values,
    the factors divided once by their minimum have the minimum exactly
    1.0, dividing them by their minimum again returns the same factors,
    and the two-step count formula of the source gives the same counts as
    the single-step formula [ceil(s_i * f_i)]; these are the counts that
    [_merged_dataset] returns. *)
Theorem second_min_division_is_identity (dataset_sizes : list Z)
    (ratios factors rescaled : list spec_float) :
  raw_expansion_factors dataset_sizes ratios = Ok factors ->
  Forall (fun f => f64_pos_finite f = true) factors ->
  divide_by_min factors = Ok rescaled ->
  np_min rescaled = Ok f64_one
  /\ divide_by_min rescaled = Ok rescaled
  /\ samples_per_dataset dataset_sizes rescaled
     = samples_single_step dataset_sizes rescaled
  /\ (dataset_sizes <> [] ->
      _merged_dataset dataset_sizes ratios = samples_single_step dataset_sizes rescaled).
Proof.
  intros Hraw Hall Hd.
  destruct (divide_by_min_spec factors rescaled Hall Hd) as (Hok & Hin & _).
  split; [by apply np_min_rescaled|].
  split; [by apply divide_by_min_rescaled|].
  assert (Hsame : samples_per_dataset dataset_sizes rescaled
                  = samples_single_step dataset_sizes rescaled).
  { unfold samples_per_dataset, samples_single_step.
    rewrite (divide_by_min_rescaled _ Hok Hin). reflexivity. }
  split; [exact Hsame|].
  intros Hne. rewrite _merged_dataset_nonempty by done.
  rewrite Hraw. cbn [mbind result_bind]. rewrite Hd. cbn [mbind result_bind].
  exact Hsame.
Qed.

Lemma second_min_division_is_identity_example :
  np_min [f64_of_int 10; f64_of_int 1] = Ok f64_one
  /\ samples_per_dataset [10; 100] [f64_of_int 10; f64_of_int 1]
     = samples_single_step [10; 100] [f64_of_int 10; f64_of_int 1].
Proof.
  destruct (second_min_division_is_identity [10; 100] [f64_half; f64_half]
              [f64_div (f64_of_int 55) (f64_of_int 10);
               f64_div (f64_of_int 55) (f64_of_int 100)]
              [f64_of_int 10; f64_of_int 1]
              ltac:(vm_compute; reflexivity)
              ltac:(repeat constructor; vm_compute; reflexivity)
              ltac:(vm_compute; reflexivity))
    as (Hmin & _ & Hsame & _).
  split; [exact Hmin | exact Hsame].
Defined.

(** C5: the code at the positive sizes [[2^62, 2^62 + 2^61]] and the
    positive ratios [[0.5, 0.5]] (FullyBalanced sampling over two datasets
    of these lengths).  The [int64] sum of the sizes wraps to a negative
    number and the raw factors are negative; after the division by their
    minimum the factors are [[1.0, 0.666...]], so their minimum is not
    1.0 and one of them is below 1.0; the second division changes them,
    and the two-step counts of the source differ from the single-step
    counts [ceil(s_i * f_i)]. *)
Lemma second_min_division_matters_when_sum_wraps :
  exists rescaled,
    np_sum_int64 [2 ^ 62; 2 ^ 62 + 2 ^ 61] < 0
    /\ (f ← raw_expansion_factors [2 ^ 62; 2 ^ 62 + 2 ^ 61] [f64_half; f64_half];
        divide_by_min f) = Ok rescaled
    /\ rescaled = [f64_one; S754_finite false 6004799503160661 (-53)]
    /\ SFltb (S754_finite false 6004799503160661 (-53)) f64_one = true
    /\ np_min rescaled <> Ok f64_one
    /\ samples_per_dataset [2 ^ 62; 2 ^ 62 + 2 ^ 61] rescaled
       = Ok [2 ^ 62 + 2 ^ 61; 2 ^ 62 + 2 ^ 61]
    /\ samples_single_step [2 ^ 62; 2 ^ 62 + 2 ^ 61] rescaled = Ok [2 ^ 62; 2 ^ 62]
    /\ _merged_dataset [2 ^ 62; 2 ^ 62 + 2 ^ 61] [f64_half; f64_half]
       = Ok [2 ^ 62 + 2 ^ 61; 2 ^ 62 + 2 ^ 61]
    /\ samples_per_dataset [2 ^ 62; 2 ^ 62 + 2 ^ 61] rescaled
       <> samples_single_step [2 ^ 62; 2 ^ 62 + 2 ^ 61] rescaled.
Proof.
  eexists. split; [vm_compute; reflexivity|]. split; [vm_compute; reflexivity|].
  split; [reflexivity|]. split; [vm_compute; reflexivity|].
  split; [vm_compute; intros H; discriminate H|].
  split; [vm_compute; reflexivity|]. split; [vm_compute; reflexivity|].
  split; [vm_compute; reflexivity|]. vm_compute; intros H; discriminate H.
Qed.

(** ** Sizes as floats, products and counts *)

Lemma f64_of_int_exact (s : Z) :
  0 < s <= 2 ^ 53 ->
  exists m e, f64_of_int s = S754_finite false m e
              /\ bounded 53 1024 m e = true /\ represents s m e.
Proof.
  intros Hs. apply (binary_normalize_exact 53 1024); [lia | lia | exact Hs].
Qed.

Lemma bounded_canonical (m : positive) (e : Z) :
  bounded 53 1024 m e = true -> canonical 53 1024 (Zpos m) e.
Proof.
  unfold bounded. intros Hb. apply andb_true_iff in Hb as [Hc _].
  apply canonical_mantissa_iff. exact Hc.
Qed.

Lemma ge_int_of_scaled (s : Z) (M m : positive) (E e : Z) :
  represents s M E -> scaled_le (Zpos M) E (Zpos m) e ->
  if 0 <=? e then s <= Zpos m * 2 ^ e else s * 2 ^ (- e) <= Zpos m.
Proof.
  intros Hrep Hle. destruct (Z.leb_spec 0 e) as [He|He]; destruct Hrep as [[HE HM]|[HE HM]].
  - apply (scaled_le_base E) in Hle; [|lia|lia]. rewrite Z.sub_diag, Z.mul_1_r in Hle.
    replace (e - E) with (e + (- E)) in Hle by lia. rewrite Z.pow_add_r in Hle by lia.
    rewrite HM, Z.mul_assoc in Hle.
    eapply Z.mul_le_mono_pos_r; [|exact Hle]. apply Z.pow_pos_nonneg; lia.
  - apply (scaled_le_base 0) in Hle; [|lia|lia]. rewrite !Z.sub_0_r in Hle. lia.
  - unfold scaled_le in Hle. set (c := Z.min E e) in *.
    rewrite HM in Hle. rewrite <- Z.mul_assoc, <- Z.pow_add_r in Hle by lia.
    replace (- E + (E - c)) with ((- e) + (e - c)) in Hle by lia.
    rewrite Z.pow_add_r, Z.mul_assoc in Hle by lia.
    eapply Z.mul_le_mono_pos_r; [|exact Hle]. apply Z.pow_pos_nonneg; lia.
  - apply (scaled_le_base e) in Hle; [|lia|lia]. rewrite Z.sub_diag, Z.mul_1_r in Hle.
    rewrite HM, <- Z.mul_assoc, <- Z.pow_add_r by lia.
    replace (E + - e) with (E - e) by lia. exact Hle.
Qed.

Lemma in_int64_small (z : Z) : 0 <= z <= 2 ^ 53 -> in_int64 z = true.
Proof.
  intros Hz. unfold in_int64, int64_min, int64_max.
  assert (2 ^ 53 < 2 ^ 63) by (apply Z.pow_lt_mono_r; lia).
  pose proof (Z.pow_pos_nonneg 2 63 ltac:(lia) ltac:(lia)).
  apply andb_true_iff. split; apply Z.leb_le; lia.
Qed.

Lemma astype_of_represented (s : Z) (m : positive) (e : Z) :
  0 <= s <= 2 ^ 53 -> represents s m e ->
  astype_int (S754_finite false m e) = s.
Proof.
  intros Hs Hrep. unfold astype_int. cbn [cond_Zopp].
  destruct (Z.leb_spec 0 e) as [He|He]; destruct Hrep as [[HE HM]|[HE HM]]; try lia.
  - assert (e = 0) as -> by lia. change (2 ^ (- 0)) with 1 in HM. change (2 ^ 0) with 1.
    rewrite Z.mul_1_r in *. rewrite HM, in_int64_small by lia. reflexivity.
  - rewrite <- HM, in_int64_small by lia. reflexivity.
  - rewrite HM, Z.div_mul by (pose proof (Z.pow_pos_nonneg 2 (- e)); lia).
    rewrite in_int64_small by lia. reflexivity.
Qed.

Lemma astype_of_int (c : Z) : 0 < c <= 2 ^ 53 -> astype_int (f64_of_int c) = c.
Proof.
  intros Hc. destruct (f64_of_int_exact c Hc) as (m & e & -> & _ & Hrep).
  apply astype_of_represented; [lia | exact Hrep].
Qed.

Lemma astype_ceil_finite (m : positive) (e : Z) :
  canonical 53 1024 (Zpos m) e ->
  astype_int (np_ceil (S754_finite false m e))
  = if 0 <=? e
    then (if in_int64 (Zpos m * 2 ^ e) then Zpos m * 2 ^ e else int64_min)
    else - ((- Zpos m) / 2 ^ (- e)).
Proof.
  intros Hc. unfold np_ceil. destruct (Z.leb_spec 0 e) as [He|He].
  - unfold astype_int. cbn [cond_Zopp]. destruct (Z.leb_spec 0 e); [reflexivity | lia].
  - cbn [cond_Zopp]. set (c := - (- Zpos m / 2 ^ (- e))).
    change (binary_normalize 53 1024 c 0 false) with (f64_of_int c).
    apply astype_of_int.
    destruct (canonical_cases _ _ _ _ Hc) as (_ & Hd & _).
    pose proof (Zdigits2_bounds (Zpos m) ltac:(lia)) as [_ Hhi].
    assert (Hm53 : Zpos m < 2 ^ 53).
    { pose proof (Z.pow_le_mono_r 2 (Zdigits2 (Zpos m)) 53). lia. }
    pose proof (Z.pow_pos_nonneg 2 (- e) ltac:(lia) ltac:(lia)) as Hp.
    assert (Hp2 : 2 ^ 1 <= 2 ^ (- e)) by (apply Z.pow_le_mono_r; lia).
    change (2 ^ 1) with 2 in Hp2.
    assert (Hup : - Zpos m / 2 ^ (- e) <= -1).
    { assert (- Zpos m / 2 ^ (- e) < 0); [|lia]. apply Z.div_lt_upper_bound; lia. }
    assert (Hlo : - 2 ^ 52 <= - Zpos m / 2 ^ (- e)).
    { apply Z.div_le_lower_bound; [lia|].
      assert (2 ^ 53 = 2 * 2 ^ 52) by reflexivity. nia. }
    assert (2 ^ 52 <= 2 ^ 53) by (apply Z.pow_le_mono_r; lia).
    unfold c. lia.
Qed.

Lemma count_exact (s : Z) :
  0 < s <= 2 ^ 53 -> astype_int (np_ceil (f64_of_int s)) = s.
Proof.
  intros Hs. destruct (f64_of_int_exact s Hs) as (m & e & -> & Hb & Hrep).
  rewrite astype_ceil_finite by (by apply bounded_canonical).
  destruct (Z.leb_spec 0 e) as [He|He]; destruct Hrep as [[HE HM]|[HE HM]]; try lia.
  - assert (e = 0) as -> by lia. change (2 ^ (- 0)) with 1 in HM. change (2 ^ 0) with 1.
    rewrite Z.mul_1_r in *. rewrite HM, in_int64_small by lia. reflexivity.
  - rewrite <- HM, in_int64_small by lia. reflexivity.
  - rewrite HM, <- Z.mul_opp_l, Z.div_mul by (pose proof (Z.pow_pos_nonneg 2 (- e)); lia).
    lia.
Qed.

Lemma count_ge (s : Z) (x : spec_float) :
  0 < s <= 2 ^ 53 -> f64_valid x = true -> SFleb (f64_of_int s) x = true ->
  s <= astype_int (np_ceil x) \/ astype_int (np_ceil x) = int64_min.
Proof.
  intros Hs Hv Hle. destruct (f64_of_int_exact s Hs) as (M & E & HM & Hb & Hrep).
  rewrite HM in Hle.
  destruct x as [sx|[]| |[] m e]; try (unfold SFleb in Hle; simpl in Hle; discriminate).
  - right. reflexivity.
  - pose proof (bounded_canonical m e Hv) as Hc.
    apply (SFleb_canonical 53 1024) in Hle; [|lia|by apply bounded_canonical|done].
    pose proof (ge_int_of_scaled s M m E e Hrep Hle) as Hge.
    rewrite astype_ceil_finite by done.
    destruct (Z.leb_spec 0 e) as [He|He].
    + destruct (in_int64 (Zpos m * 2 ^ e)); [left; exact Hge | right; reflexivity].
    + left. pose proof (Z.pow_pos_nonneg 2 (- e) ltac:(lia) ltac:(lia)) as Hp.
      assert (- Zpos m / 2 ^ (- e) <= - s); [|lia].
      apply Z.div_le_upper_bound; [lia|]. nia.
Qed.

Lemma f64_of_int_valid (s : Z) : 0 < s <= 2 ^ 53 -> f64_valid (f64_of_int s) = true.
Proof.
  intros Hs. destruct (f64_of_int_exact s Hs) as (m & e & -> & Hb & _). exact Hb.
Qed.

Lemma product_one (s : Z) :
  0 < s <= 2 ^ 53 -> f64_mul (f64_of_int s) f64_one = f64_of_int s.
Proof.
  intros Hs. rewrite f64_one_eq. apply (SFmul_one_r 53 1024); [lia|].
  by apply f64_of_int_valid.
Qed.

Lemma product_ge (s : Z) (F : spec_float) :
  0 < s <= 2 ^ 53 -> rescaled_ok F ->
  SFleb (f64_of_int s) (f64_mul (f64_of_int s) F) = true
  /\ f64_valid (f64_mul (f64_of_int s) F) = true.
Proof.
  intros Hs [Hone Hv]. destruct (f64_of_int_exact s Hs) as (M & E & -> & Hb & _).
  pose proof (bounded_canonical M E Hb) as HcM.
  destruct F as [sF|[]| |[] m e]; try (unfold SFleb in Hone; simpl in Hone; discriminate).
  - split; reflexivity.
  - pose proof (bounded_canonical m e Hv) as Hc.
    rewrite f64_one_eq in Hone. unfold fone in Hone.
    assert (Hc1 : canonical 53 1024 (Zpos (Z.to_pos (2 ^ (53 - 1)))) (1 - 53)).
    { rewrite fone_mantissa by lia. apply fone_canonical; lia. }
    apply (SFleb_canonical 53 1024) in Hone; [|lia|exact Hc1|exact Hc].
    rewrite fone_mantissa in Hone by lia.
    apply (SFmul_ge 53 1024); try done; lia.
Qed.

Lemma count_of_product (s : Z) (F : spec_float) :
  0 < s <= 2 ^ 53 -> rescaled_ok F ->
  s <= astype_int (np_ceil (f64_mul (f64_of_int s) F))
  \/ astype_int (np_ceil (f64_mul (f64_of_int s) F)) = int64_min.
Proof.
  intros Hs HF. destruct (product_ge s F Hs HF) as [Hle Hv]. by apply count_ge.
Qed.

Lemma count_of_one (s : Z) :
  0 < s <= 2 ^ 53 -> astype_int (np_ceil (f64_mul (f64_of_int s) f64_one)) = s.
Proof. intros Hs. rewrite product_one by done. by apply count_exact. Qed.

Lemma counts_spec (sizes : list Z) (rescaled : list spec_float) :
  length rescaled = length sizes ->
  Forall (fun s => 0 < s <= 2 ^ 53) sizes -> Forall rescaled_ok rescaled ->
  Forall2 (fun s n => s <= n \/ n = int64_min) sizes
          (ceil_to_int (zip_with f64_mul (map f64_of_int sizes) rescaled))
  /\ forall i s, sizes !! i = Some s -> rescaled !! i = Some f64_one ->
       ceil_to_int (zip_with f64_mul (map f64_of_int sizes) rescaled) !! i = Some s.
Proof.
  revert rescaled. induction sizes as [|s sizes IH]; intros [|F rescaled] Hlen Hs HF;
    try discriminate.
  - split; [constructor|]. intros i s H. by rewrite lookup_nil in H.
  - inversion Hs; subst. inversion HF; subst. injection Hlen as Hlen.
    destruct (IH rescaled Hlen) as [IH1 IH2]; [done|done|].
    split.
    + simpl. constructor; [by apply count_of_product | exact IH1].
    + intros [|i] s' Hi HFi; simpl in *.
      * injection Hi as <-. injection HFi as ->. f_equal. by apply count_of_one.
      * by apply IH2.
Qed.

Lemma expand_all (ds : list Dataset) (sizes counts : list Z) :
  Forall2 (fun d s => is_sized d = true /\ len d = Ok s) ds sizes ->
  Forall2 (fun s n => s <= n) sizes counts ->
  is_ok (map_result (fun dn => expand_dataset (fst dn) (snd dn)) (zip ds counts)) = true.
Proof.
  intros Hds. revert counts. induction Hds as [|d s ds sizes [Hsz Hl] _ IH];
    intros counts Hc.
  - reflexivity.
  - inversion Hc as [|? n ? counts' Hsn Hc']; subst. simpl.
    rewrite (expand_dataset_Ok d n s) by done. simpl.
    specialize (IH counts' Hc').
    destruct (map_result _ (zip ds counts')); [reflexivity | discriminate].
Qed.

Lemma broadcast2_same_length {A B C : Type} (f : A -> B -> C) (xs : list A) (ys : list B) :
  length xs = length ys -> broadcast2 f xs ys = Ok (zip_with f xs ys).
Proof. intros H. unfold broadcast2. rewrite H, Nat.eqb_refl. reflexivity. Qed.

(** Where the counts are as intended: for a non-empty list of sizes
    between 1 and 2^53, with one ratio per size, whose raw expansion
    factors are positive finite binary64 values, [_merged_dataset] returns
    counts [n_i] with [n_i >= s_i] unless the count left the [int64]
    range; the count of a task whose factor is the minimum equals its
    size; and when no count left the [int64] range, [expand_dataset]
    succeeds on every task. *)
Theorem merged_dataset_counts (dataset_sizes : list Z) (ratios factors : list spec_float) :
  dataset_sizes <> [] ->
  length ratios = length dataset_sizes ->
  Forall (fun s => 0 < s <= 2 ^ 53) dataset_sizes ->
  raw_expansion_factors dataset_sizes ratios = Ok factors ->
  Forall (fun f => f64_pos_finite f = true) factors ->
  exists counts,
    _merged_dataset dataset_sizes ratios = Ok counts
    /\ Forall2 (fun s n => s <= n \/ n = int64_min) dataset_sizes counts
    /\ (exists i s, dataset_sizes !! i = Some s /\ counts !! i = Some s)
    /\ forall ds,
         Forall2 (fun d s => is_sized d = true /\ len d = Ok s) ds dataset_sizes ->
         Forall (fun n => n <> int64_min) counts ->
         is_ok (map_result (fun dn => expand_dataset (fst dn) (snd dn)) (zip ds counts))
         = true.
Proof.
  intros Hne Hlen Hsizes Hraw Hpos.
  assert (Hlf : length factors = length dataset_sizes).
  { unfold raw_expansion_factors in Hraw.
    rewrite broadcast2_same_length in Hraw by (rewrite !length_map; exact Hlen).
    injection Hraw as <-. rewrite length_zip_with, !length_map. lia. }
  assert (exists rescaled, divide_by_min factors = Ok rescaled) as [rescaled Hdiv].
  { unfold divide_by_min. destruct factors as [|f fs].
    - destruct dataset_sizes; [done | discriminate].
    - simpl. eauto. }
  destruct (divide_by_min_spec factors rescaled Hpos Hdiv) as (Hok & Hin & m & _ & _ & Hmap).
  assert (Hlr : length rescaled = length dataset_sizes).
  { rewrite Hmap, length_map. exact Hlf. }
  destruct (counts_spec dataset_sizes rescaled Hlr Hsizes Hok) as [Hge Hone].
  set (counts := ceil_to_int (zip_with f64_mul (map f64_of_int dataset_sizes) rescaled)) in *.
  assert (Hmerged : _merged_dataset dataset_sizes ratios = Ok counts).
  { rewrite _merged_dataset_nonempty by done.
    rewrite Hraw. cbn [mbind result_bind]. rewrite Hdiv. cbn [mbind result_bind].
    unfold samples_per_dataset. rewrite (divide_by_min_rescaled _ Hok Hin).
    cbn [mbind result_bind].
    rewrite broadcast2_same_length by (rewrite length_map; lia). reflexivity. }
  exists counts. split; [exact Hmerged|]. split; [exact Hge|]. split.
  - apply list_elem_of_lookup in Hin as [i Hi].
    assert (is_Some (dataset_sizes !! i)) as [s Hs].
    { apply lookup_lt_is_Some. rewrite <- Hlr. by eapply lookup_lt_Some. }
    exists i, s. split; [done|]. by apply Hone.
  - intros ds Hds Hfit. apply (expand_all ds dataset_sizes counts Hds).
    clear -Hge Hfit. induction Hge as [|s n sizes cs Hsn _ IH]; [constructor|].
    inversion Hfit; subst. constructor; [lia | by apply IH].
Qed.

Lemma merged_dataset_counts_example :
  exists counts,
    _merged_dataset [10; 100] [f64_half; f64_half] = Ok counts
    /\ Forall2 (fun s n => s <= n \/ n = int64_min) [10; 100] counts
    /\ exists i s, [10; 100] !! i = Some s /\ counts !! i = Some s.
Proof.
  destruct (merged_dataset_counts [10; 100] [f64_half; f64_half]
              [f64_div (f64_of_int 55) (f64_of_int 10);
               f64_div (f64_of_int 55) (f64_of_int 100)]
              ltac:(discriminate)
              ltac:(reflexivity)
              ltac:(repeat constructor; vm_compute; intuition discriminate)
              ltac:(vm_compute; reflexivity)
              ltac:(repeat constructor; vm_compute; reflexivity))
    as (counts & Hm & Hge & Hex & _).
  exists counts. split; [exact Hm|]. split; [exact Hge | exact Hex].
Defined.

(** C4: the code at two inputs where the counts do not allow the
    expansion.  (1) A single train dataset of size 2^53 + 1 under
    FullyBalanced sampling: the size is rounded to 2^53 when it is
    converted to binary64, the count is 2^53, below the size, and
    [expand_dataset] raises [ValueError].  (2) Train datasets of sizes
    1000 and 10^9 under Temperature sampling with temperature 0.25: the
    factor of the larger dataset, rescaled by the minimum, is about 10^18
    and the product with its size does not fit [int64]; the conversion
    leaves the smallest [int64] as its count, and [expand_dataset] raises
    [ValueError]. *)
Lemma merged_counts_break_expansion :
  (_merged_dataset [2 ^ 53 + 1] [f64_one] = Ok [2 ^ 53]
   /\ 2 ^ 53 < 2 ^ 53 + 1
   /\ @_combine_datasets reference_collaborators FullyBalancedSamplingConfig
        [constant_dataset (2 ^ 53 + 1) (energy_item VNone)] = Raise ValueError)
  /\ exists ratios,
       (r ← @sampling_ratios squaring_collaborators (TemperatureSamplingConfig f64_quarter)
              [1000; 10 ^ 9];
        map_result (fun x => py_float_div x (py_sum_float r)) r) = Ok ratios
       /\ _merged_dataset [1000; 10 ^ 9] ratios = Ok [1000; int64_min]
       /\ int64_min < 10 ^ 9
       /\ @_combine_datasets squaring_collaborators (TemperatureSamplingConfig f64_quarter)
            [constant_dataset 1000 (energy_item VNone);
             constant_dataset (10 ^ 9) (energy_item VNone)] = Raise ValueError.
Proof.
  split.
  - split; [vm_compute; reflexivity|]. split; [lia|]. vm_compute. reflexivity.
  - eexists. split; [vm_compute; reflexivity|]. split; [vm_compute; reflexivity|].
    split; [vm_compute; reflexivity|]. vm_compute. reflexivity.
Qed.

(** * Task tagging *)

(** ** Attribute names *)

Lemma string_length_app (s1 s2 : string) :
  String.length (s1 +:+ s2) = (String.length s1 + String.length s2)%nat.
Proof. induction s1 as [|a s1 IH]; simpl; [reflexivity | by rewrite IH]. Qed.

Lemma onehot_name_inj (k1 k2 : string) : onehot_name k1 = onehot_name k2 -> k1 = k2.
Proof.
  unfold onehot_name. revert k2. induction k1 as [|a k1 IH]; intros [|b k2] Heq.
  - reflexivity.
  - apply (f_equal String.length) in Heq. simpl in Heq.
    rewrite string_length_app in Heq. simpl in Heq. lia.
  - apply (f_equal String.length) in Heq. simpl in Heq.
    rewrite string_length_app in Heq. simpl in Heq. lia.
  - simpl in Heq. injection Heq as -> Heq. f_equal. by apply IH.
Qed.

Lemma onehot_name_not_task_idx (k : string) : onehot_name k <> "task_idx".
Proof.
  unfold onehot_name. intros Heq. pose proof (f_equal String.length Heq) as Hlen.
  rewrite string_length_app in Hlen. simpl in Hlen.
  destruct k as [|a [|b k]]; simpl in Hlen; try lia.
  simpl in Heq. injection Heq as _ Heq. discriminate Heq.
Qed.

Lemma onehot_name_not_task_mask (k : string) : onehot_name k <> "task_mask".
Proof.
  unfold onehot_name. intros Heq. pose proof (f_equal String.length Heq) as Hlen.
  rewrite string_length_app in Hlen. simpl in Hlen.
  destruct k as [|a [|b [|c k]]]; simpl in Hlen; try lia.
  simpl in Heq. injection Heq as _ _ Heq. discriminate Heq.
Qed.

(** ** The one-hot updates write one attribute *)

Lemma _update_graph_value_inv (data data' : gmap string Value) (key : string)
    (onehot : list bool) :
  _update_graph_value data key onehot = Ok data' ->
  exists value, getattr_or_none data key <> VNone
    /\ graph_value (getattr_or_none data key) = Ok value
    /\ data' = <[onehot_name key := VTensor (mul_onehot value onehot)]> data.
Proof.
  unfold _update_graph_value. destruct (getattr_or_none data key) eqn:Hget;
    [discriminate| | |]; intros Hb; apply bind_Ok_inv in Hb as (value & Hv & [= <-]);
    exists value; done.
Qed.

Lemma _update_node_value_inv (data data' : gmap string Value) (key : string)
    (onehot : list bool) :
  _update_node_value data key onehot = Ok data' ->
  exists value, data' = <[onehot_name key := VTensor value]> data.
Proof.
  unfold _update_node_value. destruct (getattr_or_none data key); try discriminate.
  intros Hb. apply bind_Ok_inv in Hb as (v1 & _ & Hb).
  apply bind_Ok_inv in Hb as (v2 & _ & [= <-]). eauto.
Qed.

Lemma fold_result_writes (f : gmap string Value -> string -> result (gmap string Value))
    (keys : list string) (data data' : gmap string Value) (k0 : string) :
  (forall d d' k, f d k = Ok d' -> exists v, d' = <[onehot_name k := v]> d) ->
  (forall k, k ∈ keys -> onehot_name k <> k0) ->
  fold_result f keys data = Ok data' ->
  data' !! k0 = data !! k0.
Proof.
  intros Hf. revert data. induction keys as [|k keys IH]; intros data Hne Hfold; simpl in Hfold.
  - by injection Hfold as <-.
  - apply bind_Ok_inv in Hfold as (d1 & Hstep & Hfold).
    rewrite (IH d1); [|intros k' Hk'; apply Hne; by apply list_elem_of_further|done].
    destruct (Hf _ _ _ Hstep) as [v ->].
    apply lookup_insert_ne. apply Hne, list_elem_of_here.
Qed.

Lemma graph_writes (onehot : list bool) (d d' : gmap string Value) (k : string) :
  _update_graph_value d k onehot = Ok d' -> exists v, d' = <[onehot_name k := v]> d.
Proof. intros H. apply _update_graph_value_inv in H as (value & _ & _ & ->). eauto. Qed.

Lemma node_writes (onehot : list bool) (d d' : gmap string Value) (k : string) :
  _update_node_value d k onehot = Ok d' -> exists v, d' = <[onehot_name k := v]> d.
Proof. intros H. apply _update_node_value_inv in H as (value & ->). eauto. Qed.

Lemma getattr_or_none_insert_ne (data : gmap string Value) (k key : string) (v : Value) :
  k <> key -> getattr_or_none (<[k := v]> data) key = getattr_or_none data key.
Proof. intros Hne. unfold getattr_or_none. by rewrite lookup_insert_ne. Qed.

(** ** The one-hot vector *)

Lemma one_hot_spec (idx n : Z) :
  0 <= idx < n ->
  one_hot idx n = Ok (map (fun j => j =? idx) (range n)).
Proof.
  intros Hi. unfold one_hot.
  destruct (Z.ltb_spec idx 0); [lia|].
  destruct (Z.eqb_spec n (-1)); [lia|].
  destruct (Z.leb_spec n 0); [lia|]. destruct (Z.leb_spec n idx); [lia|]. reflexivity.
Qed.

Lemma one_hot_lookup (idx n : Z) (j : nat) :
  0 <= idx < n ->
  map (fun j => j =? idx) (range n) !! j
  = if decide (j < Z.to_nat n)%nat then Some (bool_decide (j = Z.to_nat idx)) else None.
Proof.
  intros Hi. rewrite list_lookup_fmap. destruct (decide (j < Z.to_nat n)%nat) as [Hj|Hj].
  - rewrite range_lookup by done. simpl. f_equal.
    destruct (Z.eqb_spec (Z.of_nat j) idx); case_bool_decide; try reflexivity; lia.
  - rewrite lookup_ge_None_2; [reflexivity|]. rewrite range_length. lia.
Qed.

(** ** What [_transform] leaves in the record *)

Lemma _transform_eq (task_idx total_num_tasks : Z) (one_hot_targets : OneHotTargetsConfig)
    (data : gmap string Value) :
  0 <= task_idx < total_num_tasks ->
  _transform task_idx total_num_tasks one_hot_targets (PyData data)
  = if in_int64 task_idx
    then
      data ← fold_result
               (fun d key => _update_graph_value d key
                               (map (fun j => j =? task_idx) (range total_num_tasks)))
               (graph_level one_hot_targets)
               (<["task_mask" := VTensor (BoolTensor [1%nat; Z.to_nat total_num_tasks]
                                          (map (fun j => j =? task_idx)
                                               (range total_num_tasks)))]>
                  (<["task_idx" := VTensor (LongTensor [] [task_idx])]> data));
      data ← fold_result
               (fun d key => _update_node_value d key
                               (map (fun j => j =? task_idx) (range total_num_tasks)))
               (node_level one_hot_targets) data;
      Ok (PyData data)
    else Raise ValueError.
Proof.
  intros Hi. unfold _transform, torch_tensor_long. rewrite one_hot_spec by done.
  destruct (in_int64 task_idx); [|reflexivity]. cbn [mbind result_bind].
  rewrite length_map, range_length. reflexivity.
Qed.

Lemma _transform_inv (task_idx total_num_tasks : Z) (one_hot_targets : OneHotTargetsConfig)
    (item item' : PyObj) :
  0 <= task_idx < total_num_tasks ->
  _transform task_idx total_num_tasks one_hot_targets item = Ok item' ->
  exists data d0 d1 data',
    item = PyData data /\ item' = PyData data'
    /\ d0 = <["task_mask" := VTensor (BoolTensor [1%nat; Z.to_nat total_num_tasks]
                                       (map (fun j => j =? task_idx) (range total_num_tasks)))]>
              (<["task_idx" := VTensor (LongTensor [] [task_idx])]> data)
    /\ fold_result (fun d key => _update_graph_value d key
                                   (map (fun j => j =? task_idx) (range total_num_tasks)))
                   (graph_level one_hot_targets) d0 = Ok d1
    /\ fold_result (fun d key => _update_node_value d key
                                   (map (fun j => j =? task_idx) (range total_num_tasks)))
                   (node_level one_hot_targets) d1 = Ok data'.
Proof.
  intros Hi. destruct item as [data|v]; [|discriminate].
  rewrite _transform_eq by done. destruct (in_int64 task_idx); [|discriminate].
  intros Hb. apply bind_Ok_inv in Hb as (d1 & Hg & Hb).
  apply bind_Ok_inv in Hb as (d2 & Hn & [= <-]).
  eexists data, _, d1, d2. split; [reflexivity|]. split; [reflexivity|].
  split; [reflexivity|]. split; [exact Hg | exact Hn].
Qed.

(** C3: for a task at position [task_idx] among [total_num_tasks] tasks,
    every item returned by the tagged dataset of the task is a record
    whose [task_idx] attribute is the scalar [task_idx] and whose
    [task_mask] attribute is a boolean tensor of shape
    [(1, total_num_tasks)] with exactly one true entry, at position
    [task_idx]. *)
Theorem tagged_item_task_mask `{Collaborators} (config : SplitDatasetConfig)
    (task_idx total_num_tasks : Z) (one_hot_targets : OneHotTargetsConfig)
    (dataset : Dataset) (idx : Z) (item : PyObj) :
  0 <= task_idx < total_num_tasks ->
  _create_split_dataset config task_idx total_num_tasks one_hot_targets = Ok dataset ->
  __getitem__ dataset idx = Ok item ->
  exists data mask,
    item = PyData data
    /\ data !! "task_idx" = Some (VTensor (LongTensor [] [task_idx]))
    /\ data !! "task_mask"
       = Some (VTensor (BoolTensor [1%nat; Z.to_nat total_num_tasks] mask))
    /\ length mask = Z.to_nat total_num_tasks
    /\ forall j, mask !! j = Some true <-> j = Z.to_nat task_idx.
Proof.
  intros Hi Hc Hget. unfold _create_split_dataset in Hc.
  apply bind_Ok_inv in Hc as (raw & _ & [= <-]).
  simpl in Hget. apply bind_Ok_inv in Hget as (item0 & _ & Ht).
  apply _transform_inv in Ht as (data & d0 & d1 & data' & _ & -> & Hd0 & Hg & Hn); [|done].
  exists data', (map (fun j => j =? task_idx) (range total_num_tasks)).
  assert (Hkeep : forall k0, (forall k, onehot_name k <> k0) -> data' !! k0 = d0 !! k0).
  { intros k0 Hk0.
    rewrite (fold_result_writes _ _ _ _ k0 (node_writes _) (fun k _ => Hk0 k) Hn).
    by rewrite (fold_result_writes _ _ _ _ k0 (graph_writes _) (fun k _ => Hk0 k) Hg). }
  split; [reflexivity|]. split; [|split; [|split]].
  - rewrite Hkeep by apply onehot_name_not_task_idx. rewrite Hd0.
    rewrite lookup_insert_ne by done. by rewrite lookup_insert_eq.
  - rewrite Hkeep by apply onehot_name_not_task_mask. rewrite Hd0.
    by rewrite lookup_insert_eq.
  - by rewrite length_map, range_length.
  - intros j. rewrite one_hot_lookup by done.
    destruct (decide (j < Z.to_nat total_num_tasks)%nat); [|split; [done|lia]].
    case_bool_decide; split; intros; try done; congruence.
Qed.

(** ** Graph-level attributes *)

Lemma fold_graph_keeps (onehot : list bool) (keys : list string)
    (d d' : gmap string Value) (key : string) :
  (forall k, k ∈ keys -> key <> onehot_name k) ->
  fold_result (fun d key => _update_graph_value d key onehot) keys d = Ok d' ->
  getattr_or_none d' key = getattr_or_none d key.
Proof.
  intros Hne Hfold. unfold getattr_or_none.
  rewrite (fold_result_writes _ keys d d' key (graph_writes onehot)); [done| |done].
  intros k Hk Heq. by apply (Hne k Hk).
Qed.

Lemma fold_graph_sets (onehot : list bool) (keys : list string)
    (d d' : gmap string Value) (key : string) :
  key ∈ keys ->
  (forall i j k, keys !! i = Some k -> keys !! j = Some key -> (i < j)%nat ->
     key <> onehot_name k) ->
  fold_result (fun d key => _update_graph_value d key onehot) keys d = Ok d' ->
  exists value,
    getattr_or_none d key <> VNone
    /\ graph_value (getattr_or_none d key) = Ok value
    /\ d' !! onehot_name key = Some (VTensor (mul_onehot value onehot)).
Proof.
  revert d. induction keys as [|k keys IH]; intros d Hin Hord Hfold.
  - by apply elem_of_nil in Hin.
  - simpl in Hfold. apply bind_Ok_inv in Hfold as (d1 & Hstep & Hfold).
    assert (Hord' : forall i j k', keys !! i = Some k' -> keys !! j = Some key ->
              (i < j)%nat -> key <> onehot_name k').
    { intros i j k' Hi Hj Hlt. apply (Hord (S i) (S j) k'); [done | done | lia]. }
    pose proof Hstep as Hinv. apply _update_graph_value_inv in Hinv as (v1 & Hnn & Hv1 & Hd1).
    destruct (decide (key ∈ keys)) as [Hlater|Hnot].
    + assert (Hsame : getattr_or_none d1 key = getattr_or_none d key).
      { rewrite Hd1. apply getattr_or_none_insert_ne. intros Heq.
        apply list_elem_of_lookup in Hlater as [j Hj].
        by apply (Hord 0%nat (S j) k); [ | | lia | ]. }
      destruct (IH d1 Hlater Hord' Hfold) as (value & H1 & H2 & H3).
      exists value. rewrite <- Hsame. done.
    + apply elem_of_cons in Hin as [->|Hin]; [|done].
      exists v1. split; [done|]. split; [done|].
      rewrite (fold_result_writes _ keys d1 d' (onehot_name k) (graph_writes onehot));
        [|intros k' Hk' Heq; apply onehot_name_inj in Heq; by subst|done].
      rewrite Hd1. by rewrite lookup_insert_eq.
Qed.

Lemma fold_graph_absent (onehot : list bool) (keys : list string)
    (d : gmap string Value) (key : string) :
  key ∈ keys ->
  (forall i j k, keys !! i = Some k -> keys !! j = Some key -> (i < j)%nat ->
     key <> onehot_name k) ->
  getattr_or_none d key = VNone ->
  is_ok (fold_result (fun d key => _update_graph_value d key onehot) keys d) = false.
Proof.
  revert d. induction keys as [|k keys IH]; intros d Hin Hord Hnone.
  - by apply elem_of_nil in Hin.
  - simpl. destruct (_update_graph_value d k onehot) as [d1|e] eqn:Hstep; [|reflexivity].
    simpl. pose proof Hstep as Hinv.
    apply _update_graph_value_inv in Hinv as (v1 & Hnn & _ & Hd1).
    apply elem_of_cons in Hin as [->|Hin]; [done|].
    apply IH; [done| |].
    + intros i j k' Hi Hj Hlt. apply (Hord (S i) (S j) k'); [done | done | lia].
    + rewrite Hd1, getattr_or_none_insert_ne; [done|].
      intros Heq. apply list_elem_of_lookup in Hin as [j Hj].
      by apply (Hord 0%nat (S j) k); [ | | lia | ].
Qed.

Lemma graph_value_scalar (v : Value) (value : Tensor) :
  graph_value v = Ok value ->
  (exists b, value = BoolTensor [1%nat; 1%nat] [b])
  \/ (exists z, value = LongTensor [1%nat; 1%nat] [z])
  \/ (exists fmt x, value = FloatTensor fmt [1%nat; 1%nat] [x]).
Proof.
  unfold graph_value. intros Hb. apply bind_Ok_inv in Hb as (t & _ & Hr).
  unfold rearrange_1_to_1_1, view_flat in Hr.
  destruct t as [sh d|sh d|fmt sh d]; simpl in Hr;
    destruct d as [|x [|y d]]; simpl in Hr; try discriminate;
    injection Hr as <-; eauto.
Qed.

Lemma float_of_bool_true (fmt : FloatFormat) : float_of_bool fmt true = fone (fprec fmt).
Proof. destruct fmt; reflexivity. Qed.

Lemma float_mul_one (fmt : FloatFormat) (x : spec_float) :
  float_valid fmt x = true -> float_mul fmt x (float_of_bool fmt true) = x.
Proof.
  intros Hv. rewrite float_of_bool_true. unfold float_mul.
  apply SFmul_one_r; [destruct fmt; simpl; lia | exact Hv].
Qed.

Lemma float_mul_zero (fmt : FloatFormat) (x : spec_float) :
  is_finite x = true -> is_zero (float_mul fmt x (S754_zero false)) = true.
Proof. destruct x; try discriminate; reflexivity. Qed.

Lemma float_mul_zero_nan (fmt : FloatFormat) (x : spec_float) :
  is_finite x = false -> float_mul fmt x (S754_zero false) = S754_nan.
Proof. destruct x; try discriminate; reflexivity. Qed.

Lemma one_slot_onehot {A : Type} (f : bool -> A) (idx n : Z) :
  0 <= idx < n ->
  one_slot (map f (map (fun j => j =? idx) (range n))) (Z.to_nat n) (Z.to_nat idx)
           (f true) (f false).
Proof.
  intros Hi.
  assert (Hl : forall j, (j < Z.to_nat n)%nat ->
            map f (map (fun j => j =? idx) (range n)) !! j
            = Some (f (bool_decide (j = Z.to_nat idx)))).
  { intros j Hj. rewrite list_lookup_fmap, one_hot_lookup by done.
    destruct (decide (j < Z.to_nat n)%nat); [reflexivity | lia]. }
  split; [by rewrite !length_map, range_length|]. split.
  - rewrite Hl by lia. by rewrite bool_decide_eq_true_2.
  - intros j Hj Hne. rewrite Hl by done. by rewrite bool_decide_eq_false_2.
Qed.

Lemma mul_onehot_bool (b : bool) (idx n : Z) :
  0 <= idx < n ->
  exists slots,
    mul_onehot (BoolTensor [1%nat; 1%nat] [b]) (map (fun j => j =? idx) (range n))
    = BoolTensor [1%nat; Z.to_nat n] slots
    /\ one_slot slots (Z.to_nat n) (Z.to_nat idx) b false.
Proof.
  intros Hi. exists (map (andb b) (map (fun j => j =? idx) (range n))). split.
  - unfold mul_onehot. cbn [flat_map tensor_shape removelast app].
    rewrite app_nil_r, length_map, range_length. reflexivity.
  - pose proof (one_slot_onehot (andb b) idx n Hi) as Hs.
    by rewrite andb_true_r, andb_false_r in Hs.
Qed.

Lemma mul_onehot_long (z : Z) (idx n : Z) :
  0 <= idx < n ->
  exists slots,
    mul_onehot (LongTensor [1%nat; 1%nat] [z]) (map (fun j => j =? idx) (range n))
    = LongTensor [1%nat; Z.to_nat n] slots
    /\ one_slot slots (Z.to_nat n) (Z.to_nat idx) z 0.
Proof.
  intros Hi. exists (map (fun b => z * Z.b2z b) (map (fun j => j =? idx) (range n))). split.
  - unfold mul_onehot. cbn [flat_map tensor_shape removelast app].
    rewrite app_nil_r, length_map, range_length. reflexivity.
  - pose proof (one_slot_onehot (fun b => z * Z.b2z b) idx n Hi) as Hs.
    cbn [Z.b2z] in Hs. by rewrite Z.mul_1_r, Z.mul_0_r in Hs.
Qed.

Lemma mul_onehot_float (fmt : FloatFormat) (x : spec_float) (idx n : Z) :
  0 <= idx < n ->
  exists slots,
    mul_onehot (FloatTensor fmt [1%nat; 1%nat] [x]) (map (fun j => j =? idx) (range n))
    = FloatTensor fmt [1%nat; Z.to_nat n] slots
    /\ one_slot slots (Z.to_nat n) (Z.to_nat idx)
         (float_mul fmt x (float_of_bool fmt true)) (float_mul fmt x (S754_zero false)).
Proof.
  intros Hi.
  exists (map (fun b => float_mul fmt x (float_of_bool fmt b))
              (map (fun j => j =? idx) (range n))).
  split.
  - unfold mul_onehot. cbn [flat_map tensor_shape removelast app].
    rewrite app_nil_r, length_map, range_length. reflexivity.
  - exact (one_slot_onehot (fun b => float_mul fmt x (float_of_bool fmt b)) idx n Hi).
Qed.

Lemma graph_value_inv (v : Value) (value : Tensor) :
  graph_value v = Ok value ->
  (exists t, v = VTensor t /\ numel t = 1%nat /\ value = reshape t [1%nat; 1%nat])
  \/ (exists f, (v = VFloat f \/ exists z, v = VInt z /\ f = f64_of_int z)
               /\ value = FloatTensor Binary32 [1%nat; 1%nat] [float32_of_float64 f]).
Proof.
  unfold graph_value. destruct v as [|z|f|t]; cbn [torch_tensor_float].
  - discriminate.
  - intros Hv. right. exists (f64_of_int z). split; [right; eauto|].
    destruct (f64_of_int z); try discriminate; by injection Hv as <-.
  - intros Hv. right. exists f. split; [left; reflexivity|]. by injection Hv as <-.
  - cbn [mbind result_bind]. unfold rearrange_1_to_1_1, view_flat. intros Hv. left. exists t.
    destruct t as [sh d|sh d|fmt sh d]; simpl in Hv;
      destruct d as [|x [|y d]]; simpl in Hv; try discriminate;
      injection Hv as <-; done.
Qed.

(** C8 (as amended): for a key of [one_hot_targets.graph_level] that is
    not also a node-level key, is not [task_idx] or [task_mask], and is
    not the one-hot name [<k>_onehot] of a graph-level key [k] listed
    before it: item access fails when the record has no such attribute;
    and when item access succeeds, the record held exactly one element
    under the key (a tensor, which keeps its dtype, or a Python number,
    which is converted to a [torch.float] scalar) and the returned record
    holds, under [<key>_onehot], that element multiplied elementwise by
    the boolean one-hot vector of length [total_num_tasks].  The slot
    [task_idx] holds the original element; every other slot holds
    [False] for a bool tensor, [0] for an integer tensor and the element
    times 0.0 for a float, which is a zero when the element is finite
    and NaN when it is an infinity or NaN. *)
Theorem graph_level_onehot (task_idx total_num_tasks : Z)
    (one_hot_targets : OneHotTargetsConfig) (data : gmap string Value) (key : string) :
  0 <= task_idx < total_num_tasks ->
  key ∈ graph_level one_hot_targets ->
  key ∉ node_level one_hot_targets ->
  (forall i j k, graph_level one_hot_targets !! i = Some k ->
     graph_level one_hot_targets !! j = Some key -> (i < j)%nat -> key <> onehot_name k) ->
  key <> "task_idx" -> key <> "task_mask" ->
  (getattr_or_none data key = VNone ->
   is_ok (_transform task_idx total_num_tasks one_hot_targets (PyData data)) = false)
  /\ forall item',
       _transform task_idx total_num_tasks one_hot_targets (PyData data) = Ok item' ->
       exists data' value onehot,
         item' = PyData data'
         /\ one_hot task_idx total_num_tasks = Ok onehot
         /\ graph_value (getattr_or_none data key) = Ok value
         /\ data' !! onehot_name key = Some (VTensor (mul_onehot value onehot))
         /\ ((exists t, getattr_or_none data key = VTensor t /\ numel t = 1%nat
                        /\ value = reshape t [1%nat; 1%nat])
             \/ (exists f, (getattr_or_none data key = VFloat f
                            \/ exists z, getattr_or_none data key = VInt z
                                         /\ f = f64_of_int z)
                           /\ value = FloatTensor Binary32 [1%nat; 1%nat]
                                                  [float32_of_float64 f]
                           /\ float_valid Binary32 (float32_of_float64 f) = true))
         /\ match value with
            | BoolTensor _ [b] =>
                exists slots,
                  mul_onehot value onehot = BoolTensor [1%nat; Z.to_nat total_num_tasks] slots
                  /\ one_slot slots (Z.to_nat total_num_tasks) (Z.to_nat task_idx) b false
            | LongTensor _ [z] =>
                exists slots,
                  mul_onehot value onehot = LongTensor [1%nat; Z.to_nat total_num_tasks] slots
                  /\ one_slot slots (Z.to_nat total_num_tasks) (Z.to_nat task_idx) z 0
            | FloatTensor fmt _ [x] =>
                exists slots,
                  mul_onehot value onehot
                  = FloatTensor fmt [1%nat; Z.to_nat total_num_tasks] slots
                  /\ one_slot slots (Z.to_nat total_num_tasks) (Z.to_nat task_idx)
                       (float_mul fmt x (float_of_bool fmt true))
                       (float_mul fmt x (S754_zero false))
                  /\ (float_valid fmt x = true ->
                      float_mul fmt x (float_of_bool fmt true) = x)
                  /\ (is_finite x = true ->
                      is_zero (float_mul fmt x (S754_zero false)) = true)
                  /\ (is_finite x = false ->
                      float_mul fmt x (S754_zero false) = S754_nan)
            | _ => False
            end.
Proof.
  intros Hi Hin Hnin Hord Hk1 Hk2.
  set (onehot := map (fun j => j =? task_idx) (range total_num_tasks)).
  set (d0 := <["task_mask" := VTensor (BoolTensor [1%nat; Z.to_nat total_num_tasks] onehot)]>
               (<["task_idx" := VTensor (LongTensor [] [task_idx])]> data)).
  assert (Hd0 : getattr_or_none d0 key = getattr_or_none data key).
  { unfold d0. rewrite !getattr_or_none_insert_ne by done. reflexivity. }
  split.
  - intros Hnone. rewrite _transform_eq by done.
    destruct (in_int64 task_idx); [|reflexivity]. fold onehot. fold d0.
    pose proof (fold_graph_absent onehot (graph_level one_hot_targets) d0 key Hin Hord
                  ltac:(by rewrite Hd0)) as Hfail.
    destruct (fold_result _ (graph_level one_hot_targets) d0); [discriminate | reflexivity].
  - intros item' Ht.
    apply _transform_inv in Ht as (data0 & d0' & d1 & data' & [= <-] & -> & Hd0' & Hg & Hn);
      [|done].
    fold onehot in Hd0', Hg, Hn. fold d0 in Hd0'. subst d0'.
    destruct (fold_graph_sets onehot _ d0 d1 key Hin Hord Hg) as (value & _ & Hv & Hset).
    rewrite Hd0 in Hv.
    exists data', value, onehot. split; [reflexivity|].
    split; [by apply one_hot_spec|]. split; [exact Hv|]. split; [|split].
    + rewrite (fold_result_writes _ (node_level one_hot_targets) d1 data'
                 (onehot_name key) (node_writes onehot)); [done| |done].
      intros k Hk Heq. apply onehot_name_inj in Heq. by subst.
    + destruct (graph_value_inv _ _ Hv) as [(t & Ht & Hnum & Hval)|(f & Hf & Hval)].
      * left. by exists t.
      * right. exists f. split; [exact Hf|]. split; [exact Hval|].
        apply float32_of_float64_valid.
    + destruct (graph_value_scalar _ _ Hv) as [[b ->]|[[z ->]|(fmt & x & ->)]].
      * by apply mul_onehot_bool.
      * by apply mul_onehot_long.
      * destruct (mul_onehot_float fmt x task_idx total_num_tasks Hi) as (slots & Hm & Hs).
        exists slots. split; [exact Hm|]. split; [exact Hs|].
        split; [apply float_mul_one|]. split; [apply float_mul_zero | apply float_mul_zero_nan].
Qed.

Lemma tagged_item_task_mask_example :
  exists item data mask,
    __getitem__ (dataset_transform
                   (list_dataset (replicate 2 (energy_item (VFloat f64_one))) None)
                   (_transform 1 3 energy_targets) false) 0 = Ok item
    /\ item = PyData data
    /\ data !! "task_mask" = Some (VTensor (BoolTensor [1%nat; 3%nat] mask))
    /\ forall j, mask !! j = Some true <-> j = 1%nat.
Proof.
  assert (Hget : { item | __getitem__ (dataset_transform
                   (list_dataset (replicate 2 (energy_item (VFloat f64_one))) None)
                   (_transform 1 3 energy_targets) false) 0 = Ok item }).
  { eexists. vm_compute. reflexivity. }
  destruct Hget as [item Hget].
  destruct (@tagged_item_task_mask reference_collaborators
              {| format := "list"; src := "ab" |} 1 3 energy_targets
              (dataset_transform
                 (list_dataset (replicate 2 (energy_item (VFloat f64_one))) None)
                 (_transform 1 3 energy_targets) false)
              0 item ltac:(lia) ltac:(reflexivity) Hget)
    as (data & mask & Hitem & _ & Hmask & _ & Hone).
  exists item, data, mask. split; [exact Hget|]. split; [exact Hitem|].
  split; [exact Hmask | exact Hone].
Defined.

Lemma energy_targets_disjoint (k : string) :
  k ∈ graph_level energy_targets -> "energy" <> onehot_name k.
Proof.
  intros Hk. apply list_elem_of_singleton in Hk. subst k. vm_compute. discriminate.
Qed.

Lemma graph_level_onehot_example :
  is_ok (_transform 0 2 energy_targets (PyData ∅)) = false
  /\ exists data' slots,
       _transform 0 2 energy_targets (energy_item (VFloat f64_one)) = Ok (PyData data')
       /\ data' !! "energy_onehot"
          = Some (VTensor (FloatTensor Binary32 [1%nat; 2%nat] slots))
       /\ slots !! 0%nat = Some (float_of_Z Binary32 1)
       /\ forall y, slots !! 1%nat = Some y -> is_zero y = true.
Proof.
  assert (Hord : forall (i j : nat) (k : string),
            graph_level energy_targets !! i = Some k ->
            graph_level energy_targets !! j = Some "energy" -> (i < j)%nat ->
            "energy" <> onehot_name k).
  { intros i j k Hik _ _. apply energy_targets_disjoint. by eapply list_elem_of_lookup_2. }
  split.
  - apply (graph_level_onehot 0 2 energy_targets ∅ "energy");
      [lia | apply list_elem_of_here | apply not_elem_of_nil
      | exact Hord | discriminate | discriminate | reflexivity].
  - assert (Hrun : { item' | _transform 0 2 energy_targets (energy_item (VFloat f64_one))
                             = Ok item' }).
    { eexists. vm_compute. reflexivity. }
    destruct Hrun as [item' Hrun].
    destruct (graph_level_onehot 0 2 energy_targets (<["energy" := VFloat f64_one]> ∅) "energy"
                ltac:(lia) ltac:(apply list_elem_of_here) ltac:(apply not_elem_of_nil)
                Hord ltac:(discriminate) ltac:(discriminate))
      as [_ Hset].
    destruct (Hset item' Hrun) as (data' & value & onehot & -> & _ & Hv & Hlook & _ & Hslots).
    pose proof Hv as Hv'. vm_compute in Hv'. injection Hv' as <-.
    destruct Hslots as (slots & Hm & (_ & Hidx & Hrest) & Hone & Hzero & _).
    exists data', slots. split; [exact Hrun|].
    split; [etransitivity; [exact Hlook|]; rewrite Hm; reflexivity|]. split.
    + etransitivity; [exact Hidx | vm_compute; reflexivity].
    + intros y Hy. pose proof (Hrest 1%nat ltac:(lia) ltac:(lia)) as Hy'.
      rewrite Hy in Hy'. injection Hy' as ->. apply Hzero. reflexivity.
Defined.

(** C8 fails as stated, in five ways.  (1) For task 0 of 2 and a record
    whose [energy] is infinite, the slot of the other task holds NaN, not
    zero.  (2) When [energy] is also a node-level key, the node-level
    update overwrites [energy_onehot]: for a [(1, 1)] tensor the stored
    tensor has the shape [(1, 2, 1)], which is not the product with the
    one-hot vector.  (3, 4) For the keys [task_idx] and [task_mask] the
    record need not have the attribute: the tag written by the transform
    is read, access succeeds and the one-hot of the tag is stored.
    (5) For the key [a_onehot] listed after the key [a], the record need
    not have [a_onehot] either: the one-hot of [a] is read in its
    place. *)
Lemma graph_level_onehot_fails :
  (exists data' slots,
     _transform 0 2 energy_targets (energy_item (VFloat (S754_infinity false)))
     = Ok (PyData data')
     /\ data' !! "energy_onehot"
        = Some (VTensor (FloatTensor Binary32 [1%nat; 2%nat] slots))
     /\ slots !! 1%nat = Some S754_nan
     /\ is_zero S754_nan = false)
  /\ (exists data' value stored,
        _transform 0 2 {| graph_level := ["energy"]; node_level := ["energy"] |}
          (energy_item (VTensor (FloatTensor Binary32 [1%nat; 1%nat] [float_of_Z Binary32 3])))
        = Ok (PyData data')
        /\ graph_value (VTensor (FloatTensor Binary32 [1%nat; 1%nat] [float_of_Z Binary32 3]))
           = Ok value
        /\ data' !! "energy_onehot" = Some (VTensor stored)
        /\ tensor_shape stored = [1%nat; 2%nat; 1%nat]
        /\ tensor_shape (mul_onehot value [true; false]) = [1%nat; 2%nat])
  /\ (getattr_or_none ∅ "task_idx" = VNone
      /\ exists data',
           _transform 1 2 {| graph_level := ["task_idx"]; node_level := [] |} (PyData ∅)
           = Ok (PyData data')
           /\ data' !! "task_idx_onehot"
              = Some (VTensor (LongTensor [1%nat; 2%nat] [0; 1])))
  /\ (getattr_or_none ∅ "task_mask" = VNone
      /\ exists data',
           _transform 0 1 {| graph_level := ["task_mask"]; node_level := [] |} (PyData ∅)
           = Ok (PyData data')
           /\ data' !! "task_mask_onehot"
              = Some (VTensor (BoolTensor [1%nat; 1%nat] [true])))
  /\ (getattr_or_none (<["a" := VInt 3]> ∅) "a_onehot" = VNone
      /\ exists data',
           _transform 0 1 {| graph_level := ["a"; "a_onehot"]; node_level := [] |}
             (PyData (<["a" := VInt 3]> ∅))
           = Ok (PyData data')
           /\ data' !! "a_onehot_onehot"
              = Some (VTensor (FloatTensor Binary32 [1%nat; 1%nat] [float_of_Z Binary32 3]))).
Proof.
  split; [|split; [|split; [|split]]].
  - eexists. exists [S754_infinity false; S754_nan].
    split; [vm_compute; reflexivity|]. split; [vm_compute; reflexivity|].
    split; reflexivity.
  - eexists. eexists. eexists.
    split; [vm_compute; reflexivity|]. split; [vm_compute; reflexivity|].
    split; [vm_compute; reflexivity|]. split; reflexivity.
  - split; [reflexivity|]. eexists. split; vm_compute; reflexivity.
  - split; [reflexivity|]. eexists. split; vm_compute; reflexivity.
  - split; [reflexivity|]. eexists. split; vm_compute; reflexivity.
Qed.

(** * Further properties of the decorators *)

(** ** Lengths and constructors *)

Lemma len_negative (d : Dataset) (n : Z) : __len__ d = Ok n -> n < 0 -> len d = Raise ValueError.
Proof.
  intros Hn Hneg. unfold len, builtin_len. rewrite Hn. simpl.
  destruct (Z.ltb_spec n 0); [reflexivity | lia].
Qed.

Lemma len_cases (d : Dataset) (n : Z) :
  __len__ d = Ok n -> 0 <= n ->
  len d = if n <=? sys_maxsize then Ok n else Raise OverflowError.
Proof.
  intros Hn Hpos. destruct (Z.leb_spec n sys_maxsize).
  - by apply len_of___len__.
  - by apply (len_overflow _ n).
Qed.

Lemma first_n_transform_Ok (d : Dataset) (n l : Z) :
  is_sized d = true -> len d = Ok l -> n <= l ->
  first_n_transform d n = Ok (_FirstNDataset n d).
Proof.
  intros Hs Hl Hn. unfold first_n_transform. rewrite Hs, Hl. simpl.
  destruct (Z.ltb_spec l n); [lia | reflexivity].
Qed.

Lemma sample_n_transform_inv `{NumpyRandom} (d s : Dataset) (n l seed : Z) :
  len d = Ok l -> sample_n_transform d n seed = Ok s ->
  exists sampled_indices,
    s = _SampleNDataset n sampled_indices d
    /\ n <= l
    /\ rng_choice seed l n = Ok sampled_indices.
Proof.
  intros Hl Hs. unfold sample_n_transform in Hs.
  destruct (negb (is_sized d)); [discriminate|].
  rewrite Hl in Hs. simpl in Hs.
  destruct (Z.ltb_spec l n); [discriminate|].
  apply bind_Ok_inv in Hs as (ix & Hix & [= <-]). eauto.
Qed.

Lemma out_of_range_guard (n i : Z) : i < 0 \/ n <= i -> (i <? 0) || (n <=? i) = true.
Proof.
  intros Hi. destruct (Z.ltb_spec i 0); [reflexivity|].
  destruct (Z.leb_spec n i); [reflexivity | lia].
Qed.

Lemma in_range_guard (n i : Z) : 0 <= i < n -> (i <? 0) || (n <=? i) = false.
Proof.
  intros Hi. destruct (Z.ltb_spec i 0); [lia|].
  destruct (Z.leb_spec n i); [lia | reflexivity].
Qed.

Lemma py_index_in_range {A : Type} (l : list A) (i : Z) (x : A) :
  0 <= i -> l !! Z.to_nat i = Some x -> py_index l i = Ok x.
Proof.
  intros Hi Hx. unfold py_index. pose proof (lookup_lt_Some _ _ _ Hx) as Hlt.
  destruct (Z.ltb_spec i 0); [lia|].
  destruct (Z.ltb_spec i 0); [lia|].
  destruct (Z.leb_spec (Z.of_nat (length l)) i); [lia|]. simpl. by rewrite Hx.
Qed.

(** ** The first [n] items *)

(** X1: for a sized dataset [d] of length [l] and [0 <= n <= l],
    [first_n_transform d n] is built and reports length [n]; item access
    at every [i] in [[0, n)] is item access on [d] at [i]; at every other
    index it raises [IndexError], so that a negative index is not counted
    from the end and an item of [d] beyond the first [n] is out of reach. *)
Theorem first_n_items (d : Dataset) (n l : Z) :
  is_sized d = true -> len d = Ok l -> 0 <= n <= l ->
  exists f, first_n_transform d n = Ok f
    /\ len f = Ok n
    /\ (forall i, 0 <= i < n -> __getitem__ f i = __getitem__ d i)
    /\ (forall i, i < 0 \/ n <= i -> __getitem__ f i = Raise IndexError).
Proof.
  intros Hs Hl Hn. exists (_FirstNDataset n d).
  pose proof (len_range _ _ Hl) as Hr.
  split; [apply (first_n_transform_Ok d n l); [done | done | lia]|].
  split; [apply len_of___len__; [reflexivity | lia]|]. split.
  - intros i Hi. simpl. by rewrite in_range_guard.
  - intros i Hi. simpl. by rewrite out_of_range_guard.
Qed.

Lemma first_n_items_example :
  exists f,
    first_n_transform
      (list_dataset [energy_item (VInt 7); energy_item (VInt 8); energy_item (VInt 9)] None) 2
    = Ok f
    /\ len f = Ok 2
    /\ __getitem__ f 1 = Ok (energy_item (VInt 8))
    /\ __getitem__ f 2 = Raise IndexError
    /\ __getitem__ f (-1) = Raise IndexError.
Proof.
  destruct (first_n_items
              (list_dataset [energy_item (VInt 7); energy_item (VInt 8); energy_item (VInt 9)]
                            None) 2 3)
    as (f & Hf & Hlen & Hin & Hout); [reflexivity | reflexivity | lia |].
  exists f. split; [exact Hf|]. split; [exact Hlen|].
  split; [rewrite Hin by lia; reflexivity|].
  split; apply Hout; lia.
Defined.

(** X2: [first_n_transform] does not reject a negative [n]: for a sized
    dataset it builds a dataset on which the builtin [len] raises
    [ValueError] (its [__len__] is negative) and item access raises
    [IndexError] at every index. *)
Theorem first_n_negative (d : Dataset) (n l : Z) :
  is_sized d = true -> len d = Ok l -> n < 0 ->
  exists f, first_n_transform d n = Ok f
    /\ __len__ f = Ok n
    /\ len f = Raise ValueError
    /\ forall i, __getitem__ f i = Raise IndexError.
Proof.
  intros Hs Hl Hn. pose proof (len_nonneg _ _ Hl) as Hl0.
  exists (_FirstNDataset n d).
  split; [apply (first_n_transform_Ok d n l); [done | done | lia]|].
  split; [reflexivity|]. split; [by apply (len_negative _ n)|].
  intros i. simpl. rewrite out_of_range_guard; [reflexivity | lia].
Qed.

Lemma first_n_negative_example :
  exists f,
    first_n_transform (list_dataset [energy_item (VInt 7); energy_item (VInt 8)] None) (-1)
    = Ok f
    /\ len f = Raise ValueError
    /\ __getitem__ f 0 = Raise IndexError.
Proof.
  destruct (first_n_negative
              (list_dataset [energy_item (VInt 7); energy_item (VInt 8)] None) (-1) 2)
    as (f & Hf & _ & Hlen & Hget); [reflexivity | reflexivity | lia |].
  exists f. auto.
Defined.

(** ** Sampled items *)

(** X3: a dataset built by [sample_n_transform d n seed], with [n >= 0] and
    [d] of length [l], reports length [n]; item access outside [[0, n)]
    raises [IndexError]; and there are [n] indices of [d], all within
    [[0, l)], such that item access at position [i] is item access on [d]
    at the [i]-th of them, two different positions reading two different
    items of [d]. *)
Theorem sample_n_items `{NumpyRandom} (d s : Dataset) (n l seed : Z) :
  len d = Ok l -> 0 <= n ->
  sample_n_transform d n seed = Ok s ->
  n <= l
  /\ len s = Ok n
  /\ (forall i, i < 0 \/ n <= i -> __getitem__ s i = Raise IndexError)
  /\ exists sampled_indices,
       length sampled_indices = Z.to_nat n
       /\ (forall i, 0 <= i < n ->
             exists j, sampled_indices !! Z.to_nat i = Some j
               /\ 0 <= j < l
               /\ __getitem__ s i = __getitem__ d j)
       /\ (forall i1 i2 j, sampled_indices !! i1 = Some j ->
             sampled_indices !! i2 = Some j -> i1 = i2).
Proof.
  intros Hl Hn Hs.
  apply (sample_n_transform_inv d s n l seed Hl) in Hs as (ix & -> & Hnl & Hix).
  apply rng_choice_sound in Hix as (Hlen & Hrange & Hnodup).
  pose proof (len_range _ _ Hl) as Hr.
  split; [exact Hnl|]. split; [apply len_of___len__; [reflexivity | lia]|]. split.
  - intros i Hi. simpl. by rewrite out_of_range_guard.
  - exists ix. split; [exact Hlen|]. split.
    + intros i Hi.
      destruct (lookup_lt_is_Some_2 ix (Z.to_nat i)) as [j Hj]; [lia|].
      exists j. split; [exact Hj|]. split.
      * rewrite Forall_forall in Hrange. apply Hrange. by eapply list_elem_of_lookup_2.
      * simpl. rewrite in_range_guard by done.
        rewrite (py_index_in_range ix i j) by (lia || done). reflexivity.
    + intros i1 i2 j H1 H2. by eapply NoDup_lookup.
Qed.

Lemma sample_n_items_example :
  exists s,
    sample_n_transform
      (list_dataset [energy_item (VInt 7); energy_item (VInt 8); energy_item (VInt 9)] None) 2 1
    = Ok s
    /\ len s = Ok 2
    /\ __getitem__ s 2 = Raise IndexError.
Proof.
  exists (_SampleNDataset 2 [1; 2]
            (list_dataset [energy_item (VInt 7); energy_item (VInt 8); energy_item (VInt 9)]
                          None)).
  destruct (@sample_n_items rotation_random
              (list_dataset [energy_item (VInt 7); energy_item (VInt 8); energy_item (VInt 9)]
                            None)
              (_SampleNDataset 2 [1; 2]
                 (list_dataset [energy_item (VInt 7); energy_item (VInt 8); energy_item (VInt 9)]
                               None))
              2 3 1 eq_refl ltac:(lia) eq_refl)
    as (_ & Hlen & Hout & _).
  split; [reflexivity|]. split; [exact Hlen|]. apply Hout. lia.
Defined.

(** ** Expansion of an empty dataset *)

(** X4: [expand_dataset] accepts an empty dataset and a positive [n]: the
    [__len__] of the result is [n], so that [len] reports [n] up to
    [sys.maxsize] and raises [OverflowError] above it; item access at
    every index of [[0, n)] raises [ZeroDivisionError] (the index is
    reduced modulo the original size 0); and when the empty dataset has an
    (empty) metadata array, the metadata of the result is [n] zeros. *)
Theorem expand_empty_dataset (d : Dataset) (n : Z) :
  is_sized d = true -> len d = Ok 0 -> 0 < n ->
  exists e, expand_dataset d n = Ok e
    /\ __len__ e = Ok n
    /\ len e = (if n <=? sys_maxsize then Ok n else Raise OverflowError)
    /\ (forall i, 0 <= i < n -> __getitem__ e i = Raise ZeroDivisionError)
    /\ (atoms_metadata d = Ok [] -> atoms_metadata e = Ok (replicate (Z.to_nat n) 0)).
Proof.
  intros Hs Hl Hn. exists (_ExpandedDataset n 0 d).
  split; [apply expand_dataset_Ok; [done | done | lia]|].
  split; [reflexivity|].
  split; [apply len_cases; [reflexivity | lia]|]. split.
  - intros i Hi. simpl. by rewrite in_range_guard.
  - intros Hm. simpl. rewrite Hm. reflexivity.
Qed.

Lemma expand_empty_dataset_example :
  exists e, expand_dataset (list_dataset [] (Some [])) 3 = Ok e
    /\ len e = Ok 3
    /\ __getitem__ e 0 = Raise ZeroDivisionError
    /\ atoms_metadata e = Ok [0; 0; 0].
Proof.
  destruct (expand_empty_dataset (list_dataset [] (Some [])) 3)
    as (e & He & _ & Hlen & Hget & Hmeta); [reflexivity | reflexivity | lia |].
  exists e. split; [exact He|]. split; [exact Hlen|].
  split; [apply Hget; lia | by apply Hmeta].
Defined.

(** ** Datasets without a length *)

(** X5: a dataset that is not [Sized] is rejected with [TypeError] by the
    three constructors, whatever [n] is.  Wrapping it with
    [dataset_transform] gives a proxy that passes the [Sized] test, and
    the [TypeError] then comes from [len] itself. *)
Theorem unsized_dataset_rejected `{NumpyRandom} (d : Dataset) (n seed : Z)
    (fn : PyObj -> result PyObj) (copy_data : bool) :
  is_sized d = false ->
  expand_dataset d n = Raise TypeError
  /\ first_n_transform d n = Raise TypeError
  /\ sample_n_transform d n seed = Raise TypeError
  /\ is_sized (dataset_transform d fn copy_data) = true
  /\ len (dataset_transform d fn copy_data) = Raise TypeError
  /\ expand_dataset (dataset_transform d fn copy_data) n = Raise TypeError
  /\ first_n_transform (dataset_transform d fn copy_data) n = Raise TypeError
  /\ sample_n_transform (dataset_transform d fn copy_data) n seed = Raise TypeError.
Proof.
  intros Hs.
  assert (Hlen : len (dataset_transform d fn copy_data) = Raise TypeError).
  { destruct d as [r| | | |]; try discriminate. unfold len. simpl. simpl in Hs.
    destruct (raw_len r) as [l|]; [|reflexivity].
    exfalso. apply bool_decide_eq_false in Hs. apply Hs. by exists l. }
  unfold expand_dataset, first_n_transform, sample_n_transform.
  rewrite Hs, Hlen. simpl. repeat split; reflexivity.
Qed.

Lemma unsized_dataset_rejected_example :
  expand_dataset
    (Raw {| raw_len := None; raw_getitem := fun _ => Raise IndexError;
            raw_atoms_metadata := None |}) 3
  = Raise TypeError
  /\ expand_dataset
       (dataset_transform
          (Raw {| raw_len := None; raw_getitem := fun _ => Raise IndexError;
                  raw_atoms_metadata := None |}) Ok false) 3
     = Raise TypeError.
Proof.
  destruct (@unsized_dataset_rejected rotation_random
              (Raw {| raw_len := None; raw_getitem := fun _ => Raise IndexError;
                      raw_atoms_metadata := None |}) 3 0 Ok false eq_refl)
    as (He & _ & _ & _ & _ & Het & _).
  split; [exact He | exact Het].
Defined.

(** ** Decorators composed *)

(** X6: expanding twice.  For a non-empty sized dataset [d] of length [l]
    and [l <= n <= m], the expansion of [d] to [n] is built.  The second
    expansion takes [len] of the first: when [n] is above [sys.maxsize]
    it raises [OverflowError]; otherwise it is built, its [__len__] is
    [m] (what [len] reports up to [sys.maxsize]), and it reads, at every
    index [i] of [[0, m)], the item of [d] at [(i mod n) mod l]; this is
    the item at [i mod l], as in the direct expansion of [d] to [m], when
    [l] divides [n]. *)
Theorem expand_twice (d : Dataset) (l n m : Z) :
  is_sized d = true -> len d = Ok l -> 0 < l -> l <= n <= m ->
  exists e1,
    expand_dataset d n = Ok e1
    /\ (sys_maxsize < n -> expand_dataset e1 m = Raise OverflowError)
    /\ (n <= sys_maxsize ->
        exists e2 e,
          expand_dataset e1 m = Ok e2
          /\ expand_dataset d m = Ok e
          /\ __len__ e2 = Ok m
          /\ len e2 = (if m <=? sys_maxsize then Ok m else Raise OverflowError)
          /\ (forall i, 0 <= i < m -> __getitem__ e2 i = __getitem__ d ((i mod n) mod l))
          /\ ((l | n) -> forall i, 0 <= i < m -> __getitem__ e2 i = __getitem__ e i)).
Proof.
  intros Hs Hl Hpos Hn.
  exists (_ExpandedDataset n l d).
  split; [apply expand_dataset_Ok; [done | done | lia]|]. split.
  { intros Hmax. unfold expand_dataset. cbn [is_sized negb].
    by rewrite (len_overflow _ n). }
  intros Hmax.
  exists (_ExpandedDataset m n (_ExpandedDataset n l d)), (_ExpandedDataset m l d).
  split; [apply expand_dataset_Ok; [done | apply len_of___len__; [done | lia] | lia]|].
  split; [apply expand_dataset_Ok; [done | done | lia]|].
  split; [reflexivity|].
  split; [apply len_cases; [reflexivity | lia]|].
  assert (Hget : forall i, 0 <= i < m ->
            __getitem__ (_ExpandedDataset m n (_ExpandedDataset n l d)) i
            = __getitem__ d ((i mod n) mod l)).
  { intros i Hi. cbn [__getitem__]. rewrite in_range_guard by done.
    unfold py_mod. destruct (Z.eqb_spec n 0); [lia|]. cbn [mbind result_bind].
    rewrite in_range_guard by (apply Z.mod_pos_bound; lia).
    destruct (Z.eqb_spec l 0); [lia|]. reflexivity. }
  split; [exact Hget|].
  intros Hdiv i Hi. rewrite Hget by done. cbn [__getitem__].
  rewrite in_range_guard by done. unfold py_mod.
  destruct (Z.eqb_spec l 0); [lia|]. cbn [mbind result_bind].
  by rewrite Z.mod_mod_divide.
Qed.

Lemma expand_twice_example :
  exists e2,
    (e1 ← expand_dataset (list_dataset [energy_item (VInt 7); energy_item (VInt 8)] None) 3;
     expand_dataset e1 5) = Ok e2
    /\ __getitem__ e2 3 = Ok (energy_item (VInt 7)).
Proof.
  destruct (expand_twice (list_dataset [energy_item (VInt 7); energy_item (VInt 8)] None) 2 3 5)
    as (e1 & H1 & _ & H2); [reflexivity | reflexivity | lia | lia |].
  destruct H2 as (e2 & e & H2 & _ & _ & _ & Hget & _); [vm_compute; discriminate|].
  exists e2. split; [rewrite H1; exact H2|].
  rewrite Hget by lia. reflexivity.
Defined.

(** ** Metadata *)

Lemma omap_seq_lookup {A : Type} (f : nat -> option A) (s n k : nat) :
  (forall i, (s <= i < s + n)%nat -> is_Some (f i)) ->
  (k < n)%nat -> omap f (seq s n) !! k = f (s + k)%nat.
Proof.
  revert s k. induction n as [|n IH]; intros s k Hf Hk; [lia|].
  cbn [seq omap list_omap]. destruct (Hf s ltac:(lia)) as [y Hy]. rewrite Hy.
  destruct k as [|k].
  - by rewrite Nat.add_0_r, Hy.
  - change ((y :: omap f (seq (S s) n)) !! S k) with (omap f (seq (S s) n) !! k).
    rewrite (IH (S s) k); [f_equal; lia | | lia].
    intros i Hi. apply Hf. lia.
Qed.

Lemma omap_seq_length {A : Type} (f : nat -> option A) (s n : nat) :
  (forall i, (s <= i < s + n)%nat -> is_Some (f i)) ->
  length (omap f (seq s n)) = n.
Proof.
  revert s. induction n as [|n IH]; intros s Hf; [reflexivity|].
  cbn [seq omap list_omap]. destruct (Hf s ltac:(lia)) as [y ->].
  cbn [length]. f_equal. apply IH. intros i Hi. apply Hf. lia.
Qed.

Lemma np_resize_defined (metadata : list Z) (i : nat) :
  metadata <> [] -> is_Some (metadata !! (i mod length metadata)%nat).
Proof.
  intros Hne. apply lookup_lt_is_Some_2, Nat.mod_upper_bound.
  destruct metadata; [done | simpl; lia].
Qed.

Lemma np_resize_length (metadata : list Z) (n : Z) :
  length (np_resize metadata n) = Z.to_nat n.
Proof.
  destruct (decide (metadata = [])) as [->|Hne].
  - simpl. by rewrite length_replicate.
  - unfold np_resize. destruct metadata as [|x xs] eqn:Hm; [done|]. rewrite <- Hm in *.
    apply omap_seq_length. intros i _. by apply np_resize_defined.
Qed.

Lemma np_resize_lookup (metadata : list Z) (n : Z) (i : nat) :
  metadata <> [] -> (i < Z.to_nat n)%nat ->
  np_resize metadata n !! i = metadata !! (i mod length metadata)%nat.
Proof.
  intros Hne Hi. unfold np_resize. destruct metadata as [|x xs] eqn:Hm; [done|].
  rewrite <- Hm in *. rewrite omap_seq_lookup; [reflexivity | | done].
  intros k _. by apply np_resize_defined.
Qed.

(** X7: expanding a sized dataset [d] of length [l] to [n] and then
    keeping the first [l] items.  [first_n_transform] takes [len] of the
    expansion: when [n] is above [sys.maxsize] it raises [OverflowError];
    otherwise the result gives back [d]: the same length, the same item at
    every index of [[0, l)], and the same metadata when [d] has one entry
    of metadata per item. *)
Theorem first_n_of_expand (d : Dataset) (l n : Z) :
  is_sized d = true -> len d = Ok l -> l <= n ->
  exists e,
    expand_dataset d n = Ok e
    /\ (sys_maxsize < n -> first_n_transform e l = Raise OverflowError)
    /\ (n <= sys_maxsize ->
        exists f,
          first_n_transform e l = Ok f
          /\ len f = Ok l
          /\ (forall i, 0 <= i < l -> __getitem__ f i = __getitem__ d i)
          /\ (forall metadata, atoms_metadata d = Ok metadata ->
                Z.of_nat (length metadata) = l -> atoms_metadata f = Ok metadata)).
Proof.
  intros Hs Hl Hn. pose proof (len_range _ _ Hl) as Hl0.
  exists (_ExpandedDataset n l d).
  split; [by apply expand_dataset_Ok|]. split.
  { intros Hmax. unfold first_n_transform. cbn [is_sized negb].
    by rewrite (len_overflow _ n). }
  intros Hmax. exists (_FirstNDataset l (_ExpandedDataset n l d)).
  split; [apply (first_n_transform_Ok _ l n);
            [done | apply len_of___len__; [done | lia] | lia]|].
  split; [apply len_of___len__; [reflexivity | lia]|]. split.
  - intros i Hi. cbn [__getitem__]. rewrite in_range_guard by done.
    rewrite in_range_guard by lia. unfold py_mod.
    destruct (Z.eqb_spec l 0); [lia|]. cbn [mbind result_bind].
    by rewrite Z.mod_small.
  - intros metadata Hm Hlen. cbn [atoms_metadata]. rewrite Hm. cbn [mbind result_bind].
    f_equal. unfold py_slice_to. destruct (Z.ltb_spec l 0); [lia|].
    destruct metadata as [|x xs] eqn:Hmd.
    + simpl in Hlen. subst l. reflexivity.
    + rewrite <- Hmd in *. assert (Hne : metadata <> []) by (rewrite Hmd; done).
      apply list_eq. intros i.
      destruct (decide (i < length metadata)%nat) as [Hi|Hi].
      * rewrite lookup_take_lt by lia. rewrite np_resize_lookup by (done || lia).
        by rewrite Nat.mod_small.
      * rewrite lookup_take_ge by lia. symmetry. apply lookup_ge_None_2. lia.
Qed.

Lemma first_n_of_expand_example :
  exists e f,
    expand_dataset (list_dataset [energy_item (VInt 7); energy_item (VInt 8)] (Some [3; 4])) 5
    = Ok e
    /\ first_n_transform e 2 = Ok f
    /\ __getitem__ f 1 = Ok (energy_item (VInt 8))
    /\ atoms_metadata f = Ok [3; 4].
Proof.
  destruct (first_n_of_expand
              (list_dataset [energy_item (VInt 7); energy_item (VInt 8)] (Some [3; 4])) 2 5)
    as (e & He & _ & Hf); [reflexivity | reflexivity | lia |].
  destruct Hf as (f & Hf & _ & Hget & Hmeta); [vm_compute; discriminate|].
  exists e, f. split; [exact He|]. split; [exact Hf|].
  split; [rewrite Hget by lia; reflexivity|].
  apply Hmeta; reflexivity.
Defined.

(** X8: the metadata of an expanded dataset follows its items.  When the
    non-empty dataset [d] of length [l] has one entry of metadata per
    item, the expansion to [n] has [n] entries of metadata, and the entry
    at [i] is the entry of [d] at [i mod l], the index of the item that
    position [i] reads. *)
Theorem expanded_atoms_metadata (d : Dataset) (n l : Z) (metadata : list Z) :
  is_sized d = true -> len d = Ok l -> 0 < l -> l <= n ->
  atoms_metadata d = Ok metadata -> Z.of_nat (length metadata) = l ->
  exists e expanded,
    expand_dataset d n = Ok e
    /\ atoms_metadata e = Ok expanded
    /\ Z.of_nat (length expanded) = n
    /\ forall i, 0 <= i < n ->
         expanded !! Z.to_nat i = metadata !! Z.to_nat (i mod l)
         /\ __getitem__ e i = __getitem__ d (i mod l).
Proof.
  intros Hs Hl Hpos Hn Hm Hlen.
  exists (_ExpandedDataset n l d), (np_resize metadata n).
  split; [by apply expand_dataset_Ok|].
  split; [simpl; by rewrite Hm|].
  split; [rewrite np_resize_length; lia|].
  assert (Hne : metadata <> []) by (intros ->; simpl in Hlen; lia).
  intros i Hi. split.
  - rewrite np_resize_lookup by (done || lia). f_equal.
    apply Nat2Z.inj. rewrite Nat2Z.inj_mod, Hlen, !Z2Nat.id; [reflexivity | | lia].
    apply Z.mod_pos_bound. lia.
  - simpl. rewrite in_range_guard by done. unfold py_mod.
    destruct (Z.eqb_spec l 0); [lia | reflexivity].
Qed.

Lemma expanded_atoms_metadata_example :
  exists e,
    expand_dataset (list_dataset [energy_item (VInt 7); energy_item (VInt 8)] (Some [3; 4])) 5
    = Ok e
    /\ atoms_metadata e = Ok [3; 4; 3; 4; 3].
Proof.
  destruct (expanded_atoms_metadata
              (list_dataset [energy_item (VInt 7); energy_item (VInt 8)] (Some [3; 4])) 5 2 [3; 4])
    as (e & expanded & He & Hmeta & _);
    [reflexivity | reflexivity | lia | lia | reflexivity | reflexivity |].
  exists e. split; [exact He|].
  pose proof He as He'. vm_compute in He'. injection He' as <-. vm_compute. reflexivity.
Defined.

(** X9: the metadata of the first [n] items.  When the dataset [d] of
    length [l] has one entry of metadata per item and [0 <= n <= l], the
    dataset of its first [n] items has [n] entries of metadata, the entry
    at [i] being the entry of [d] at [i]. *)
Theorem first_n_atoms_metadata (d : Dataset) (n l : Z) (metadata : list Z) :
  is_sized d = true -> len d = Ok l -> 0 <= n <= l ->
  atoms_metadata d = Ok metadata -> Z.of_nat (length metadata) = l ->
  exists f kept,
    first_n_transform d n = Ok f
    /\ atoms_metadata f = Ok kept
    /\ Z.of_nat (length kept) = n
    /\ forall i, 0 <= i < n ->
         kept !! Z.to_nat i = metadata !! Z.to_nat i
         /\ __getitem__ f i = __getitem__ d i.
Proof.
  intros Hs Hl Hn Hm Hlen.
  exists (_FirstNDataset n d), (take (Z.to_nat n) metadata).
  split; [apply (first_n_transform_Ok d n l); [done | done | lia]|].
  split.
  { simpl. rewrite Hm. simpl. unfold py_slice_to.
    destruct (Z.ltb_spec n 0); [lia | reflexivity]. }
  split; [rewrite length_take; lia|].
  intros i Hi. split.
  - apply lookup_take_lt. lia.
  - simpl. by rewrite in_range_guard.
Qed.

Lemma first_n_atoms_metadata_example :
  exists f,
    first_n_transform
      (list_dataset [energy_item (VInt 7); energy_item (VInt 8); energy_item (VInt 9)]
                    (Some [3; 4; 5])) 2
    = Ok f
    /\ atoms_metadata f = Ok [3; 4].
Proof.
  destruct (first_n_atoms_metadata
              (list_dataset [energy_item (VInt 7); energy_item (VInt 8); energy_item (VInt 9)]
                            (Some [3; 4; 5])) 2 3 [3; 4; 5])
    as (f & kept & Hf & Hmeta & _);
    [reflexivity | reflexivity | lia | reflexivity | reflexivity |].
  exists f. split; [exact Hf|].
  pose proof Hf as Hf'. vm_compute in Hf'. injection Hf' as <-. vm_compute. reflexivity.
Defined.

Lemma map_result_py_index (metadata : list Z) (indices : list Z) :
  Forall (fun i => 0 <= i < Z.of_nat (length metadata)) indices ->
  map_result (py_index metadata) indices
  = Ok (map (fun i => metadata !!! Z.to_nat i) indices).
Proof.
  induction 1 as [|i indices Hi _ IH]; [reflexivity|].
  cbn [map_result map]. rewrite (py_index_in_range metadata i (metadata !!! Z.to_nat i)).
  - cbn [mbind result_bind]. rewrite IH. reflexivity.
  - lia.
  - apply list_lookup_lookup_total_lt. lia.
Qed.

(** X10: the metadata of a sampled dataset follows its items.  When the
    dataset [d] has one entry of metadata per item, the metadata of
    [sample_n_transform d n seed] is defined, has one entry per sampled
    index, and its entry at position [i] is the entry of [d] at the
    [i]-th sampled index, the index of the item that position [i]
    reads. *)
Theorem sample_n_atoms_metadata `{NumpyRandom} (d s : Dataset) (n l seed : Z)
    (metadata : list Z) :
  len d = Ok l -> 0 <= n ->
  sample_n_transform d n seed = Ok s ->
  atoms_metadata d = Ok metadata -> Z.of_nat (length metadata) = l ->
  exists sampled,
    atoms_metadata s = Ok sampled
    /\ Z.of_nat (length sampled) = n
    /\ forall i, 0 <= i < n ->
         exists j, 0 <= j < l
           /\ sampled !! Z.to_nat i = metadata !! Z.to_nat j
           /\ __getitem__ s i = __getitem__ d j.
Proof.
  intros Hl Hn Hs Hm Hlen.
  apply (sample_n_transform_inv d s n l seed Hl) in Hs as (ix & -> & Hnl & Hix).
  apply rng_choice_sound in Hix as (Hlenix & Hrange & _).
  exists (map (fun i => metadata !!! Z.to_nat i) ix).
  split; [|split].
  - simpl. rewrite Hm. cbn [mbind result_bind]. apply map_result_py_index.
    by rewrite Hlen.
  - rewrite length_map. lia.
  - intros i Hi.
    destruct (lookup_lt_is_Some_2 ix (Z.to_nat i)) as [j Hj]; [lia|].
    assert (Hjr : 0 <= j < l).
    { rewrite Forall_forall in Hrange. apply Hrange. by eapply list_elem_of_lookup_2. }
    exists j. split; [exact Hjr|]. split.
    + rewrite list_lookup_fmap, Hj. simpl. symmetry.
      apply list_lookup_lookup_total_lt. lia.
    + simpl. rewrite in_range_guard by done.
      rewrite (py_index_in_range ix i j) by (lia || done). reflexivity.
Qed.

Lemma sample_n_atoms_metadata_example :
  exists s,
    sample_n_transform
      (list_dataset [energy_item (VInt 7); energy_item (VInt 8); energy_item (VInt 9)]
                    (Some [3; 4; 5])) 2 1
    = Ok s
    /\ atoms_metadata s = Ok [4; 5].
Proof.
  exists (_SampleNDataset 2 [1; 2]
            (list_dataset [energy_item (VInt 7); energy_item (VInt 8); energy_item (VInt 9)]
                          (Some [3; 4; 5]))).
  destruct (@sample_n_atoms_metadata rotation_random
              (list_dataset [energy_item (VInt 7); energy_item (VInt 8); energy_item (VInt 9)]
                            (Some [3; 4; 5]))
              (_SampleNDataset 2 [1; 2]
                 (list_dataset [energy_item (VInt 7); energy_item (VInt 8); energy_item (VInt 9)]
                               (Some [3; 4; 5])))
              2 3 1 [3; 4; 5] eq_refl ltac:(lia) eq_refl eq_refl eq_refl)
    as (sampled & Hmeta & _).
  split; [reflexivity|]. vm_compute. reflexivity.
Defined.

(** * Further properties of the task tagging *)

(** ** What a tagged dataset forwards *)

(** X11: the dataset built by [_create_split_dataset] wraps the dataset
    of the registry: it passes the [Sized] test, has the length and the
    metadata of the wrapped dataset, raises at an index the exception the
    wrapped dataset raises there, and raises [TypeError] where the wrapped
    dataset returns something that is not a [Data] record. *)
Theorem tagged_dataset_forwards `{Collaborators} (config : SplitDatasetConfig)
    (task_idx total_num_tasks : Z) (one_hot_targets : OneHotTargetsConfig)
    (dataset : Dataset) :
  _create_split_dataset config task_idx total_num_tasks one_hot_targets = Ok dataset ->
  exists raw,
    registry_create config = Ok raw
    /\ is_sized dataset = true
    /\ len dataset = len raw
    /\ atoms_metadata dataset = atoms_metadata raw
    /\ (forall idx e, __getitem__ raw idx = Raise e -> __getitem__ dataset idx = Raise e)
    /\ (forall idx v, __getitem__ raw idx = Ok (PyOther v) ->
          __getitem__ dataset idx = Raise TypeError).
Proof.
  intros Hc. unfold _create_split_dataset in Hc.
  apply bind_Ok_inv in Hc as (raw & Hraw & [= <-]).
  exists raw. split; [exact Hraw|]. split; [reflexivity|]. split; [reflexivity|].
  split; [reflexivity|]. split.
  - intros idx e He. simpl. by rewrite He.
  - intros idx v Hv. simpl. by rewrite Hv.
Qed.

Lemma tagged_dataset_forwards_example :
  exists dataset,
    @_create_split_dataset reference_collaborators {| format := "list"; src := "abc" |}
      1 3 energy_targets = Ok dataset
    /\ len dataset = Ok 3
    /\ __getitem__ dataset 3 = Raise IndexError.
Proof.
  assert (Hrun : { dataset | @_create_split_dataset reference_collaborators
                               {| format := "list"; src := "abc" |} 1 3 energy_targets
                             = Ok dataset }).
  { eexists. reflexivity. }
  destruct Hrun as [dataset Hrun]. exists dataset.
  destruct (@tagged_dataset_forwards reference_collaborators _ _ _ _ _ Hrun)
    as (raw & Hraw & _ & Hlen & _ & Herr & _).
  vm_compute in Hraw. injection Hraw as <-.
  split; [exact Hrun|]. split; [rewrite Hlen; reflexivity|].
  apply Herr. reflexivity.
Defined.

(** ** Attributes that [_transform] writes and keeps *)

Lemma _transform_Ok_inv (task_idx total_num_tasks : Z) (one_hot_targets : OneHotTargetsConfig)
    (data : gmap string Value) (item' : PyObj) :
  _transform task_idx total_num_tasks one_hot_targets (PyData data) = Ok item' ->
  exists idx onehot d1 data',
    item' = PyData data'
    /\ one_hot task_idx total_num_tasks = Ok onehot
    /\ fold_result (fun d key => _update_graph_value d key onehot)
         (graph_level one_hot_targets)
         (<["task_mask" := VTensor (BoolTensor [1%nat; length onehot] onehot)]>
            (<["task_idx" := VTensor idx]> data)) = Ok d1
    /\ fold_result (fun d key => _update_node_value d key onehot)
         (node_level one_hot_targets) d1 = Ok data'.
Proof.
  unfold _transform. intros Hb.
  apply bind_Ok_inv in Hb as (idx & _ & Hb).
  apply bind_Ok_inv in Hb as (onehot & Hoh & Hb).
  apply bind_Ok_inv in Hb as (d1 & Hg & Hb).
  apply bind_Ok_inv in Hb as (d2 & Hn & [= <-]).
  exists idx, onehot, d1, d2. done.
Qed.

Lemma fold_result_keeps_present
    (f : gmap string Value -> string -> result (gmap string Value))
    (keys : list string) (data data' : gmap string Value) (k0 : string) :
  (forall d d' k, f d k = Ok d' -> exists v, d' = <[onehot_name k := v]> d) ->
  fold_result f keys data = Ok data' ->
  is_Some (data !! k0) -> is_Some (data' !! k0).
Proof.
  intros Hf. revert data. induction keys as [|k keys IH]; intros data Hfold Hsome;
    simpl in Hfold.
  - by injection Hfold as <-.
  - apply bind_Ok_inv in Hfold as (d1 & Hstep & Hfold).
    apply (IH d1); [done|]. destruct (Hf _ _ _ Hstep) as [v ->].
    apply lookup_insert_is_Some. destruct (decide (onehot_name k = k0)); auto.
Qed.

Lemma fold_result_written
    (f : gmap string Value -> string -> result (gmap string Value))
    (keys : list string) (data data' : gmap string Value) (k0 : string) :
  (forall d d' k, f d k = Ok d' -> exists v, d' = <[onehot_name k := v]> d) ->
  k0 ∈ keys ->
  fold_result f keys data = Ok data' ->
  is_Some (data' !! onehot_name k0).
Proof.
  intros Hf. revert data. induction keys as [|k keys IH]; intros data Hin Hfold;
    simpl in Hfold.
  - by apply elem_of_nil in Hin.
  - apply bind_Ok_inv in Hfold as (d1 & Hstep & Hfold).
    destruct (decide (k0 ∈ keys)) as [Hlater|Hnot]; [by apply (IH d1)|].
    apply elem_of_cons in Hin as [->|Hin]; [|done].
    apply (fold_result_keeps_present f keys d1); [done | done |].
    destruct (Hf _ _ _ Hstep) as [v ->]. rewrite lookup_insert_eq. by eexists.
Qed.

(** X12: the attributes of a tagged record.  When [_transform] succeeds
    on a record, the result has every attribute the record had, with the
    value unchanged for every name other than [task_idx], [task_mask] and
    the [<key>_onehot] names of the configured keys; and it has
    [task_idx], [task_mask] and [<key>_onehot] for every configured
    graph-level and node-level key. *)
Theorem transform_attributes (task_idx total_num_tasks : Z)
    (one_hot_targets : OneHotTargetsConfig) (data data' : gmap string Value) :
  _transform task_idx total_num_tasks one_hot_targets (PyData data) = Ok (PyData data') ->
  (forall key, key <> "task_idx" -> key <> "task_mask" ->
     (forall k, k ∈ graph_level one_hot_targets ++ node_level one_hot_targets ->
        key <> onehot_name k) ->
     data' !! key = data !! key)
  /\ (forall key, is_Some (data !! key) -> is_Some (data' !! key))
  /\ is_Some (data' !! "task_idx")
  /\ is_Some (data' !! "task_mask")
  /\ (forall k, k ∈ graph_level one_hot_targets ++ node_level one_hot_targets ->
        is_Some (data' !! onehot_name k)).
Proof.
  intros Ht.
  apply _transform_Ok_inv in Ht as (idx & onehot & d1 & d2 & [= <-] & _ & Hg & Hn).
  set (d0 := <["task_mask" := VTensor (BoolTensor [1%nat; length onehot] onehot)]>
               (<["task_idx" := VTensor idx]> data)) in Hg.
  assert (Hkeep : forall key, is_Some (d0 !! key) -> is_Some (data' !! key)).
  { intros key Hsome.
    apply (fold_result_keeps_present _ _ d1 data' key (node_writes onehot) Hn).
    by apply (fold_result_keeps_present _ _ d0 d1 key (graph_writes onehot) Hg). }
  split; [|split; [|split; [|split]]].
  - intros key Hk1 Hk2 Hne.
    rewrite (fold_result_writes _ (node_level one_hot_targets) d1 data' key (node_writes onehot));
      [| |done].
    + rewrite (fold_result_writes _ (graph_level one_hot_targets) d0 d1 key (graph_writes onehot));
        [| |done].
      * unfold d0. by rewrite !lookup_insert_ne.
      * intros k Hk Heq. apply (Hne k); [|done]. apply elem_of_app. by left.
    + intros k Hk Heq. apply (Hne k); [|done]. apply elem_of_app. by right.
  - intros key Hsome. apply Hkeep. unfold d0.
    apply lookup_insert_is_Some. destruct (decide ("task_mask" = key)); [by left | right].
    split; [done|]. apply lookup_insert_is_Some.
    destruct (decide ("task_idx" = key)); auto.
  - apply Hkeep. unfold d0. rewrite lookup_insert_ne by done.
    rewrite lookup_insert_eq. by eexists.
  - apply Hkeep. unfold d0. rewrite lookup_insert_eq. by eexists.
  - intros k Hk. apply elem_of_app in Hk as [Hk|Hk].
    + apply (fold_result_keeps_present _ _ d1 data' _ (node_writes onehot) Hn).
      by apply (fold_result_written _ (graph_level one_hot_targets) d0 d1 k
                  (graph_writes onehot)).
    + by apply (fold_result_written _ (node_level one_hot_targets) d1 data' k
                  (node_writes onehot)).
Qed.

Lemma transform_attributes_example :
  exists data',
    _transform 0 2 energy_targets (energy_item (VFloat f64_one)) = Ok (PyData data')
    /\ data' !! "energy" = Some (VFloat f64_one)
    /\ is_Some (data' !! "energy_onehot").
Proof.
  assert (Hrun : { data' | _transform 0 2 energy_targets (energy_item (VFloat f64_one))
                           = Ok (PyData data') }).
  { eexists. vm_compute. reflexivity. }
  destruct Hrun as [data' Hrun]. exists data'. split; [exact Hrun|].
  destruct (transform_attributes 0 2 energy_targets _ data' Hrun)
    as (Hframe & _ & _ & _ & Hwritten).
  split.
  - rewrite Hframe; [reflexivity | discriminate | discriminate |].
    intros k Hk. apply elem_of_app in Hk as [Hk|Hk]; [|by apply elem_of_nil in Hk].
    by apply energy_targets_disjoint.
  - apply (Hwritten "energy")%string. apply elem_of_app. left. apply list_elem_of_here.
Defined.

(** ** A task index outside the range of tasks *)

(** X13: when the task index (an [int64] value) is negative or is not
    below a positive number of tasks, [_transform] raises [RuntimeError]
    on every record (the one-hot encoding of the index is refused),
    before any configured attribute is read. *)
Theorem transform_task_index_out_of_range (task_idx total_num_tasks : Z)
    (one_hot_targets : OneHotTargetsConfig) (data : gmap string Value) :
  in_int64 task_idx = true -> 0 < total_num_tasks ->
  task_idx < 0 \/ total_num_tasks <= task_idx ->
  _transform task_idx total_num_tasks one_hot_targets (PyData data) = Raise RuntimeError.
Proof.
  intros Hint Hpos Hout. unfold _transform, torch_tensor_long, one_hot.
  rewrite Hint. cbn [mbind result_bind].
  destruct (Z.ltb_spec task_idx 0); [reflexivity|].
  destruct (Z.eqb_spec total_num_tasks (-1)); [lia|].
  destruct (Z.leb_spec total_num_tasks 0); [lia|].
  destruct (Z.leb_spec total_num_tasks task_idx); [reflexivity | lia].
Qed.

Lemma transform_task_index_out_of_range_example :
  _transform 2 2 energy_targets (energy_item (VFloat f64_one)) = Raise RuntimeError.
Proof.
  apply (transform_task_index_out_of_range 2 2 energy_targets); [reflexivity | lia | lia].
Defined.

(** ** Graph-level values *)

(** X14: a graph-level target given as a tensor must hold exactly one
    element.  For a record whose attribute [key] is a tensor,
    [_update_graph_value] raises [EinopsError] when the tensor does not
    have exactly one element; when it has one, whatever its shape, the
    record gets [<key>_onehot] with the shape [(1, t)], where [t] is the
    length of the one-hot vector. *)
Theorem graph_value_single_element (data : gmap string Value) (key : string)
    (onehot : list bool) (t : Tensor) :
  data !! key = Some (VTensor t) ->
  (numel t <> 1%nat -> _update_graph_value data key onehot = Raise EinopsError)
  /\ (numel t = 1%nat ->
      exists v, _update_graph_value data key onehot
                = Ok (<[onehot_name key := VTensor v]> data)
        /\ tensor_shape v = [1%nat; length onehot]
        /\ numel v = length onehot).
Proof.
  intros Hkey. unfold _update_graph_value, getattr_or_none. rewrite Hkey.
  change (default VNone (Some (VTensor t))) with (VTensor t).
  unfold graph_value, rearrange_1_to_1_1, view_flat. cbn [mbind result_bind].
  split.
  - intros Hne. destruct t as [sh d|sh d|fmt sh d]; cbn [numel reshape tensor_shape] in *;
      destruct (length d) as [|[|n]]; try reflexivity; done.
  - intros Hone. destruct t as [sh d|sh d|fmt sh d]; cbn [numel reshape tensor_shape] in *;
      rewrite Hone; cbn [mbind result_bind reshape];
      destruct d as [|x [|y d]]; try discriminate;
      (eexists; split; [reflexivity|]); unfold mul_onehot;
      cbn [tensor_shape removelast app flat_map numel]; rewrite app_nil_r, length_map; done.
Qed.

Lemma graph_value_single_element_example :
  _update_graph_value
    (<["energy" := VTensor (FloatTensor Binary32 [2%nat] [f64_zero; f64_zero])]> ∅)
    "energy" [true; false]
  = Raise EinopsError.
Proof.
  apply (graph_value_single_element
           (<["energy" := VTensor (FloatTensor Binary32 [2%nat] [f64_zero; f64_zero])]> ∅)
           "energy" [true; false] (FloatTensor Binary32 [2%nat] [f64_zero; f64_zero]));
    [reflexivity | simpl; lia].
Defined.

(** ** Python numbers as targets *)

(** X15: a target stored as a Python number (a float, or an integer of
    the [int64] range) is accepted as a graph-level target, where it is
    converted to a [torch.float] scalar and multiplied by the one-hot
    vector, and refused with [AssertionError] as a node-level target. *)
Theorem python_number_target (data : gmap string Value) (key : string)
    (onehot : list bool) (v : Value) :
  data !! key = Some v ->
  (exists f, v = VFloat f) \/ (exists z, v = VInt z /\ in_int64 z = true) ->
  _update_node_value data key onehot = Raise AssertionError
  /\ exists x,
       torch_tensor_float v = Ok (FloatTensor Binary32 [] [x])
       /\ _update_graph_value data key onehot
          = Ok (<[onehot_name key :=
                    VTensor (FloatTensor Binary32 [1%nat; length onehot]
                               (map (fun b => float_mul Binary32 x (float_of_bool Binary32 b))
                                    onehot))]> data).
Proof.
  intros Hkey Hv. unfold _update_node_value, _update_graph_value, getattr_or_none.
  rewrite Hkey. change (default VNone (Some v)) with v.
  destruct Hv as [[f ->]|(z & -> & Hz)].
  - split; [reflexivity|].
    destruct (torch_tensor_float_number (VFloat f)) as (x & Hx & _); [left; eauto|].
    exists x. split; [exact Hx|].
    unfold graph_value. rewrite Hx. cbn. by rewrite app_nil_r.
  - split; [reflexivity|].
    destruct (torch_tensor_float_number (VInt z)) as (x & Hx & _).
    { right. exists z. split; [reflexivity | by apply f64_of_int_finite]. }
    exists x. split; [exact Hx|].
    unfold graph_value. rewrite Hx. cbn. by rewrite app_nil_r.
Qed.

Lemma python_number_target_example :
  _update_node_value (<["energy" := VInt 3]> ∅) "energy" [true; false]
  = Raise AssertionError
  /\ is_ok (_update_graph_value (<["energy" := VInt 3]> ∅) "energy" [true; false]) = true.
Proof.
  destruct (python_number_target (<["energy" := VInt 3]> ∅) "energy" [true; false] (VInt 3))
    as (Hnode & x & _ & Hgraph);
    [reflexivity | right; exists 3; split; reflexivity |].
  split; [exact Hnode|]. rewrite Hgraph. reflexivity.
Defined.

(** ** Node-level values *)

Lemma removelast_snoc {A : Type} (l : list A) (a : A) : removelast (l ++ [a]) = l.
Proof.
  induction l as [|x l IH]; [reflexivity|].
  simpl. destruct (l ++ [a]) eqn:Happ; [by destruct l|]. by rewrite IH.
Qed.

Lemma mul_onehot_shape (value : Tensor) (sh : list nat) (onehot : list bool) :
  tensor_shape value = sh ++ [1%nat] ->
  tensor_shape (mul_onehot value onehot) = sh ++ [length onehot].
Proof.
  intros Hsh. destruct value; simpl in *; rewrite Hsh; by rewrite removelast_snoc.
Qed.

Lemma rearrange_last_to_second_Ok (x : Tensor) (n t : nat) (rest : list nat) :
  tensor_shape x = n :: rest ++ [t] ->
  exists y, rearrange_last_to_second x = Ok y /\ tensor_shape y = n :: t :: rest.
Proof.
  intros Hsh. unfold rearrange_last_to_second. rewrite Hsh, last_snoc, removelast_snoc.
  eexists. split; [reflexivity|]. by destruct x.
Qed.

(** X16: the shape of a node-level one-hot target.  For a record whose
    attribute [key] is a tensor of shape [(n, ...)], [_update_node_value]
    stores under [<key>_onehot] a tensor of shape [(n, t, ...)], where [t]
    is the length of the one-hot vector: the one-hot axis comes second.
    A tensor without axes is refused with [EinopsError]. *)
Theorem node_value_shape (data : gmap string Value) (key : string)
    (onehot : list bool) (value : Tensor) :
  data !! key = Some (VTensor value) ->
  (tensor_shape value = [] -> _update_node_value data key onehot = Raise EinopsError)
  /\ (forall n rest, tensor_shape value = n :: rest ->
        exists v, _update_node_value data key onehot
                  = Ok (<[onehot_name key := VTensor v]> data)
          /\ tensor_shape v = n :: length onehot :: rest).
Proof.
  intros Hkey. unfold _update_node_value, getattr_or_none. rewrite Hkey.
  change (default VNone (Some (VTensor value))) with (VTensor value).
  unfold rearrange_append_1. split.
  - intros ->. reflexivity.
  - intros n rest Hsh. rewrite Hsh. cbn [mbind result_bind].
    assert (Hm : tensor_shape (mul_onehot (reshape value ((n :: rest) ++ [1%nat])) onehot)
                 = (n :: rest) ++ [length onehot]).
    { apply mul_onehot_shape. by destruct value. }
    rewrite Hm. destruct rest as [|m rest].
    + cbn [app length Nat.ltb Nat.leb mbind result_bind].
      eexists. split; [reflexivity | exact Hm].
    + replace (2 <? length ((n :: m :: rest) ++ [length onehot]))%nat with true
        by (symmetry; apply Nat.ltb_lt; rewrite length_app; simpl; lia).
      destruct (rearrange_last_to_second_Ok
                  (mul_onehot (reshape value ((n :: m :: rest) ++ [1%nat])) onehot)
                  n (length onehot) (m :: rest) Hm) as (y & Hy & Hysh).
      rewrite Hy. cbn [mbind result_bind]. exists y. done.
Qed.

Lemma node_value_shape_example :
  exists v,
    _update_node_value
      (<["forces" := VTensor (FloatTensor Binary32 [2%nat; 3%nat]
                                [f64_zero; f64_zero; f64_zero; f64_zero; f64_zero; f64_zero])]> ∅)
      "forces" [true; false]
    = Ok (<["forces_onehot" := VTensor v]>
            (<["forces" := VTensor (FloatTensor Binary32 [2%nat; 3%nat]
                                [f64_zero; f64_zero; f64_zero; f64_zero; f64_zero; f64_zero])]> ∅))
    /\ tensor_shape v = [2%nat; 2%nat; 3%nat].
Proof.
  destruct (node_value_shape
              (<["forces" := VTensor (FloatTensor Binary32 [2%nat; 3%nat]
                                [f64_zero; f64_zero; f64_zero; f64_zero; f64_zero; f64_zero])]> ∅)
              "forces" [true; false]
              (FloatTensor Binary32 [2%nat; 3%nat]
                 [f64_zero; f64_zero; f64_zero; f64_zero; f64_zero; f64_zero])
              (lookup_insert_eq _ _ _)) as [_ Hshape].
  destruct (Hshape 2%nat [3%nat] eq_refl) as (v & Hv & Hsh).
  exists v. split; [exact Hv | exact Hsh].
Defined.

Lemma flat_map_const_length {A B : Type} (g : A -> list B) (t : nat) (d : list A) :
  (forall v, length (g v) = t) -> length (flat_map g d) = (length d * t)%nat.
Proof.
  intros Hg. induction d as [|v d IH]; [reflexivity|].
  simpl. rewrite length_app, Hg, IH. reflexivity.
Qed.

Lemma flat_map_const_lookup {A B : Type} (g : A -> list B) (t : nat) (d : list A)
    (q j : nat) (x : A) (y : B) :
  (forall v, length (g v) = t) ->
  d !! q = Some x -> g x !! j = Some y ->
  flat_map g d !! (q * t + j)%nat = Some y.
Proof.
  intros Hg. revert q. induction d as [|v d IH]; intros q Hq Hy; [done|].
  destruct q as [|q]; simpl in Hq.
  - injection Hq as ->. simpl. apply lookup_app_l_Some. exact Hy.
  - cbn [flat_map]. rewrite lookup_app_r by (rewrite Hg; lia).
    rewrite Hg. replace (S q * t + j - t)%nat with (q * t + j)%nat by lia.
    by apply IH.
Qed.

Lemma layout_index (a j c t r : nat) :
  (j < t)%nat -> (c < r)%nat ->
  let k := ((a * t + j) * r + c)%nat in
  (k / (t * r) = a /\ k mod r = c /\ (k / r) mod t = j)%nat.
Proof.
  intros Hj Hc k. subst k.
  assert (H1 : (((a * t + j) * r + c) / r = a * t + j)%nat).
  { symmetry. apply (Nat.div_unique _ _ _ c); lia. }
  assert (H2 : ((j + 1) * r <= t * r)%nat) by (apply Nat.mul_le_mono_r; lia).
  split; [|split].
  - symmetry. apply (Nat.div_unique _ _ _ (j * r + c)); lia.
  - symmetry. apply (Nat.mod_unique _ _ (a * t + j)); lia.
  - rewrite H1. symmetry. apply (Nat.mod_unique _ _ a); lia.
Qed.

Lemma move_last_to_second_defined {A : Type} (t r n : nat) (l : list A) (k : nat) :
  length l = (n * r * t)%nat -> (k < length l)%nat ->
  is_Some (l !! ((k / (t * r)) * (r * t) + (k mod r) * t + (k / r) mod t)%nat).
Proof.
  intros Hlen Hk. apply lookup_lt_is_Some_2.
  assert (Ht : (0 < t)%nat) by lia. assert (Hr : (0 < r)%nat) by lia.
  assert (H1 : (k / (t * r) < n)%nat).
  { apply Nat.Div0.div_lt_upper_bound. rewrite Hlen in Hk. nia. }
  pose proof (Nat.mod_upper_bound k r ltac:(lia)) as H2.
  pose proof (Nat.mod_upper_bound (k / r) t ltac:(lia)) as H3.
  rewrite Hlen.
  set (qa := (k / (t * r))%nat) in *. set (qc := (k mod r)%nat) in *.
  set (qj := ((k / r) mod t)%nat) in *.
  assert (H4 : ((qa + 1) * (r * t) <= n * (r * t))%nat) by (apply Nat.mul_le_mono_r; lia).
  assert (H5 : ((qc + 1) * t <= r * t)%nat) by (apply Nat.mul_le_mono_r; lia).
  lia.
Qed.

Lemma move_last_to_second_length {A : Type} (t r n : nat) (l : list A) :
  length l = (n * r * t)%nat -> length (move_last_to_second t r l) = length l.
Proof.
  intros Hlen. unfold move_last_to_second. apply omap_seq_length.
  intros k Hk. apply (move_last_to_second_defined t r n); [done | lia].
Qed.

Lemma move_last_to_second_lookup {A : Type} (t r n : nat) (l : list A) (a j c : nat) :
  length l = (n * r * t)%nat ->
  (a < n)%nat -> (j < t)%nat -> (c < r)%nat ->
  move_last_to_second t r l !! ((a * t + j) * r + c)%nat = l !! ((a * r + c) * t + j)%nat.
Proof.
  intros Hlen Ha Hj Hc. unfold move_last_to_second.
  rewrite omap_seq_lookup.
  - cbn [Nat.add]. destruct (layout_index a j c t r Hj Hc) as (-> & -> & ->).
    f_equal. lia.
  - intros k Hk. apply (move_last_to_second_defined t r n); [done | lia].
  - rewrite Hlen.
    assert (H1 : ((a + 1) * (t * r) <= n * (t * r))%nat) by (apply Nat.mul_le_mono_r; lia).
    assert (H2 : ((j + 1) * r <= t * r)%nat) by (apply Nat.mul_le_mono_r; lia).
    lia.
Qed.

Lemma rearrange_last_to_second_float (fmt : FloatFormat) (n t : nat) (rest : list nat)
    (d : list spec_float) :
  rearrange_last_to_second (FloatTensor fmt (n :: rest ++ [t]) d)
  = Ok (FloatTensor fmt (n :: t :: rest)
          (move_last_to_second t (foldr Nat.mul 1%nat rest) d)).
Proof.
  unfold rearrange_last_to_second. cbn [tensor_shape].
  rewrite last_snoc, removelast_snoc. reflexivity.
Qed.

(** X17: the entries of a node-level one-hot target.  For a record whose
    attribute [key] is a float tensor of shape [(n, ...)] holding [r]
    values per node, the tensor stored under [<key>_onehot] has shape
    [(n, t, ...)] and, for every node [a], every task slot [j] and every
    position [c] among the [r] values of the node, its entry at
    [(a, j, c)] is the entry [(a, c)] of the original tensor multiplied by
    the [j]-th entry of the one-hot vector. *)
Theorem node_level_onehot_entries (data : gmap string Value) (key : string)
    (onehot : list bool) (fmt : FloatFormat) (n : nat) (rest : list nat)
    (d : list spec_float) :
  data !! key = Some (VTensor (FloatTensor fmt (n :: rest) d)) ->
  length d = (n * foldr Nat.mul 1%nat rest)%nat ->
  exists slots,
    _update_node_value data key onehot
    = Ok (<[onehot_name key := VTensor (FloatTensor fmt (n :: length onehot :: rest) slots)]>
            data)
    /\ length slots = (n * length onehot * foldr Nat.mul 1%nat rest)%nat
    /\ forall a j c x b,
         (c < foldr Nat.mul 1%nat rest)%nat ->
         d !! (a * foldr Nat.mul 1%nat rest + c)%nat = Some x ->
         onehot !! j = Some b ->
         slots !! ((a * length onehot + j) * foldr Nat.mul 1%nat rest + c)%nat
         = Some (float_mul fmt x (float_of_bool fmt b)).
Proof.
  intros Hkey Hlen. set (r := foldr Nat.mul 1%nat rest) in *.
  set (t := length onehot).
  set (g := fun v : spec_float => map (fun b => float_mul fmt v (float_of_bool fmt b)) onehot).
  assert (Hg : forall v, length (g v) = t) by (intros v; unfold g; by rewrite length_map).
  assert (HD : length (flat_map g d) = (n * r * t)%nat).
  { rewrite (flat_map_const_length g t) by done. rewrite Hlen. reflexivity. }
  assert (Hentry : forall a j c x b, (c < r)%nat -> d !! (a * r + c)%nat = Some x ->
            onehot !! j = Some b ->
            flat_map g d !! ((a * r + c) * t + j)%nat
            = Some (float_mul fmt x (float_of_bool fmt b))).
  { intros a j c x b Hc Hx Hb. apply (flat_map_const_lookup g t d _ j x); [done | done |].
    unfold g. by rewrite list_lookup_fmap, Hb. }
  assert (Hbound : forall a c x, (c < r)%nat -> d !! (a * r + c)%nat = Some x -> (a < n)%nat).
  { intros a c x Hc Hx. apply lookup_lt_Some in Hx. rewrite Hlen in Hx. nia. }
  unfold _update_node_value, getattr_or_none. rewrite Hkey.
  change (default VNone (Some (VTensor (FloatTensor fmt (n :: rest) d))))
    with (VTensor (FloatTensor fmt (n :: rest) d)).
  unfold rearrange_append_1. cbn [tensor_shape mbind result_bind reshape].
  change (mul_onehot (FloatTensor fmt ((n :: rest) ++ [1%nat]) d) onehot)
    with (FloatTensor fmt (removelast ((n :: rest) ++ [1%nat]) ++ [t]) (flat_map g d)).
  rewrite removelast_snoc. cbn [tensor_shape].
  destruct rest as [|m rest].
  - cbn [app length Nat.ltb Nat.leb mbind result_bind].
    exists (flat_map g d). split; [reflexivity|].
    split; [rewrite HD; lia|].
    intros a j c x b Hc Hx Hb. change (foldr Nat.mul 1%nat []) with 1%nat in *.
    fold r in Hc, Hx. assert (c = 0)%nat as -> by (unfold r in Hc; simpl in Hc; lia).
    rewrite <- (Hentry a j 0%nat x b); [f_equal; unfold r; simpl; lia | done | done | done].
  - replace (2 <? length ((n :: m :: rest) ++ [t]))%nat with true
      by (symmetry; apply Nat.ltb_lt; rewrite length_app; simpl; lia).
    change ((n :: m :: rest) ++ [t]) with (n :: (m :: rest) ++ [t]).
    rewrite rearrange_last_to_second_float. cbn [mbind result_bind]. fold r.
    exists (move_last_to_second t r (flat_map g d)). split; [reflexivity|]. split.
    + rewrite (move_last_to_second_length t r n) by done. rewrite HD. lia.
    + intros a j c x b Hc Hx Hb.
      rewrite (move_last_to_second_lookup t r n); [by apply (Hentry a j c x b) | done | | | done].
      * by apply (Hbound a c x).
      * by apply lookup_lt_Some in Hb.
Qed.

Lemma node_level_onehot_entries_example :
  exists slots,
    _update_node_value
      (<["forces" := VTensor (FloatTensor Binary32 [2%nat; 2%nat]
                                [float_of_Z Binary32 1; float_of_Z Binary32 2;
                                 float_of_Z Binary32 3; float_of_Z Binary32 4])]> ∅)
      "forces" [false; true; false]
    = Ok (<["forces_onehot" := VTensor (FloatTensor Binary32 [2%nat; 3%nat; 2%nat] slots)]>
            (<["forces" := VTensor (FloatTensor Binary32 [2%nat; 2%nat]
                                [float_of_Z Binary32 1; float_of_Z Binary32 2;
                                 float_of_Z Binary32 3; float_of_Z Binary32 4])]> ∅))
    /\ slots !! 9%nat = Some (float_of_Z Binary32 4)
    /\ slots !! 11%nat = Some (S754_zero false).
Proof.
  destruct (node_level_onehot_entries
              (<["forces" := VTensor (FloatTensor Binary32 [2%nat; 2%nat]
                                [float_of_Z Binary32 1; float_of_Z Binary32 2;
                                 float_of_Z Binary32 3; float_of_Z Binary32 4])]> ∅)
              "forces" [false; true; false] Binary32 2%nat [2%nat]
              [float_of_Z Binary32 1; float_of_Z Binary32 2;
               float_of_Z Binary32 3; float_of_Z Binary32 4]
              (lookup_insert_eq _ _ _) eq_refl) as (slots & Hrun & _ & Hentry).
  exists slots. split; [exact Hrun|]. split.
  - transitivity (Some (float_mul Binary32 (float_of_Z Binary32 4)
                                (float_of_bool Binary32 true))); [|vm_compute; reflexivity].
    apply (Hentry 1%nat 1%nat 1%nat (float_of_Z Binary32 4) true);
      [simpl; lia | reflexivity | reflexivity].
  - transitivity (Some (float_mul Binary32 (float_of_Z Binary32 4)
                                (float_of_bool Binary32 false))); [|vm_compute; reflexivity].
    apply (Hentry 1%nat 2%nat 1%nat (float_of_Z Binary32 4) false);
      [simpl; lia | reflexivity | reflexivity].
Defined.

(** * Further properties of the composition *)

(** ** Lists of results *)

Lemma map_result_Forall2 {A B : Type} (f : A -> result B) (xs : list A) (ys : list B) :
  map_result f xs = Ok ys -> Forall2 (fun x y => f x = Ok y) xs ys.
Proof.
  revert ys; induction xs as [|x xs IH]; intros ys; simpl.
  - intros [= <-]. constructor.
  - intros Hb. apply bind_Ok_inv in Hb as (y & Hy & Hb).
    apply bind_Ok_inv in Hb as (ys' & Hys & [= <-]). constructor; auto.
Qed.

Lemma map_result_length {A B : Type} (f : A -> result B) (xs : list A) (ys : list B) :
  map_result f xs = Ok ys -> length ys = length xs.
Proof. intros Hm. symmetry. by eapply Forall2_length, map_result_Forall2. Qed.

Lemma map_result_Raise {A B : Type} (f : A -> result B) (pre post : list A) (x : A)
    (e : PyErr) :
  Forall (fun y => is_ok (f y) = true) pre -> f x = Raise e ->
  map_result f (pre ++ x :: post) = Raise e.
Proof.
  intros Hpre Hx. induction Hpre as [|y pre Hy _ IH]; simpl.
  - by rewrite Hx.
  - destruct (f y); [|discriminate]. simpl. by rewrite IH.
Qed.

(** ** Sums and running totals *)

Lemma py_sum_int_acc (l : list Z) (a : Z) : fold_left Z.add l a = a + py_sum_int l.
Proof.
  unfold py_sum_int. revert a. induction l as [|x l IH]; intros a; simpl; [lia|].
  rewrite (IH (a + x)), (IH (0 + x)). lia.
Qed.

Lemma py_sum_int_cons (x : Z) (l : list Z) : py_sum_int (x :: l) = x + py_sum_int l.
Proof. unfold py_sum_int at 1. simpl. apply py_sum_int_acc. Qed.

Lemma py_sum_int_nonneg (l : list Z) : Forall (fun s => 0 <= s) l -> 0 <= py_sum_int l.
Proof.
  induction 1 as [|x l Hx _ IH]; [done|]. rewrite py_sum_int_cons. lia.
Qed.

Lemma py_sum_int_take_le (l : list Z) (k : nat) :
  Forall (fun s => 0 <= s) l -> py_sum_int (take k l) <= py_sum_int l.
Proof.
  intros Hl. revert k. induction Hl as [|x l Hx Hl IH]; intros [|k]; simpl; try done.
  - rewrite py_sum_int_cons. pose proof (py_sum_int_nonneg l Hl). unfold py_sum_int at 1.
    simpl. lia.
  - rewrite !py_sum_int_cons. specialize (IH k). lia.
Qed.

Lemma py_sum_int_le (xs ys : list Z) :
  Forall2 (fun x y => x <= y) xs ys -> py_sum_int xs <= py_sum_int ys.
Proof.
  induction 1 as [|x y xs ys Hxy _ IH]; [done|]. rewrite !py_sum_int_cons. lia.
Qed.

Lemma cumsum_from (s acc : Z) (l : list Z) :
  (fix go (acc : Z) (l : list Z) : list Z :=
     match l with
     | [] => []
     | s :: l' => (acc + s) :: go (acc + s) l'
     end) (s + acc) l
  = map (Z.add s)
      ((fix go (acc : Z) (l : list Z) : list Z :=
          match l with
          | [] => []
          | s :: l' => (acc + s) :: go (acc + s) l'
          end) acc l).
Proof.
  revert acc. induction l as [|x l IH]; intros acc; [reflexivity|].
  cbn [map]. f_equal; [lia|]. rewrite <- IH. f_equal. lia.
Qed.

Lemma cumsum_cons (s : Z) (l : list Z) : cumsum (s :: l) = s :: map (Z.add s) (cumsum l).
Proof.
  unfold cumsum. rewrite <- cumsum_from. rewrite Z.add_0_r. reflexivity.
Qed.

Lemma cumsum_length (l : list Z) : length (cumsum l) = length l.
Proof.
  induction l as [|s l IH]; [reflexivity|]. rewrite cumsum_cons. simpl.
  by rewrite length_map, IH.
Qed.

Lemma cumsum_lookup (l : list Z) (k : nat) :
  (k < length l)%nat -> cumsum l !! k = Some (py_sum_int (take (S k) l)).
Proof.
  revert k. induction l as [|s l IH]; intros k Hk; simpl in Hk; [lia|].
  rewrite cumsum_cons. destruct k as [|k].
  - simpl. f_equal.
  - change ((s :: map (Z.add s) (cumsum l)) !! S k) with (map (Z.add s) (cumsum l) !! k).
    rewrite list_lookup_fmap, IH by lia. simpl. f_equal.
    change (take (S (S k)) (s :: l)) with (s :: take (S k) l).
    by rewrite py_sum_int_cons.
Qed.

Lemma last_cumsum (l : list Z) : l <> [] -> last (cumsum l) = Some (py_sum_int l).
Proof.
  intros Hne. rewrite last_lookup, cumsum_length.
  destruct l as [|s l]; [done|]. simpl length. simpl pred.
  rewrite cumsum_lookup by (simpl; lia). f_equal. f_equal.
  change (S (length l)) with (length (s :: l)). apply firstn_all.
Qed.

Lemma bisect_right_shift (a : list Z) (s x : Z) :
  bisect_right (map (Z.add s) a) x = bisect_right a (x - s).
Proof.
  induction a as [|y a IH]; [reflexivity|]. simpl. rewrite IH.
  destruct (Z.leb_spec (s + y) x), (Z.leb_spec y (x - s)); try reflexivity; lia.
Qed.

Lemma bisect_right_cumsum (l : list Z) (k : nat) (n x : Z) :
  Forall (fun s => 0 <= s) l -> l !! k = Some n ->
  py_sum_int (take k l) <= x < py_sum_int (take k l) + n ->
  bisect_right (cumsum l) x = k.
Proof.
  intros Hl. revert k x. induction Hl as [|s l Hs Hl IH]; intros k x Hk Hx; [done|].
  rewrite cumsum_cons. destruct k as [|k]; simpl in Hk.
  - injection Hk as ->. simpl in Hx. unfold py_sum_int in Hx. simpl in Hx. simpl.
    destruct (Z.leb_spec n x); [lia | reflexivity].
  - change (take (S k) (s :: l)) with (s :: take k l) in Hx.
    rewrite py_sum_int_cons in Hx.
    pose proof (py_sum_int_nonneg (take k l) ltac:(by apply Forall_take)) as Hpos.
    simpl. destruct (Z.leb_spec s x); [|lia].
    rewrite bisect_right_shift. f_equal. apply IH; [done | lia].
Qed.

(** ** Concatenation *)

Lemma make_ConcatDataset_inv (ds : list Dataset) (c : ConcatDataset) :
  make_ConcatDataset ds = Ok c ->
  ds <> [] /\ datasets c = ds
  /\ exists sizes, map_result len ds = Ok sizes /\ cumulative_sizes c = cumsum sizes.
Proof.
  unfold make_ConcatDataset. destruct ds as [|d ds]; [discriminate|].
  intros Hb. apply bind_Ok_inv in Hb as (sizes & Hsizes & [= <-]).
  split; [done|]. split; [reflexivity|]. by exists sizes.
Qed.

Lemma len___len__ (d : Dataset) (l : Z) : len d = Ok l -> __len__ d = Ok l.
Proof.
  unfold len. intros Hb. apply bind_Ok_inv in Hb as (l' & Hl' & Hl).
  apply builtin_len_inv in Hl as [-> _]. exact Hl'.
Qed.

Lemma map_result_len___len__ (ds : list Dataset) (sizes : list Z) :
  map_result len ds = Ok sizes -> map_result __len__ ds = Ok sizes.
Proof.
  revert sizes. induction ds as [|d ds IH]; intros sizes Hm; [exact Hm|].
  cbn [map_result] in *.
  apply bind_Ok_inv in Hm as (l & Hl & Hm).
  apply bind_Ok_inv in Hm as (ls & Hls & [= <-]).
  rewrite (len___len__ d l Hl), (IH ls Hls). reflexivity.
Qed.

Lemma map_result_len_nonneg (ds : list Dataset) (sizes : list Z) :
  map_result len ds = Ok sizes -> Forall (fun s => 0 <= s) sizes.
Proof.
  intros Hm. apply map_result_Forall2 in Hm.
  induction Hm as [|d s ds sizes Hd _ IH]; constructor; [|done].
  by apply (len_nonneg d).
Qed.

Lemma concat_len_sum (c : ConcatDataset) (sizes : list Z) :
  sizes <> [] -> cumulative_sizes c = cumsum sizes -> concat_len c = py_sum_int sizes.
Proof. intros Hne Hc. unfold concat_len. by rewrite Hc, last_cumsum. Qed.

Lemma concat_getitem_at (c : ConcatDataset) (sizes : list Z) (k : nat) (e : Dataset)
    (n j : Z) :
  cumulative_sizes c = cumsum sizes -> Forall (fun s => 0 <= s) sizes ->
  sizes !! k = Some n -> datasets c !! k = Some e -> 0 <= j < n ->
  0 <= py_sum_int (take k sizes) + j < concat_len c
  /\ concat_getitem c (py_sum_int (take k sizes) + j) = __getitem__ e j.
Proof.
  intros Hc Hsizes Hk He Hj.
  pose proof (py_sum_int_nonneg (take k sizes) ltac:(by apply Forall_take)) as Hoff.
  assert (Hne : sizes <> []) by (intros ->; done).
  assert (Hlen : concat_len c = py_sum_int sizes) by by apply concat_len_sum.
  assert (Hnext : py_sum_int (take (S k) sizes) = py_sum_int (take k sizes) + n).
  { rewrite (take_S_r _ _ _ Hk). unfold py_sum_int. rewrite fold_left_app. simpl.
    reflexivity. }
  pose proof (py_sum_int_take_le sizes (S k) Hsizes) as Hle.
  split; [lia|].
  unfold concat_getitem.
  destruct (Z.ltb_spec (py_sum_int (take k sizes) + j) 0); [lia|].
  cbn [andb]. rewrite Hc.
  rewrite (bisect_right_cumsum sizes k n) by (done || lia). rewrite He.
  destruct k as [|k].
  - unfold py_sum_int. simpl. reflexivity.
  - rewrite cumsum_lookup by (apply lookup_lt_Some in Hk; lia). simpl.
    f_equal. lia.
Qed.

Lemma concat_getitem_member (c : ConcatDataset) (idx : Z) (item : PyObj) :
  concat_getitem c idx = Ok item ->
  exists d j, d ∈ datasets c /\ __getitem__ d j = Ok item.
Proof.
  unfold concat_getitem. destruct ((idx <? 0) && (concat_len c <? - idx)); [discriminate|].
  destruct (datasets c !! _) as [d|] eqn:Hd; [|discriminate].
  intros Hget. eexists d, _. split; [by eapply list_elem_of_lookup_2 | exact Hget].
Qed.

(** ** The counts have the length of the sizes *)

Lemma _merged_dataset_entries (sizes : list Z) (ratios : list spec_float) (counts : list Z) :
  length ratios = length sizes ->
  _merged_dataset sizes ratios = Ok counts ->
  length counts = length sizes
  /\ exists m1 m2, forall i s r,
       sizes !! i = Some s -> ratios !! i = Some r ->
       counts !! i
       = Some (astype_int (np_ceil (f64_mul (f64_of_int s)
                 (f64_div (f64_div (f64_div (f64_mul (target_size sizes ratios) r)
                                            (f64_of_int s)) m1) m2)))).
Proof.
  intros Hlen Hm. destruct (decide (sizes = [])) as [->|Hne].
  { destruct ratios; [discriminate Hm | discriminate Hlen]. }
  rewrite _merged_dataset_nonempty in Hm by done.
  unfold raw_expansion_factors in Hm.
  rewrite broadcast2_same_length in Hm by (by rewrite !length_map).
  cbn [mbind result_bind] in Hm. unfold divide_by_min at 1 in Hm.
  apply bind_Ok_inv in Hm as (f1 & Hf1 & Hm).
  apply bind_Ok_inv in Hf1 as (m1 & _ & [= <-]).
  unfold samples_per_dataset, divide_by_min in Hm.
  apply bind_Ok_inv in Hm as (f2 & Hf2 & Hm).
  apply bind_Ok_inv in Hf2 as (m2 & _ & [= <-]).
  rewrite broadcast2_same_length in Hm
    by (rewrite !length_map, length_zip_with, !length_map; lia).
  injection Hm as <-. split.
  - unfold ceil_to_int. rewrite !length_map, length_zip_with, !length_map,
      length_zip_with, !length_map. lia.
  - exists m1, m2. intros i s r Hs Hr. unfold ceil_to_int.
    rewrite list_lookup_fmap, lookup_zip_with, !list_lookup_fmap, lookup_zip_with,
      !list_lookup_fmap, Hs, Hr.
    reflexivity.
Qed.

(** ** What a successful composition holds *)

Lemma expand_dataset_inv (d e : Dataset) (n l : Z) :
  len d = Ok l -> expand_dataset d n = Ok e -> l <= n /\ e = _ExpandedDataset n l d.
Proof.
  intros Hl. unfold expand_dataset. destruct (negb (is_sized d)); [discriminate|].
  rewrite Hl. simpl. destruct (Z.ltb_spec n l); [discriminate|].
  intros [= <-]. split; [lia | reflexivity].
Qed.

Lemma expand_zip_inv (ds : list Dataset) (sizes counts : list Z) (expanded : list Dataset) :
  Forall2 (fun d s => is_sized d = true /\ len d = Ok s) ds sizes ->
  length counts = length ds ->
  map_result (fun dn => expand_dataset (fst dn) (snd dn)) (zip ds counts) = Ok expanded ->
  Forall2 (fun s n => s <= n) sizes counts
  /\ map_result __len__ expanded = Ok counts
  /\ length expanded = length ds
  /\ forall k d s n, ds !! k = Some d -> sizes !! k = Some s -> counts !! k = Some n ->
       expanded !! k = Some (_ExpandedDataset n s d).
Proof.
  intros Hds. revert counts expanded.
  induction Hds as [|d s ds sizes [Hsz Hl] _ IH]; intros [|n counts] expanded Hlen Hm;
    try discriminate.
  - injection Hm as <-. split; [constructor|]. split; [reflexivity|].
    split; [reflexivity|]. intros k d s n Hk. by rewrite lookup_nil in Hk.
  - cbn [zip zip_with map_result fst snd] in Hm.
    apply bind_Ok_inv in Hm as (e & He & Hm).
    apply bind_Ok_inv in Hm as (es & Hes & [= <-]).
    apply (expand_dataset_inv d e n s Hl) in He as [Hle ->].
    injection Hlen as Hlen.
    destruct (IH counts es Hlen Hes) as (Hall & Hlens & Hlength & Hlook).
    split; [by constructor|]. split.
    + cbn [map_result __len__ mbind result_bind]. by rewrite Hlens.
    + split; [simpl; by rewrite Hlength|].
      intros [|k] d' s' n' Hd' Hs' Hn'; simpl in *.
      * by injection Hd' as <-; injection Hs' as <-; injection Hn' as <-.
      * by apply Hlook.
Qed.

Lemma sampling_ratios_length `{Collaborators} (sampling : SamplingConfig)
    (sizes : list Z) (ratios : list spec_float) :
  sampling_ratios sampling sizes = Ok ratios -> length ratios = length sizes.
Proof.
  destruct sampling as [|temperature|]; simpl.
  - intros [= <-]. by rewrite length_map.
  - apply map_result_length.
  - discriminate.
Qed.

Lemma sized_lengths_inv (ds : list Dataset) (sizes : list Z) :
  map_result (fun d => if negb (is_sized d) then Raise TypeError else len d) ds = Ok sizes ->
  Forall2 (fun d s => is_sized d = true /\ len d = Ok s) ds sizes.
Proof.
  intros Hm. apply map_result_Forall2 in Hm.
  eapply Forall2_impl; [exact Hm|]. intros d s. simpl.
  destruct (is_sized d); [done | discriminate].
Qed.

Lemma _combine_datasets_inv `{Collaborators} (sampling : SamplingConfig)
    (ds : list Dataset) (c : ConcatDataset) :
  _combine_datasets sampling ds = Ok c ->
  exists sizes ratios counts,
    Forall2 (fun d s => is_sized d = true /\ len d = Ok s) ds sizes
    /\ length ratios = length sizes
    /\ _merged_dataset sizes ratios = Ok counts
    /\ length counts = length ds
    /\ Forall2 (fun s n => s <= n) sizes counts
    /\ counts <> []
    /\ cumulative_sizes c = cumsum counts
    /\ map_result len (datasets c) = Ok counts
    /\ length (datasets c) = length ds
    /\ forall k d s n, ds !! k = Some d -> sizes !! k = Some s -> counts !! k = Some n ->
         datasets c !! k = Some (_ExpandedDataset n s d).
Proof.
  unfold _combine_datasets. intros Hb.
  apply bind_Ok_inv in Hb as (sizes & Hsizes & Hb).
  apply bind_Ok_inv in Hb as (ratios0 & Hr0 & Hb).
  apply bind_Ok_inv in Hb as (ratios & Hr & Hb).
  apply bind_Ok_inv in Hb as (counts & Hcounts & Hb).
  apply bind_Ok_inv in Hb as (expanded & Hexp & Hb).
  apply bind_Ok_inv in Hb as (c' & Hb & Hlog).
  apply bind_Ok_inv in Hlog as (total & _ & [= ->]).
  apply sized_lengths_inv in Hsizes.
  apply sampling_ratios_length in Hr0. apply map_result_length in Hr.
  assert (Hlenr : length ratios = length sizes) by lia.
  destruct (_merged_dataset_entries sizes ratios counts Hlenr Hcounts) as [Hlenc _].
  pose proof (Forall2_length _ _ _ Hsizes) as Hlens.
  destruct (expand_zip_inv ds sizes counts expanded Hsizes ltac:(lia) Hexp)
    as (Hall & Hlens' & Hlength & Hlook).
  apply make_ConcatDataset_inv in Hb as (Hne & Hd & sizes' & Hsizes' & Hcum).
  pose proof (map_result_len___len__ _ _ Hsizes') as Hsizes''.
  rewrite Hlens' in Hsizes''. injection Hsizes'' as <-.
  exists sizes, ratios, counts. rewrite Hd.
  split; [done|]. split; [done|]. split; [done|]. split; [lia|]. split; [done|].
  split; [|done].
  intros ->. destruct expanded; [done|]. simpl in Hlength.
  destruct ds; [discriminate|]. simpl in Hlens. destruct sizes; discriminate.
Qed.

Lemma sized_lengths_len (ds : list Dataset) (sizes : list Z) :
  Forall2 (fun d s => is_sized d = true /\ len d = Ok s) ds sizes ->
  map_result len ds = Ok sizes.
Proof.
  induction 1 as [|d s ds sizes [_ Hl] _ IH]; [reflexivity|].
  simpl. rewrite Hl. simpl. by rewrite IH.
Qed.

(** X18: what a successful composition holds.  When [_combine_datasets]
    returns a combined dataset for the list [ds], the list is not empty
    and the combined dataset holds, in the order of [ds], one expansion of
    each dataset [d] of [ds] to some [n >= len(d)]; its length is the sum
    of these [n], which is at least the sum of the lengths of [ds]. *)
Theorem combined_dataset_structure `{Collaborators} (sampling : SamplingConfig)
    (ds : list Dataset) (c : ConcatDataset) :
  _combine_datasets sampling ds = Ok c ->
  ds <> []
  /\ length (datasets c) = length ds
  /\ (forall k d, ds !! k = Some d ->
        exists n l, is_sized d = true /\ len d = Ok l /\ l <= n
          /\ datasets c !! k = Some (_ExpandedDataset n l d))
  /\ exists sizes counts,
       map_result len ds = Ok sizes
       /\ map_result len (datasets c) = Ok counts
       /\ Forall2 (fun s n => s <= n) sizes counts
       /\ concat_len c = py_sum_int counts
       /\ py_sum_int sizes <= concat_len c.
Proof.
  intros Hc.
  destruct (_combine_datasets_inv sampling ds c Hc)
    as (sizes & ratios & counts & Hsizes & _ & _ & Hlenc & Hall & Hne & Hcum & Hlens'
        & Hlen & Hlook).
  split; [intros ->; destruct counts; [done | discriminate]|].
  split; [exact Hlen|]. split.
  - intros k d Hd.
    destruct (Forall2_lookup_l _ _ _ _ _ Hsizes Hd) as (s & Hs & Hsz & Hl).
    destruct (Forall2_lookup_l _ _ _ _ _ Hall Hs) as (n & Hn & Hle).
    exists n, s. split; [done|]. split; [done|]. split; [done|]. by apply (Hlook k d s n).
  - exists sizes, counts.
    assert (Hsum : concat_len c = py_sum_int counts) by by apply concat_len_sum.
    split; [by apply sized_lengths_len|]. split; [done|]. split; [done|]. split; [done|].
    rewrite Hsum. by apply py_sum_int_le.
Qed.

Lemma combined_dataset_structure_example :
  exists c,
    _combine_datasets FullyBalancedSamplingConfig
      [list_dataset (replicate 10 (energy_item (VInt 1))) None;
       list_dataset (replicate 100 (energy_item (VInt 2))) None] = Ok c
    /\ length (datasets c) = 2%nat
    /\ 110 <= concat_len c.
Proof.
  assert (Hrun : { c | _combine_datasets FullyBalancedSamplingConfig
                         [list_dataset (replicate 10 (energy_item (VInt 1))) None;
                          list_dataset (replicate 100 (energy_item (VInt 2))) None]
                       = Ok c }).
  { eexists. vm_compute. reflexivity. }
  destruct Hrun as [c Hrun]. exists c. split; [exact Hrun|].
  destruct (@combined_dataset_structure reference_collaborators _ _ c Hrun)
    as (_ & Hlen & _ & sizes & counts & Hsizes & _ & _ & _ & Hsum).
  split; [exact Hlen|].
  vm_compute in Hsizes. injection Hsizes as <-. exact Hsum.
Defined.

Lemma sum_position (counts : list Z) (idx : Z) :
  Forall (fun s => 0 <= s) counts -> 0 <= idx < py_sum_int counts ->
  exists k n, counts !! k = Some n
    /\ py_sum_int (take k counts) <= idx < py_sum_int (take k counts) + n.
Proof.
  intros Hc. revert idx. induction Hc as [|s l Hs _ IH]; intros idx Hidx.
  - unfold py_sum_int in Hidx. simpl in Hidx. lia.
  - rewrite py_sum_int_cons in Hidx. destruct (decide (idx < s)) as [Hlt|Hge].
    + exists 0%nat, s. split; [reflexivity|]. unfold py_sum_int. simpl. lia.
    + destruct (IH (idx - s) ltac:(lia)) as (k & n & Hk & Hr).
      exists (S k), n. split; [exact Hk|].
      change (take (S k) (s :: l)) with (s :: take k l). rewrite py_sum_int_cons. lia.
Qed.

(** X19: where the items of a combined dataset come from.  When
    [_combine_datasets] returns a combined dataset for [ds], the dataset
    [d] at position [k] of [ds], of length [l], occupies the [n] positions
    that follow those of the datasets before it, where [n >= l] is the
    length of its expansion: item access at the [i]-th of these positions
    is the evaluation of [d[i % l]].  Every index within the length of the
    combined dataset is one of these positions. *)
Theorem combined_dataset_items `{Collaborators} (sampling : SamplingConfig)
    (ds : list Dataset) (c : ConcatDataset) :
  _combine_datasets sampling ds = Ok c ->
  exists counts,
    map_result len (datasets c) = Ok counts
    /\ length counts = length ds
    /\ (forall k d l n i,
         ds !! k = Some d -> len d = Ok l -> counts !! k = Some n -> 0 <= i < n ->
         l <= n
         /\ 0 <= py_sum_int (take k counts) + i < concat_len c
         /\ concat_getitem c (py_sum_int (take k counts) + i)
            = (j ← py_mod i l; __getitem__ d j))
    /\ forall idx, 0 <= idx < concat_len c ->
         exists k d n i,
           ds !! k = Some d /\ counts !! k = Some n /\ 0 <= i < n
           /\ idx = py_sum_int (take k counts) + i.
Proof.
  intros Hc.
  destruct (_combine_datasets_inv sampling ds c Hc)
    as (sizes & ratios & counts & Hsizes & _ & _ & Hlenc & Hall & Hne & Hcum & Hlens
        & Hlen & Hlook).
  pose proof (map_result_len_nonneg _ _ Hlens) as Hnn.
  exists counts. split; [done|]. split; [done|]. split.
  - intros k d l n i Hd Hl Hn Hi.
    destruct (Forall2_lookup_l _ _ _ _ _ Hsizes Hd) as (s & Hs & Hsz & Hl').
    rewrite Hl in Hl'. injection Hl' as <-.
    destruct (Forall2_lookup_l _ _ _ _ _ Hall Hs) as (n' & Hn' & Hle).
    rewrite Hn in Hn'. injection Hn' as <-.
    destruct (concat_getitem_at c counts k (_ExpandedDataset n l d) n i Hcum Hnn Hn
                (Hlook k d l n Hd Hs Hn) Hi) as [Hrange Hget].
    split; [done|]. split; [done|]. rewrite Hget. simpl. by rewrite in_range_guard.
  - intros idx Hidx. rewrite (concat_len_sum c counts Hne Hcum) in Hidx.
    destruct (sum_position counts idx Hnn Hidx) as (k & n & Hn & Hr).
    destruct (lookup_lt_is_Some_2 ds k) as [d Hd];
      [rewrite <- Hlenc; by eapply lookup_lt_Some|].
    exists k, d, n, (idx - py_sum_int (take k counts)).
    split; [done|]. split; [done|]. split; lia.
Qed.

Lemma combined_dataset_items_example :
  exists c,
    _combine_datasets FullyBalancedSamplingConfig
      [list_dataset (replicate 10 (energy_item (VInt 1))) None;
       list_dataset (replicate 100 (energy_item (VInt 2))) None] = Ok c
    /\ concat_getitem c 105 = Ok (energy_item (VInt 2)).
Proof.
  exists {| datasets :=
              [_ExpandedDataset 100 10 (list_dataset (replicate 10 (energy_item (VInt 1))) None);
               _ExpandedDataset 100 100
                 (list_dataset (replicate 100 (energy_item (VInt 2))) None)];
            cumulative_sizes := [100; 200] |}.
  assert (Hrun : _combine_datasets FullyBalancedSamplingConfig
                   [list_dataset (replicate 10 (energy_item (VInt 1))) None;
                    list_dataset (replicate 100 (energy_item (VInt 2))) None]
                 = Ok {| datasets :=
                           [_ExpandedDataset 100 10
                              (list_dataset (replicate 10 (energy_item (VInt 1))) None);
                            _ExpandedDataset 100 100
                              (list_dataset (replicate 100 (energy_item (VInt 2))) None)];
                         cumulative_sizes := [100; 200] |})
    by (vm_compute; reflexivity).
  split; [exact Hrun|].
  destruct (@combined_dataset_items reference_collaborators _ _ _ Hrun)
    as (counts & Hlens & _ & Hitems & _).
  vm_compute in Hlens. injection Hlens as <-.
  destruct (Hitems 1%nat (list_dataset (replicate 100 (energy_item (VInt 2))) None)
              100 100 5 eq_refl eq_refl eq_refl ltac:(lia)) as (_ & _ & Hget).
  change 105 with (py_sum_int (take 1 [100; 100]) + 5). rewrite Hget.
  vm_compute. reflexivity.
Defined.

(** X20: a composition loses no item.  When [_combine_datasets] returns
    a combined dataset for [ds], every item of every dataset of [ds] is
    served by the combined dataset: for the dataset [d] at any position of
    [ds] and every index [j] of [[0, len(d))], some index [i] of the
    combined dataset, within its length, reads [d[j]]. *)
Theorem combined_dataset_covers `{Collaborators} (sampling : SamplingConfig)
    (ds : list Dataset) (c : ConcatDataset) (k : nat) (d : Dataset) (l j : Z) :
  _combine_datasets sampling ds = Ok c ->
  ds !! k = Some d -> len d = Ok l -> 0 <= j < l ->
  exists i, 0 <= i < concat_len c /\ concat_getitem c i = __getitem__ d j.
Proof.
  intros Hc Hd Hl Hj.
  destruct (_combine_datasets_inv sampling ds c Hc)
    as (sizes & ratios & counts & Hsizes & _ & _ & Hlenc & Hall & Hne & Hcum & Hlens
        & Hlen & Hlook).
  pose proof (map_result_len_nonneg _ _ Hlens) as Hnn.
  destruct (Forall2_lookup_l _ _ _ _ _ Hsizes Hd) as (s & Hs & Hsz & Hl').
  rewrite Hl in Hl'. injection Hl' as <-.
  destruct (Forall2_lookup_l _ _ _ _ _ Hall Hs) as (n & Hn & Hle).
  destruct (concat_getitem_at c counts k (_ExpandedDataset n l d) n j Hcum Hnn Hn
              (Hlook k d l n Hd Hs Hn) ltac:(lia)) as [Hrange Hget].
  exists (py_sum_int (take k counts) + j). split; [exact Hrange|].
  rewrite Hget. simpl. rewrite in_range_guard by lia. unfold py_mod.
  destruct (Z.eqb_spec l 0); [lia|]. cbn [mbind result_bind]. by rewrite Z.mod_small.
Qed.

Lemma combined_dataset_covers_example :
  exists i,
    0 <= i < 200
    /\ concat_getitem
         {| datasets :=
              [_ExpandedDataset 100 10 (list_dataset (replicate 10 (energy_item (VInt 1))) None);
               _ExpandedDataset 100 100
                 (list_dataset (replicate 100 (energy_item (VInt 2))) None)];
            cumulative_sizes := [100; 200] |} i
       = Ok (energy_item (VInt 2)).
Proof.
  destruct (@combined_dataset_covers reference_collaborators FullyBalancedSamplingConfig
              [list_dataset (replicate 10 (energy_item (VInt 1))) None;
               list_dataset (replicate 100 (energy_item (VInt 2))) None]
              {| datasets :=
                   [_ExpandedDataset 100 10
                      (list_dataset (replicate 10 (energy_item (VInt 1))) None);
                    _ExpandedDataset 100 100
                      (list_dataset (replicate 100 (energy_item (VInt 2))) None)];
                 cumulative_sizes := [100; 200] |}
              1%nat (list_dataset (replicate 100 (energy_item (VInt 2))) None) 100 99
              ltac:(vm_compute; reflexivity) eq_refl eq_refl ltac:(lia))
    as (i & Hi & Hget).
  exists i. split; [exact Hi|]. rewrite Hget. vm_compute. reflexivity.
Defined.

(** ** Failures of the composition *)

(** X21: the datasets are measured before the sampling configuration is
    looked at.  If a dataset of the list is not [Sized], and the datasets
    before it are sized, [_combine_datasets] raises [TypeError], whatever
    the sampling configuration is, an unrecognised one included. *)
Theorem combine_datasets_unsized `{Collaborators} (sampling : SamplingConfig)
    (pre post : list Dataset) (d : Dataset) (sizes : list Z) :
  Forall2 (fun d s => is_sized d = true /\ len d = Ok s) pre sizes ->
  is_sized d = false ->
  _combine_datasets sampling (pre ++ d :: post) = Raise TypeError.
Proof.
  intros Hpre Hd. unfold _combine_datasets.
  rewrite (map_result_Raise _ pre post d TypeError); [reflexivity| |by rewrite Hd].
  clear -Hpre. induction Hpre as [|x s pre sizes [Hs Hl] _ IH]; constructor; [|done].
  by rewrite Hs, Hl.
Qed.

Lemma combine_datasets_unsized_example :
  @_combine_datasets reference_collaborators OtherSamplingConfig
    [list_dataset [energy_item VNone] None;
     Raw {| raw_len := None; raw_getitem := fun _ => Raise IndexError;
            raw_atoms_metadata := None |}]
  = Raise TypeError.
Proof.
  apply (@combine_datasets_unsized reference_collaborators OtherSamplingConfig
           [list_dataset [energy_item VNone] None] []
           (Raw {| raw_len := None; raw_getitem := fun _ => Raise IndexError;
                   raw_atoms_metadata := None |}) [1]).
  - constructor; [split; reflexivity | constructor].
  - reflexivity.
Defined.

(** X22: for a list of sized datasets, a sampling configuration that is
    neither FullyBalanced nor Temperature makes [_combine_datasets] raise
    [NotImplementedError]; and with a recognised configuration an empty
    list makes it raise [ZeroDivisionError] (the sum of no sizes divided by
    the sum of no ratios). *)
Theorem combine_datasets_sampling `{Collaborators} (ds : list Dataset) (sizes : list Z) :
  Forall2 (fun d s => is_sized d = true /\ len d = Ok s) ds sizes ->
  _combine_datasets OtherSamplingConfig ds = Raise NotImplementedError
  /\ (ds = [] ->
      _combine_datasets FullyBalancedSamplingConfig ds = Raise ZeroDivisionError
      /\ forall temperature,
           _combine_datasets (TemperatureSamplingConfig temperature) ds
           = Raise ZeroDivisionError).
Proof.
  intros Hds. split.
  - unfold _combine_datasets.
    assert (Hm : map_result (fun d => if negb (is_sized d) then Raise TypeError else len d) ds
                 = Ok sizes).
    { induction Hds as [|d s ds sizes [Hs Hl] _ IH]; [reflexivity|].
      simpl. rewrite Hs, Hl. simpl. by rewrite IH. }
    rewrite Hm. reflexivity.
  - intros ->. split; [reflexivity|]. intros temperature. reflexivity.
Qed.

Lemma combine_datasets_sampling_example :
  @_combine_datasets reference_collaborators OtherSamplingConfig
    [list_dataset [energy_item VNone] None]
  = Raise NotImplementedError.
Proof.
  apply (@combine_datasets_sampling reference_collaborators
           [list_dataset [energy_item VNone] None] [1]).
  constructor; [split; reflexivity | constructor].
Defined.

(** ** An empty dataset among the datasets *)

Lemma f64_div_by_zero (x : spec_float) : is_finite (f64_div x (S754_zero false)) = false.
Proof. destruct x; reflexivity. Qed.

Lemma f64_div_not_finite (x m : spec_float) :
  is_finite x = false -> is_finite (f64_div x m) = false.
Proof. destruct x; try discriminate; destruct m; reflexivity. Qed.

Lemma f64_mul_zero_not_finite (y : spec_float) :
  is_finite y = false -> f64_mul (S754_zero false) y = S754_nan.
Proof. destruct y; try discriminate; reflexivity. Qed.

(** X23: the count of an empty dataset.  With one ratio per size, when
    [_merged_dataset] returns counts, the count of a dataset of size 0 is
    the integer cast of NaN (0 times a factor that the division by the
    size 0 made infinite or NaN), which is the smallest [int64]. *)
Theorem merged_count_of_empty_dataset (sizes : list Z) (ratios : list spec_float)
    (counts : list Z) (i : nat) :
  length ratios = length sizes ->
  sizes !! i = Some 0 ->
  _merged_dataset sizes ratios = Ok counts ->
  counts !! i = Some (astype_int S754_nan) /\ astype_int S754_nan = int64_min.
Proof.
  intros Hlen Hs Hm.
  destruct (_merged_dataset_entries sizes ratios counts Hlen Hm) as (_ & m1 & m2 & Hentry).
  destruct (lookup_lt_is_Some_2 ratios i) as [r Hr];
    [apply lookup_lt_Some in Hs; lia|].
  rewrite (Hentry i 0 r Hs Hr). split; [|reflexivity]. do 2 f_equal.
  change (f64_of_int 0) with (S754_zero false).
  rewrite f64_mul_zero_not_finite; [reflexivity|].
  do 2 apply f64_div_not_finite. apply f64_div_by_zero.
Qed.

Lemma merged_count_of_empty_dataset_example :
  exists counts,
    _merged_dataset [0; 5] [f64_half; f64_half] = Ok counts
    /\ counts !! 0%nat = Some int64_min.
Proof.
  exists [int64_min; 5].
  assert (Hrun : _merged_dataset [0; 5] [f64_half; f64_half] = Ok [int64_min; 5])
    by (vm_compute; reflexivity).
  split; [exact Hrun|].
  destruct (merged_count_of_empty_dataset [0; 5] [f64_half; f64_half] [int64_min; 5] 0%nat
              eq_refl eq_refl Hrun) as [Hcount Hcast].
  rewrite Hcount, Hcast. reflexivity.
Defined.

(** X24: an empty dataset makes the composition fail.  If one of the
    datasets has length 0, [_combine_datasets] does not return a combined
    dataset: the count computed for the empty dataset is negative, and
    [expand_dataset] refuses it, unless an earlier step has failed. *)
Theorem combine_rejects_empty_dataset `{Collaborators} (sampling : SamplingConfig)
    (ds : list Dataset) (k : nat) (d : Dataset) :
  ds !! k = Some d -> len d = Ok 0 ->
  is_ok (_combine_datasets sampling ds) = false.
Proof.
  intros Hd Hl. destruct (_combine_datasets sampling ds) as [c|e] eqn:Hc; [|reflexivity].
  exfalso.
  destruct (_combine_datasets_inv sampling ds c Hc)
    as (sizes & ratios & counts & Hsizes & Hlenr & Hm & _ & Hall & _).
  destruct (Forall2_lookup_l _ _ _ _ _ Hsizes Hd) as (s & Hs & _ & Hl').
  rewrite Hl in Hl'. injection Hl' as <-.
  destruct (Forall2_lookup_l _ _ _ _ _ Hall Hs) as (n & Hn & Hle).
  destruct (_merged_dataset_entries sizes ratios counts Hlenr Hm) as (_ & m1 & m2 & Hentry).
  destruct (lookup_lt_is_Some_2 ratios k) as [r Hr];
    [apply lookup_lt_Some in Hs; lia|].
  assert (Hn' : counts !! k = Some (astype_int S754_nan)).
  { rewrite (Hentry k 0 r Hs Hr). do 2 f_equal.
    change (f64_of_int 0) with (S754_zero false).
    rewrite f64_mul_zero_not_finite; [reflexivity|].
    do 2 apply f64_div_not_finite. apply f64_div_by_zero. }
  rewrite Hn' in Hn. injection Hn as <-. vm_compute in Hle. by apply Hle.
Qed.

Lemma combine_rejects_empty_dataset_example :
  is_ok (@_combine_datasets reference_collaborators FullyBalancedSamplingConfig
           [list_dataset [] None; list_dataset [energy_item VNone] None])
  = false.
Proof.
  apply (@combine_rejects_empty_dataset reference_collaborators FullyBalancedSamplingConfig
           [list_dataset [] None; list_dataset [energy_item VNone] None]
           0%nat (list_dataset [] None)); reflexivity.
Defined.

(** * Further properties of [create_datasets] *)

(** ** The datasets of the tasks *)

Lemma create_optional_split_inv `{Collaborators} (config : option SplitDatasetConfig)
    (task_idx total_num_tasks : Z) (one_hot_targets : OneHotTargetsConfig)
    (o : option Dataset) :
  create_optional_split config task_idx total_num_tasks one_hot_targets = Ok o ->
  (config = None /\ o = None)
  \/ exists sc d, config = Some sc /\ o = Some d
       /\ _create_split_dataset sc task_idx total_num_tasks one_hot_targets = Ok d.
Proof.
  destruct config as [sc|]; simpl.
  - intros Hb. apply bind_Ok_inv in Hb as (d & Hd & [= <-]). right. eauto.
  - intros [= <-]. by left.
Qed.

Lemma _create_task_datasets_inv `{Collaborators} (task : TaskDatasetConfig)
    (task_idx total_num_tasks : Z) (one_hot_targets : OneHotTargetsConfig)
    (r : option Dataset * option Dataset * option Dataset) :
  _create_task_datasets task task_idx total_num_tasks one_hot_targets = Ok r ->
  create_optional_split (train task) task_idx total_num_tasks one_hot_targets
    = Ok (fst (fst r))
  /\ create_optional_split (val task) task_idx total_num_tasks one_hot_targets
     = Ok (snd (fst r))
  /\ create_optional_split (test task) task_idx total_num_tasks one_hot_targets
     = Ok (snd r).
Proof.
  unfold _create_task_datasets. intros Hb.
  apply bind_Ok_inv in Hb as (tr & Htr & Hb).
  apply bind_Ok_inv in Hb as (va & Hva & Hb).
  apply bind_Ok_inv in Hb as (te & Hte & [= <-]). done.
Qed.

Lemma per_task_lookup `{Collaborators} (tasks : list TaskDatasetConfig)
    (total_num_tasks : Z) (one_hot_targets : OneHotTargetsConfig)
    (per_task : list (option Dataset * option Dataset * option Dataset)) :
  map_result (fun it => _create_task_datasets (snd it) (fst it) total_num_tasks
                                              one_hot_targets)
             (zip (range (Z.of_nat (length tasks))) tasks) = Ok per_task ->
  length per_task = length tasks
  /\ forall k r, per_task !! k = Some r ->
       exists task, tasks !! k = Some task
         /\ _create_task_datasets task (Z.of_nat k) total_num_tasks one_hot_targets = Ok r.
Proof.
  intros Hm. apply map_result_Forall2 in Hm. split.
  - apply Forall2_length in Hm. rewrite <- Hm, length_zip_with, range_length. lia.
  - intros k r Hr.
    destruct (Forall2_lookup_r _ _ _ _ _ Hm Hr) as ([x task] & Hit & Hrun).
    apply lookup_zip_with_Some in Hit as (x' & task' & [= -> ->] & Hx & Htask).
    exists task'. split; [exact Htask|].
    pose proof (lookup_lt_Some _ _ _ Hx) as Hlt. rewrite range_length in Hlt.
    rewrite range_lookup in Hx by done. injection Hx as <-. exact Hrun.
Qed.

Lemma concat_if_any_inv (ds : list Dataset) (o : option ConcatDataset) :
  concat_if_any ds = Ok o ->
  (ds = [] /\ o = None) \/ exists c, o = Some c /\ ds <> [] /\ datasets c = ds.
Proof.
  unfold concat_if_any. destruct ds as [|d ds].
  - intros [= <-]. by left.
  - intros Hb. apply bind_Ok_inv in Hb as (c & Hc & [= <-]).
    apply make_ConcatDataset_inv in Hc as (Hne & Hd & _). right. eauto.
Qed.

Lemma create_datasets_inv `{Collaborators} (config : DatasetConfig)
    (tr va te : option ConcatDataset) :
  create_datasets config = Ok (tr, va, te) ->
  config_datasets config <> []
  /\ exists per_task,
       map_result (fun it => _create_task_datasets (snd it) (fst it)
                               (Z.of_nat (length (config_datasets config)))
                               (one_hot_targets config))
                  (zip (range (Z.of_nat (length (config_datasets config))))
                       (config_datasets config)) = Ok per_task
       /\ ((omap (fun t => fst (fst t)) per_task = [] /\ tr = None)
           \/ exists c, tr = Some c
                /\ _combine_datasets (sampling config) (omap (fun t => fst (fst t)) per_task)
                   = Ok c)
       /\ concat_if_any (omap (fun t => snd (fst t)) per_task) = Ok va
       /\ concat_if_any (omap snd per_task) = Ok te.
Proof.
  unfold create_datasets. cbv zeta.
  destruct (Z.leb_spec (Z.of_nat (length (config_datasets config))) 0) as [Hle|Hgt];
    [discriminate|].
  intros Hb. apply bind_Ok_inv in Hb as (per_task & Hper & Hb).
  apply bind_Ok_inv in Hb as (train_dataset & Htr & Hb).
  apply bind_Ok_inv in Hb as (val_dataset & Hva & Hb).
  apply bind_Ok_inv in Hb as (test_dataset & Hte & [= <- <- <-]).
  split; [intros Hnil; rewrite Hnil in Hgt; simpl in Hgt; lia|].
  exists per_task. split; [exact Hper|]. split; [|done].
  destruct (omap (fun t => fst (fst t)) per_task) as [|d ds] eqn:Hds.
  - injection Htr as <-. by left.
  - apply bind_Ok_inv in Htr as (c & Hc & [= <-]). right. eauto.
Qed.

Lemma omap_nil_iff {A B : Type} (f : A -> option B) (l : list A) :
  omap f l = [] <-> Forall (fun x => f x = None) l.
Proof.
  induction l as [|x l IH]; simpl.
  - split; [constructor | done].
  - destruct (f x) eqn:Hx; split.
    + discriminate.
    + intros Hall. inversion Hall; congruence.
    + intros Hnil. constructor; [done | by apply IH].
    + intros Hall. inversion Hall; subst. by apply IH.
Qed.

Lemma split_absent_iff `{Collaborators} (tasks : list TaskDatasetConfig)
    (total_num_tasks : Z) (one_hot_targets : OneHotTargetsConfig)
    (per_task : list (option Dataset * option Dataset * option Dataset))
    (split : TaskDatasetConfig -> option SplitDatasetConfig)
    (proj : option Dataset * option Dataset * option Dataset -> option Dataset) :
  (forall task t r,
     _create_task_datasets task t total_num_tasks one_hot_targets = Ok r ->
     create_optional_split (split task) t total_num_tasks one_hot_targets = Ok (proj r)) ->
  map_result (fun it => _create_task_datasets (snd it) (fst it) total_num_tasks
                                              one_hot_targets)
             (zip (range (Z.of_nat (length tasks))) tasks) = Ok per_task ->
  omap proj per_task = [] <-> Forall (fun task => split task = None) tasks.
Proof.
  intros Hproj Hm. destruct (per_task_lookup _ _ _ _ Hm) as [Hlen Hlook].
  rewrite omap_nil_iff, !Forall_lookup. split.
  - intros Hall k task Htask.
    destruct (lookup_lt_is_Some_2 per_task k) as [r Hr];
      [rewrite Hlen; by eapply lookup_lt_Some|].
    destruct (Hlook k r Hr) as (task' & Htask' & Hrun).
    rewrite Htask in Htask'. injection Htask' as <-.
    apply Hproj, create_optional_split_inv in Hrun as [[Hnone _]|(sc & d & _ & Hsome & _)];
      [done|].
    rewrite (Hall k r Hr) in Hsome. discriminate.
  - intros Hall k r Hr. destruct (Hlook k r Hr) as (task & Htask & Hrun).
    apply Hproj, create_optional_split_inv in Hrun as [[_ Hnone]|(sc & d & Hsome & _)];
      [done|].
    rewrite (Hall k task Htask) in Hsome. discriminate.
Qed.

(** X25: which datasets [create_datasets] returns.  When it succeeds, the
    configuration lists at least one task, and each of the three returned
    datasets is [None] exactly when no task configures the corresponding
    split. *)
Theorem create_datasets_splits `{Collaborators} (config : DatasetConfig)
    (tr va te : option ConcatDataset) :
  create_datasets config = Ok (tr, va, te) ->
  config_datasets config <> []
  /\ (tr = None <-> Forall (fun task => train task = None) (config_datasets config))
  /\ (va = None <-> Forall (fun task => val task = None) (config_datasets config))
  /\ (te = None <-> Forall (fun task => test task = None) (config_datasets config)).
Proof.
  intros Hc.
  destruct (create_datasets_inv config tr va te Hc) as (Hne & per_task & Hper & Htr & Hva & Hte).
  split; [exact Hne|].
  pose proof (split_absent_iff _ _ _ per_task train (fun t => fst (fst t))
                (fun task t r Hr => proj1 (_create_task_datasets_inv _ _ _ _ _ Hr)) Hper)
    as Htrain.
  pose proof (split_absent_iff _ _ _ per_task val (fun t => snd (fst t))
                (fun task t r Hr => proj1 (proj2 (_create_task_datasets_inv _ _ _ _ _ Hr)))
                Hper) as Hval.
  pose proof (split_absent_iff _ _ _ per_task test snd
                (fun task t r Hr => proj2 (proj2 (_create_task_datasets_inv _ _ _ _ _ Hr)))
                Hper) as Htest.
  split; [|split].
  - rewrite <- Htrain. destruct Htr as [[Hnil ->]|(c & -> & Hcomb)]; [done|].
    split; [discriminate|]. intros Hnil. rewrite Hnil in Hcomb.
    pose proof (_combine_datasets_inv _ _ _ Hcomb)
      as (sizes & ratios & counts & Hsizes & _ & _ & Hlenc & _ & Hcne & _).
    destruct counts; [done | discriminate].
  - rewrite <- Hval. apply concat_if_any_inv in Hva as [[Hnil ->]|(c & -> & Hcne & _)];
      split; done.
  - rewrite <- Htest. apply concat_if_any_inv in Hte as [[Hnil ->]|(c & -> & Hcne & _)];
      split; done.
Qed.

Lemma create_datasets_splits_example :
  exists va,
    @create_datasets reference_collaborators val_only_config = Ok (None, Some va, None)
    /\ Forall (fun task => train task = None) (config_datasets val_only_config).
Proof.
  assert (Hrun : { va | @create_datasets reference_collaborators val_only_config
                        = Ok (None, Some va, None) }).
  { eexists. reflexivity. }
  destruct Hrun as [va Hrun]. exists va. split; [exact Hrun|].
  destruct (@create_datasets_splits reference_collaborators _ _ _ _ Hrun)
    as (_ & Htrain & _).
  by apply Htrain.
Defined.

(** ** Every served item is tagged *)

Lemma _transform_tags (task_idx total_num_tasks : Z) (one_hot_targets : OneHotTargetsConfig)
    (item0 item : PyObj) :
  0 <= task_idx < total_num_tasks ->
  _transform task_idx total_num_tasks one_hot_targets item0 = Ok item ->
  exists data,
    item = PyData data
    /\ data !! "task_idx" = Some (VTensor (LongTensor [] [task_idx]))
    /\ data !! "task_mask"
       = Some (VTensor (BoolTensor [1%nat; Z.to_nat total_num_tasks]
                          (map (fun j => j =? task_idx) (range total_num_tasks)))).
Proof.
  intros Hi Ht.
  apply _transform_inv in Ht as (data & d0 & d1 & data' & _ & -> & Hd0 & Hg & Hn); [|done].
  exists data'.
  assert (Hkeep : forall k0, (forall k, onehot_name k <> k0) -> data' !! k0 = d0 !! k0).
  { intros k0 Hk0.
    rewrite (fold_result_writes _ _ _ _ k0 (node_writes _) (fun k _ => Hk0 k) Hn).
    by rewrite (fold_result_writes _ _ _ _ k0 (graph_writes _) (fun k _ => Hk0 k) Hg). }
  split; [reflexivity|]. split.
  - rewrite Hkeep by apply onehot_name_not_task_idx. rewrite Hd0.
    rewrite lookup_insert_ne by done. by rewrite lookup_insert_eq.
  - rewrite Hkeep by apply onehot_name_not_task_mask. rewrite Hd0.
    by rewrite lookup_insert_eq.
Qed.

Lemma split_member_tagged `{Collaborators} (tasks : list TaskDatasetConfig)
    (one_hot_targets : OneHotTargetsConfig)
    (per_task : list (option Dataset * option Dataset * option Dataset))
    (split : TaskDatasetConfig -> option SplitDatasetConfig)
    (proj : option Dataset * option Dataset * option Dataset -> option Dataset)
    (d : Dataset) (j : Z) (item : PyObj) :
  (forall task t r,
     _create_task_datasets task t (Z.of_nat (length tasks)) one_hot_targets = Ok r ->
     create_optional_split (split task) t (Z.of_nat (length tasks)) one_hot_targets
     = Ok (proj r)) ->
  map_result (fun it => _create_task_datasets (snd it) (fst it) (Z.of_nat (length tasks))
                                              one_hot_targets)
             (zip (range (Z.of_nat (length tasks))) tasks) = Ok per_task ->
  d ∈ omap proj per_task ->
  __getitem__ d j = Ok item ->
  tagged_for tasks split item.
Proof.
  intros Hproj Hm Hd Hget. destruct (per_task_lookup _ _ _ _ Hm) as [Hlen Hlook].
  apply list_elem_of_omap in Hd as (r & Hr & Hpr).
  apply list_elem_of_lookup in Hr as [k Hr].
  destruct (Hlook k r Hr) as (task & Htask & Hrun).
  apply Hproj, create_optional_split_inv in Hrun as [[_ Hnone]|(sc & d' & Hsc & Hsome & Hd')];
    [congruence|].
  rewrite Hpr in Hsome. injection Hsome as <-.
  unfold _create_split_dataset in Hd'. apply bind_Ok_inv in Hd' as (raw & _ & [= <-]).
  simpl in Hget. apply bind_Ok_inv in Hget as (item0 & _ & Ht).
  pose proof (lookup_lt_Some _ _ _ Htask) as Hk.
  apply _transform_tags in Ht as (data & -> & Hidx & Hmask); [|lia].
  exists data, k, task. rewrite Nat2Z.id in Hmask.
  split; [reflexivity|]. split; [exact Htask|]. split; [by rewrite Hsc|]. done.
Qed.

Lemma expanded_getitem_inv (n l : Z) (d : Dataset) (idx : Z) (item : PyObj) :
  __getitem__ (_ExpandedDataset n l d) idx = Ok item ->
  exists j, __getitem__ d j = Ok item.
Proof.
  simpl. destruct ((idx <? 0) || (n <=? idx)); [discriminate|].
  intros Hb. apply bind_Ok_inv in Hb as (j & _ & Hget). eauto.
Qed.

Lemma combined_member_inv `{Collaborators} (sampling : SamplingConfig) (ds : list Dataset)
    (c : ConcatDataset) (e : Dataset) :
  _combine_datasets sampling ds = Ok c -> e ∈ datasets c ->
  exists d n l, d ∈ ds /\ e = _ExpandedDataset n l d.
Proof.
  intros Hc He.
  destruct (_combine_datasets_inv sampling ds c Hc)
    as (sizes & ratios & counts & Hsizes & _ & _ & Hlenc & Hall & _ & _ & _ & Hlen & Hlook).
  apply list_elem_of_lookup in He as [k He].
  pose proof (lookup_lt_Some _ _ _ He) as Hk. rewrite Hlen in Hk.
  destruct (lookup_lt_is_Some_2 ds k Hk) as [d Hd].
  destruct (Forall2_lookup_l _ _ _ _ _ Hsizes Hd) as (s & Hs & _).
  destruct (Forall2_lookup_l _ _ _ _ _ Hall Hs) as (n & Hn & _).
  rewrite (Hlook k d s n Hd Hs Hn) in He. injection He as <-.
  exists d, n, s. split; [by eapply list_elem_of_lookup_2 | reflexivity].
Qed.

(** X26: every item that the datasets returned by [create_datasets]
    serve is tagged with a task of the configuration.  An item read from
    the train, val or test dataset is a record whose [task_idx] is the
    position, in [config.datasets], of a task that configures that split
    (the positions are those of the configuration, also when earlier
    tasks lack the split), and whose [task_mask] is the one-hot row of
    that position among all the tasks. *)
Theorem served_items_are_tagged `{Collaborators} (config : DatasetConfig)
    (tr va te : option ConcatDataset) (c : ConcatDataset) (idx : Z) (item : PyObj) :
  create_datasets config = Ok (tr, va, te) ->
  concat_getitem c idx = Ok item ->
  (tr = Some c -> tagged_for (config_datasets config) train item)
  /\ (va = Some c -> tagged_for (config_datasets config) val item)
  /\ (te = Some c -> tagged_for (config_datasets config) test item).
Proof.
  intros Hc Hget.
  destruct (create_datasets_inv config tr va te Hc) as (Hne & per_task & Hper & Htr & Hva & Hte).
  apply concat_getitem_member in Hget as (d & j & Hd & Hget).
  split; [|split].
  - intros ->. destruct Htr as [[_ Hnone]|(c' & [= <-] & Hcomb)]; [discriminate|].
    destruct (combined_member_inv _ _ _ d Hcomb Hd) as (d0 & n & l & Hd0 & ->).
    apply expanded_getitem_inv in Hget as [j' Hget].
    apply (split_member_tagged (config_datasets config) (one_hot_targets config) per_task
             train (fun t => fst (fst t)) d0 j' item); [|exact Hper|exact Hd0|exact Hget].
    intros task t r Hr. apply (_create_task_datasets_inv _ _ _ _ _ Hr).
  - intros ->. apply concat_if_any_inv in Hva as [[_ Hnone]|(c' & [= <-] & _ & Hds)];
      [discriminate|].
    rewrite Hds in Hd.
    apply (split_member_tagged (config_datasets config) (one_hot_targets config) per_task
             val (fun t => snd (fst t)) d j item); [|exact Hper|exact Hd|exact Hget].
    intros task t r Hr. apply (_create_task_datasets_inv _ _ _ _ _ Hr).
  - intros ->. apply concat_if_any_inv in Hte as [[_ Hnone]|(c' & [= <-] & _ & Hds)];
      [discriminate|].
    rewrite Hds in Hd.
    apply (split_member_tagged (config_datasets config) (one_hot_targets config) per_task
             test snd d j item); [|exact Hper|exact Hd|exact Hget].
    intros task t r Hr. apply (_create_task_datasets_inv _ _ _ _ _ Hr).
Qed.

Lemma served_items_are_tagged_example :
  exists va item,
    @create_datasets reference_collaborators val_only_config = Ok (None, Some va, None)
    /\ concat_getitem va 2 = Ok item
    /\ tagged_for (config_datasets val_only_config) val item.
Proof.
  assert (Hrun : { va : ConcatDataset & { item : PyObj |
                     @create_datasets reference_collaborators val_only_config
                     = Ok (None, Some va, None)
                     /\ concat_getitem va 2 = Ok item } }).
  { eexists. eexists. split; [reflexivity|]. vm_compute. reflexivity. }
  destruct Hrun as (va & item & Hrun & Hget). exists va, item.
  split; [exact Hrun|]. split; [exact Hget|].
  destruct (@served_items_are_tagged reference_collaborators _ _ _ _ va 2 item Hrun Hget)
    as (_ & Hval & _).
  by apply Hval.
Defined.

(** * What the one-hot updates read *)

Lemma _update_graph_value_reads (d e d' : gmap string Value) (key : string)
    (onehot : list bool) :
  getattr_or_none e key = getattr_or_none d key ->
  _update_graph_value d key onehot = Ok d' ->
  exists v, d' = <[onehot_name key := v]> d
    /\ _update_graph_value e key onehot = Ok (<[onehot_name key := v]> e).
Proof.
  intros Hread. unfold _update_graph_value. rewrite Hread.
  destruct (getattr_or_none d key); [discriminate| | |];
    intros Hb; apply bind_Ok_inv in Hb as (value & Hv & [= <-]); rewrite Hv;
    eexists; split; reflexivity.
Qed.

Lemma _update_node_value_reads (d e d' : gmap string Value) (key : string)
    (onehot : list bool) :
  getattr_or_none e key = getattr_or_none d key ->
  _update_node_value d key onehot = Ok d' ->
  exists v, d' = <[onehot_name key := v]> d
    /\ _update_node_value e key onehot = Ok (<[onehot_name key := v]> e).
Proof.
  intros Hread. unfold _update_node_value. rewrite Hread.
  destruct (getattr_or_none d key); try discriminate.
  intros Hb. apply bind_Ok_inv in Hb as (v1 & Hv1 & Hb).
  apply bind_Ok_inv in Hb as (v2 & Hv2 & [= <-]).
  rewrite Hv1. cbn [mbind result_bind]. rewrite Hv2.
  eexists. split; reflexivity.
Qed.

Lemma insert_value_eq (m : gmap string Value) (k : string) (v v' : Value) :
  <[k := v]> m = <[k := v']> m -> v = v'.
Proof.
  intros Heq. apply (f_equal (fun x => x !! k)) in Heq.
  rewrite !lookup_insert_eq in Heq. by injection Heq.
Qed.

Lemma fold_node_sets (onehot : list bool) (keys : list string)
    (d d' : gmap string Value) (key : string) :
  key ∈ keys ->
  (forall k, k ∈ keys -> key <> onehot_name k) ->
  fold_result (fun d key => _update_node_value d key onehot) keys d = Ok d' ->
  exists v, _update_node_value d key onehot = Ok (<[onehot_name key := v]> d)
    /\ d' !! onehot_name key = Some v.
Proof.
  revert d. induction keys as [|k keys IH]; intros d Hin Hne Hfold.
  - by apply elem_of_nil in Hin.
  - simpl in Hfold. apply bind_Ok_inv in Hfold as (d1 & Hstep & Hfold).
    assert (Hne' : forall k', k' ∈ keys -> key <> onehot_name k').
    { intros k' Hk'. apply Hne. by apply list_elem_of_further. }
    destruct (_update_node_value_reads d d d1 k onehot eq_refl Hstep) as (v1 & Hd1 & _).
    assert (Hread : getattr_or_none d1 key = getattr_or_none d key).
    { rewrite Hd1. apply getattr_or_none_insert_ne. intros Heq.
      apply (Hne k); [apply list_elem_of_here | done]. }
    destruct (decide (key ∈ keys)) as [Hlater|Hnot].
    + destruct (IH d1 Hlater Hne' Hfold) as (v & Hupd & Hlook).
      destruct (_update_node_value_reads d1 d _ key onehot (eq_sym Hread) Hupd)
        as (v' & Heq & Hupd').
      apply insert_value_eq in Heq. subst v'. eauto.
    + apply elem_of_cons in Hin as [->|Hin]; [|done].
      exists v1. split; [by rewrite <- Hd1|].
      rewrite (fold_result_writes _ keys d1 d' (onehot_name k) (node_writes onehot));
        [|intros k' Hk' Heq; apply onehot_name_inj in Heq; by subst|done].
      rewrite Hd1. by rewrite lookup_insert_eq.
Qed.

(** X27: node-level targets of a tagged record.  For a key configured in
    [one_hot_targets.node_level] (also when it is configured as
    graph-level too) that is not the one-hot name of a configured key and
    is not [task_idx] or [task_mask]: when [_transform] succeeds on a
    record, the attribute [<key>_onehot] of the result is the one that
    [_update_node_value] computes from the original record and the
    one-hot vector of the task; in particular the record holds a tensor
    under [key]. *)
Theorem node_level_onehot (task_idx total_num_tasks : Z)
    (one_hot_targets : OneHotTargetsConfig) (data : gmap string Value) (key : string)
    (item' : PyObj) :
  key ∈ node_level one_hot_targets ->
  (forall k, k ∈ graph_level one_hot_targets ++ node_level one_hot_targets ->
     key <> onehot_name k) ->
  key <> "task_idx" -> key <> "task_mask" ->
  _transform task_idx total_num_tasks one_hot_targets (PyData data) = Ok item' ->
  exists data' onehot updated value,
    item' = PyData data'
    /\ one_hot task_idx total_num_tasks = Ok onehot
    /\ data !! key = Some (VTensor value)
    /\ _update_node_value data key onehot = Ok updated
    /\ data' !! onehot_name key = updated !! onehot_name key.
Proof.
  intros Hin Hne Hk1 Hk2 Ht.
  apply _transform_Ok_inv in Ht as (idx & onehot & d1 & data' & -> & Hoh & Hg & Hn).
  assert (Hread : getattr_or_none d1 key = getattr_or_none data key).
  { rewrite (fold_graph_keeps onehot _ _ d1 key
               ltac:(intros k Hk; apply Hne, elem_of_app; by left) Hg).
    by rewrite !getattr_or_none_insert_ne. }
  destruct (fold_node_sets onehot _ d1 data' key Hin) as (v & Hupd & Hlook);
    [intros k Hk; apply Hne, elem_of_app; by right | done |].
  destruct (_update_node_value_reads d1 data _ key onehot (eq_sym Hread) Hupd)
    as (v' & Heq & Hupd').
  apply insert_value_eq in Heq. subst v'.
  assert (Htensor : exists value, data !! key = Some (VTensor value)).
  { unfold _update_node_value, getattr_or_none in Hupd'.
    destruct (data !! key) as [[| | |value]|]; try discriminate. by exists value. }
  destruct Htensor as [value Hvalue].
  exists data', onehot, (<[onehot_name key := v]> data), value.
  split; [reflexivity|]. split; [done|]. split; [done|]. split; [done|].
  by rewrite Hlook, lookup_insert_eq.
Qed.

Lemma node_level_onehot_example :
  exists data' updated,
    _transform 1 2 {| graph_level := []; node_level := ["forces"] |}
      (PyData (<["forces" := VTensor (FloatTensor Binary32 [1%nat; 2%nat]
                                        [float_of_Z Binary32 3; float_of_Z Binary32 4])]> ∅))
    = Ok (PyData data')
    /\ _update_node_value
         (<["forces" := VTensor (FloatTensor Binary32 [1%nat; 2%nat]
                                   [float_of_Z Binary32 3; float_of_Z Binary32 4])]> ∅)
         "forces" [false; true] = Ok updated
    /\ data' !! "forces_onehot" = updated !! "forces_onehot".
Proof.
  assert (Hrun : { data' | _transform 1 2 {| graph_level := []; node_level := ["forces"] |}
      (PyData (<["forces" := VTensor (FloatTensor Binary32 [1%nat; 2%nat]
                                        [float_of_Z Binary32 3; float_of_Z Binary32 4])]> ∅))
    = Ok (PyData data') }).
  { eexists. vm_compute. reflexivity. }
  destruct Hrun as [data' Hrun].
  destruct (node_level_onehot 1 2 {| graph_level := []; node_level := ["forces"] |}
              _ "forces" _ ltac:(apply list_elem_of_here)
              ltac:(intros k Hk; apply list_elem_of_singleton in Hk; subst k; vm_compute;
                    discriminate)
              ltac:(discriminate) ltac:(discriminate) Hrun)
    as (data'' & onehot & updated & value & [= <-] & Hoh & _ & Hupd & Hlook).
  vm_compute in Hoh. injection Hoh as <-.
  exists data', updated. split; [exact Hrun|]. split; [exact Hupd | exact Hlook].
Defined.

(** * Tagging twice *)

Lemma fold_result_union
    (f : gmap string Value -> string -> result (gmap string Value)) (keys : list string) :
  (forall d e k d', getattr_or_none e k = getattr_or_none d k -> f d k = Ok d' ->
     exists v, d' = <[onehot_name k := v]> d /\ f e k = Ok (<[onehot_name k := v]> e)) ->
  (forall k k', k ∈ keys -> k' ∈ keys -> k <> onehot_name k') ->
  forall d d',
    fold_result f keys d = Ok d' ->
    exists U : gmap string Value,
      d' = U ∪ d
      /\ (forall k0, (forall k, k ∈ keys -> onehot_name k <> k0) -> U !! k0 = None)
      /\ forall e, (forall k, k ∈ keys -> getattr_or_none e k = getattr_or_none d k) ->
           fold_result f keys e = Ok (U ∪ e).
Proof.
  intros Hf. induction keys as [|k keys IH]; intros Hdisj d d' Hfold; simpl in Hfold.
  - injection Hfold as <-. exists ∅. split; [by rewrite (left_id ∅ (∪))|].
    split; [intros; apply lookup_empty|].
    intros e _. simpl. by rewrite (left_id ∅ (∪)).
  - apply bind_Ok_inv in Hfold as (d1 & Hstep & Hfold).
    destruct (Hf d d k d1 eq_refl Hstep) as (v & Hd1 & _).
    destruct (IH ltac:(intros a b Ha Hb; apply Hdisj; by apply list_elem_of_further)
                 d1 d' Hfold) as (U & HU & Hnone & Hany).
    exists (U ∪ {[onehot_name k := v]}). split; [|split].
    + rewrite HU, Hd1, insert_union_singleton_l. apply map_union_assoc.
    + intros k0 Hk0. apply lookup_union_None. split.
      * apply Hnone. intros k' Hk'. apply Hk0. by apply list_elem_of_further.
      * apply lookup_singleton_ne. apply Hk0, list_elem_of_here.
    + intros e He. simpl.
      destruct (Hf d e k d1 (He k ltac:(apply list_elem_of_here)) Hstep) as (v' & Hd1' & Hrun).
      rewrite Hd1 in Hd1'. apply insert_value_eq in Hd1'. subst v'.
      rewrite Hrun. cbn [mbind result_bind].
      rewrite (Hany (<[onehot_name k := v]> e)).
      * by rewrite insert_union_singleton_l, map_union_assoc.
      * intros k' Hk'. rewrite Hd1.
        rewrite !getattr_or_none_insert_ne
          by (intros Heq; apply (Hdisj k' k);
              [by apply list_elem_of_further | apply list_elem_of_here | done]).
        apply He. by apply list_elem_of_further.
Qed.

(** X28: tagging an already tagged record changes nothing.  When no
    configured key is named [task_idx], [task_mask] or [<k>_onehot] for a
    configured key [k], and [_transform] succeeds on a record, then
    [_transform] applied to its result succeeds and returns that result
    again. *)
Theorem transform_idempotent (task_idx total_num_tasks : Z)
    (one_hot_targets : OneHotTargetsConfig) (data : gmap string Value) (item' : PyObj) :
  (forall k, k ∈ graph_level one_hot_targets ++ node_level one_hot_targets ->
     k <> "task_idx" /\ k <> "task_mask"
     /\ forall k', k' ∈ graph_level one_hot_targets ++ node_level one_hot_targets ->
          k <> onehot_name k') ->
  _transform task_idx total_num_tasks one_hot_targets (PyData data) = Ok item' ->
  _transform task_idx total_num_tasks one_hot_targets item' = Ok item'.
Proof.
  intros Hkeys Ht. unfold _transform in Ht.
  destruct (torch_tensor_long task_idx) as [idx|] eqn:Hidx; [|discriminate].
  cbn [mbind result_bind] in Ht.
  destruct (one_hot task_idx total_num_tasks) as [onehot|] eqn:Hoh; [|discriminate].
  cbn [mbind result_bind] in Ht.
  apply bind_Ok_inv in Ht as (d1 & Hg & Ht).
  apply bind_Ok_inv in Ht as (data' & Hn & [= <-]).
  set (mask := VTensor (BoolTensor [1%nat; length onehot] onehot)) in *.
  assert (Hgl : forall k, k ∈ graph_level one_hot_targets ->
            k ∈ graph_level one_hot_targets ++ node_level one_hot_targets)
    by (intros k Hk; apply elem_of_app; by left).
  assert (Hnl : forall k, k ∈ node_level one_hot_targets ->
            k ∈ graph_level one_hot_targets ++ node_level one_hot_targets)
    by (intros k Hk; apply elem_of_app; by right).
  destruct (fold_result_union _ (graph_level one_hot_targets)
              (fun d e k d' => _update_graph_value_reads d e d' k onehot)
              ltac:(intros k k' Hk Hk'; apply (Hkeys k); auto) _ _ Hg)
    as (Ug & Hd1 & HUg & Hg_any).
  destruct (fold_result_union _ (node_level one_hot_targets)
              (fun d e k d' => _update_node_value_reads d e d' k onehot)
              ltac:(intros k k' Hk Hk'; apply (Hkeys k); auto) _ _ Hn)
    as (Un & Hdata' & HUn & Hn_any).
  assert (HUgk : forall k, k ∈ graph_level one_hot_targets ++ node_level one_hot_targets ->
            Ug !! k = None).
  { intros k Hk. apply HUg. intros k' Hk' Heq. destruct (Hkeys k Hk) as (_ & _ & Hd).
    apply (Hd k'); [auto | done]. }
  assert (HUnk : forall k, k ∈ graph_level one_hot_targets ++ node_level one_hot_targets ->
            Un !! k = None).
  { intros k Hk. apply HUn. intros k' Hk' Heq. destruct (Hkeys k Hk) as (_ & _ & Hd).
    apply (Hd k'); [auto | done]. }
  assert (Hframe : forall k, k ∈ graph_level one_hot_targets ++ node_level one_hot_targets ->
            data' !! k = data !! k).
  { intros k Hk. destruct (Hkeys k Hk) as (Hk1 & Hk2 & _).
    rewrite Hdata', Hd1, !lookup_union_r by auto. by rewrite !lookup_insert_ne. }
  assert (Hall : forall i, (Un ∪ (Ug ∪ <["task_mask" := mask]>
                                        (<["task_idx" := VTensor idx]> data'))) !! i
                           = data' !! i).
  { intros i. rewrite Hdata' at 2. rewrite Hd1.
    destruct (Un !! i) as [x|] eqn:E1.
    { by rewrite !(lookup_union_Some_l Un _ _ x E1). }
    rewrite !(lookup_union_r Un) by done.
    destruct (Ug !! i) as [x|] eqn:E2.
    { by rewrite !(lookup_union_Some_l Ug _ _ x E2). }
    rewrite !(lookup_union_r Ug) by done.
    destruct (decide ("task_mask" = i)) as [<-|Hm]; [by rewrite !lookup_insert_eq|].
    rewrite !(lookup_insert_ne _ "task_mask") by done.
    destruct (decide ("task_idx" = i)) as [<-|Hi]; [by rewrite !lookup_insert_eq|].
    rewrite !(lookup_insert_ne _ "task_idx") by done.
    rewrite Hdata', Hd1, !lookup_union_r by done. by rewrite !lookup_insert_ne. }
  unfold _transform. rewrite Hidx. cbn [mbind result_bind]. rewrite Hoh.
  cbn [mbind result_bind]. fold mask.
  rewrite (Hg_any (<["task_mask" := mask]> (<["task_idx" := VTensor idx]> data'))).
  - cbn [mbind result_bind]. rewrite Hn_any.
    + cbn [mbind result_bind]. do 2 f_equal. apply map_eq. exact Hall.
    + intros k Hk. unfold getattr_or_none. rewrite Hd1.
      rewrite !lookup_union_r by auto.
      destruct (Hkeys k (Hnl k Hk)) as (Hk1 & Hk2 & _).
      rewrite !lookup_insert_ne by done. by rewrite Hframe by auto.
  - intros k Hk. unfold getattr_or_none.
    destruct (Hkeys k (Hgl k Hk)) as (Hk1 & Hk2 & _).
    rewrite !lookup_insert_ne by done. by rewrite Hframe by auto.
Qed.

Lemma transform_idempotent_example :
  exists item',
    _transform 0 2 energy_targets (energy_item (VFloat f64_one)) = Ok item'
    /\ _transform 0 2 energy_targets item' = Ok item'.
Proof.
  assert (Hrun : { item' | _transform 0 2 energy_targets (energy_item (VFloat f64_one))
                           = Ok item' }).
  { eexists. vm_compute. reflexivity. }
  destruct Hrun as [item' Hrun]. exists item'. split; [exact Hrun|].
  apply (transform_idempotent 0 2 energy_targets (<["energy" := VFloat f64_one]> ∅));
    [|exact Hrun].
  intros k Hk. apply elem_of_app in Hk as [Hk|Hk]; [|by apply elem_of_nil in Hk].
  apply list_elem_of_singleton in Hk. subst k.
  split; [discriminate|]. split; [discriminate|].
  intros k' Hk'. apply elem_of_app in Hk' as [Hk'|Hk']; [|by apply elem_of_nil in Hk'].
  by apply energy_targets_disjoint.
Defined.

(** * A single train dataset *)

(** X29: FullyBalanced sampling over a single dataset leaves it as it is.
    For a sized dataset [d] of length [s], with [0 < s <= 2^53],
    [_combine_datasets] returns the expansion of [d] to its own length:
    the combined dataset has length [s] and serves, at every index of
    [[0, s)], the item of [d] at that index. *)
Theorem fully_balanced_single_dataset `{Collaborators} (d : Dataset) (s : Z) :
  is_sized d = true -> len d = Ok s -> 0 < s <= 2 ^ 53 ->
  exists c,
    _combine_datasets FullyBalancedSamplingConfig [d] = Ok c
    /\ datasets c = [_ExpandedDataset s s d]
    /\ concat_len c = s
    /\ forall i, 0 <= i < s -> concat_getitem c i = __getitem__ d i.
Proof.
  intros Hs Hl Hr.
  assert (Hsum : np_sum_int64 [s] = s).
  { unfold np_sum_int64, wrap_int64. simpl. rewrite Z.mod_small; lia. }
  assert (Hvalid : f64_valid (f64_of_int s) = true) by by apply f64_of_int_valid.
  assert (Hpos : f64_pos_finite (f64_of_int s) = true).
  { destruct (f64_of_int_exact s Hr) as (m & e & Heq & Hb & _).
    rewrite Heq in *. exact Hvalid. }
  assert (Hone : py_sum_float [f64_one] = f64_one) by (vm_compute; reflexivity).
  assert (Hm : _merged_dataset [s] [f64_one] = Ok [s]).
  { unfold _merged_dataset, raw_expansion_factors, target_size.
    rewrite Hsum, Hone. cbn [map].
    assert (Hdiv1 : f64_div (f64_of_int s) f64_one = f64_of_int s).
    { rewrite f64_one_eq. apply (SFdiv_one_r 53 1024); [lia | exact Hvalid]. }
    rewrite Hdiv1, product_one by done.
    assert (Hmin : divide_by_min [f64_one] = Ok [f64_one]) by (vm_compute; reflexivity).
    change (broadcast2 f64_div [f64_of_int s] [f64_of_int s])
      with (Ok [f64_div (f64_of_int s) (f64_of_int s)] : result (list spec_float)).
    rewrite f64_div_self by done. cbn [mbind result_bind].
    rewrite Hmin. cbn [mbind result_bind]. unfold samples_per_dataset.
    rewrite Hmin. cbn [mbind result_bind map].
    change (broadcast2 f64_mul [f64_of_int s] [f64_one])
      with (Ok [f64_mul (f64_of_int s) f64_one] : result (list spec_float)).
    cbn [mbind result_bind ceil_to_int map]. by rewrite count_of_one. }
  exists {| datasets := [_ExpandedDataset s s d]; cumulative_sizes := [s] |}.
  split; [|split; [reflexivity|split; [reflexivity|]]].
  - unfold _combine_datasets. cbn [map_result]. rewrite Hs, Hl.
    cbn [negb mbind result_bind mret result_ret sampling_ratios map].
    replace (map_result (fun r => py_float_div r (py_sum_float [f64_one])) [f64_one])
      with (Ok [f64_one] : result (list spec_float)) by (vm_compute; reflexivity).
    cbn [mbind result_bind]. rewrite Hm.
    cbn [mbind result_bind zip zip_with map_result fst snd].
    rewrite (expand_dataset_Ok d s s) by (done || lia).
    cbn [mbind result_bind make_ConcatDataset map_result].
    rewrite (len_of___len__ (_ExpandedDataset s s d) s) by (done || unfold sys_maxsize; lia).
    cbn [mbind result_bind cumsum]. unfold concat_len.
    cbn [cumulative_sizes last default]. rewrite Z.add_0_l.
    change (id s) with s.
    rewrite builtin_len_Ok by (unfold sys_maxsize; lia). reflexivity.
  - intros i Hi. unfold concat_getitem, concat_len. cbn [cumulative_sizes datasets last default].
    destruct (Z.ltb_spec i 0); [lia|]. cbn [andb bisect_right].
    destruct (Z.leb_spec s i); [lia|]. cbn [lookup list_lookup __getitem__].
    rewrite in_range_guard by done. unfold py_mod.
    destruct (Z.eqb_spec s 0); [lia|]. cbn [mbind result_bind]. by rewrite Z.mod_small.
Qed.

Lemma fully_balanced_single_dataset_example :
  exists c,
    @_combine_datasets reference_collaborators FullyBalancedSamplingConfig
      [list_dataset [energy_item (VInt 7); energy_item (VInt 8)] None] = Ok c
    /\ concat_len c = 2
    /\ concat_getitem c 1 = Ok (energy_item (VInt 8)).
Proof.
  destruct (@fully_balanced_single_dataset reference_collaborators
              (list_dataset [energy_item (VInt 7); energy_item (VInt 8)] None) 2
              eq_refl eq_refl ltac:(lia)) as (c & Hc & _ & Hlen & Hget).
  exists c. split; [exact Hc|]. split; [exact Hlen|].
  rewrite Hget by lia. reflexivity.
Defined.

(** * Temperature sampling *)

(** The quotient of two Python integers [0 <= a <= b] is a float: the
    division does not overflow. *)
Lemma py_int_truediv_le (a b : Z) :
  0 <= a <= b -> 0 < b -> is_ok (py_int_truediv a b) = true.
Proof.
  intros Ha Hb. unfold py_int_truediv.
  destruct (Z.eqb_spec b 0); [lia|]. destruct (Z.eqb_spec a 0); [reflexivity|].
  rewrite SFdiv_core_binary_eq. cbv beta iota zeta.
  rewrite (Z.abs_eq a), (Z.abs_eq b) by lia.
  pose proof (Zdigits2_bounds a ltac:(lia)) as [Hlo1 Hhi1].
  pose proof (Zdigits2_bounds b ltac:(lia)) as [Hlo2 Hhi2].
  pose proof (Zdigits2_pos a ltac:(lia)) as Hd1.
  pose proof (Zdigits2_pos b ltac:(lia)) as Hd2.
  set (d1 := Zdigits2 a) in *. set (d2 := Zdigits2 b) in *.
  assert (Hd12 : d1 <= d2).
  { destruct (Z_le_gt_dec d1 d2); [done|].
    assert (2 ^ d2 <= 2 ^ (d1 - 1)) by (apply Z.pow_le_mono_r; lia). lia. }
  replace (d1 + 0 - (d2 + 0)) with (d1 - d2) by lia.
  assert (Hfe : fexp 53 1024 (d1 - d2) = Z.max (d1 - d2 - 53) (- 1074)) by reflexivity.
  set (e' := Z.min (fexp 53 1024 (d1 - d2)) (0 - 0)).
  assert (He' : e' = Z.max (d1 - d2 - 53) (- 1074)) by (unfold e'; lia).
  set (sh := 0 - 0 - e'). assert (Hsh : 53 <= sh) by (unfold sh; lia).
  pose proof (Z.pow_pos_nonneg 2 sh ltac:(lia) ltac:(lia)) as Hpsh.
  set (q := a * 2 ^ sh / b).
  assert (Hq0 : 0 <= q) by (unfold q; apply Z.div_pos; nia).
  assert (Hqle : q <= 2 ^ sh).
  { unfold q. apply Z.div_le_upper_bound; [lia | nia]. }
  assert (Hdq : Zdigits2 q + e' <= 1).
  { destruct (Z.eq_dec q 0) as [->|Hq]; [simpl; lia|].
    pose proof (Zdigits2_bounds q ltac:(lia)) as [Hloq _].
    destruct (Z_le_gt_dec (Zdigits2 q - 1) sh); [unfold sh in *; lia|].
    assert (2 ^ (sh + 1) <= 2 ^ (Zdigits2 q - 1)) by (apply Z.pow_le_mono_r; lia).
    rewrite Z.pow_add_r in * by lia. lia. }
  assert (Hpre : e' <= fexp 53 1024 (Zdigits2 q + e')).
  { destruct (Z_le_gt_dec (d1 - d2 - 53) (- 1074)) as [Hmin|Hnorm].
    - replace e' with (emin 53 1024) by (rewrite He'; unfold emin; lia).
      apply (fexp_ge_emin 53 1024).
    - assert (He'' : e' = d1 - d2 - 53) by lia.
      assert (H52 : 2 ^ 52 <= q).
      { unfold q. apply Z.div_le_lower_bound; [lia|].
        assert (Hsplit : 2 ^ (d1 - 1) * 2 ^ sh = 2 ^ 52 * 2 ^ d2).
        { rewrite <- !Z.pow_add_r by lia. f_equal. unfold sh. lia. }
        nia. }
      pose proof (Zdigits2_bounds q ltac:(lia)) as [_ Hhiq].
      assert (53 <= Zdigits2 q).
      { destruct (Z_le_gt_dec 53 (Zdigits2 q)); [done|].
        assert (2 ^ Zdigits2 q <= 2 ^ 52) by (apply Z.pow_le_mono_r; lia). lia. }
      transitivity (fexp 53 1024 (53 + e')); [unfold fexp, emin; lia|].
      apply (fexp_mono 53 1024). lia. }
  assert (Hsmall : fexp 53 1024 (Zdigits2 q + e') + 1 <= 1024 - 53).
  { pose proof (fexp_mono 53 1024 _ _ Hdq) as Hm. unfold fexp, emin in *. lia. }
  destruct (binary_round_aux_spec 53 1024 ltac:(lia) (xorb (a <? 0) (b <? 0)) q e'
              (new_location b (a * 2 ^ sh mod b)) Hq0 Hpre)
    as (m2 & _ & [(_ & _ & ->)|[(_ & ->)|(_ & _ & ->)]]).
  - reflexivity.
  - destruct (Z.leb_spec (fexp 53 1024 (Zdigits2 q + e')) (1024 - 53)); [reflexivity | lia].
  - destruct (Z.leb_spec (fexp 53 1024 (Zdigits2 q + e') + 1) (1024 - 53));
      [reflexivity | lia].
Qed.

Lemma sized_lengths_map_result (ds : list Dataset) (sizes : list Z) :
  Forall2 (fun d s => is_sized d = true /\ len d = Ok s) ds sizes ->
  map_result (fun d => if negb (is_sized d) then Raise TypeError else len d) ds = Ok sizes.
Proof.
  induction 1 as [|d s ds sizes [Hs Hl] _ IH]; [reflexivity|].
  simpl. rewrite Hs, Hl. simpl. by rewrite IH.
Qed.

(** X30: Temperature sampling with the temperature 0.  For every list of
    sized datasets, [_combine_datasets] raises [ZeroDivisionError] when the
    temperature is zero: the exponent [1.0 / temperature] is a division by
    zero (and for an empty list, or datasets that are all empty, the ratio
    of sizes is one already). *)
Theorem temperature_zero_rejected `{Collaborators} (ds : list Dataset) (sizes : list Z)
    (temperature : spec_float) :
  Forall2 (fun d s => is_sized d = true /\ len d = Ok s) ds sizes ->
  is_zero temperature = true ->
  _combine_datasets (TemperatureSamplingConfig temperature) ds = Raise ZeroDivisionError.
Proof.
  intros Hds Ht. unfold _combine_datasets.
  rewrite (sized_lengths_map_result ds sizes Hds). cbn [mbind result_bind].
  assert (Hnn : Forall (fun s => 0 <= s) sizes).
  { clear -Hds. induction Hds as [|d s ds sizes [_ Hl] _ IH]; constructor; [|done].
    by apply (len_nonneg d). }
  destruct sizes as [|s rest]; [reflexivity|].
  unfold sampling_ratios. cbn [map_result].
  set (total := py_sum_int (s :: rest)).
  assert (Hfirst : (base ← py_int_truediv s total;
                    exponent ← py_float_div f64_one temperature;
                    py_float_pow base exponent) = Raise ZeroDivisionError).
  { inversion Hnn as [|? ? Hs0 Hrest]; subst.
    assert (Htot : s <= total).
    { unfold total. rewrite py_sum_int_cons.
      pose proof (py_sum_int_nonneg rest Hrest). lia. }
    destruct (Z.eq_dec total 0) as [Hz|Hnz].
    - unfold py_int_truediv. rewrite Hz. reflexivity.
    - pose proof (py_int_truediv_le s total ltac:(lia) ltac:(lia)) as Hok.
      destruct (py_int_truediv s total) as [base|]; [|discriminate].
      cbn [mbind result_bind]. unfold py_float_div. rewrite Ht. reflexivity. }
  rewrite Hfirst. reflexivity.
Qed.

Lemma temperature_zero_rejected_example :
  @_combine_datasets reference_collaborators (TemperatureSamplingConfig f64_zero)
    [list_dataset [energy_item VNone] None; list_dataset [energy_item VNone] None]
  = Raise ZeroDivisionError.
Proof.
  apply (@temperature_zero_rejected reference_collaborators
           [list_dataset [energy_item VNone] None; list_dataset [energy_item VNone] None]
           [1; 1] f64_zero); [|reflexivity].
  repeat constructor.
Defined.
